(** * Safety Standards Analyzer: the document processor

    A shallow embedding of [components/document_processor.py]: the
    in-memory store of documents, sections and embeddings, its JSON / npy
    persistence, ingestion through the segmentation and embedding oracles,
    cosine-similarity search and the document network; then of the code
    around it: the gap analyser, the recommendation engine, and the
    counting behind the dashboard and the heat map.

    Python strings are [string]s whose characters are code points below
    256, numpy's float64 is the primitive binary64 [float], a Python [int]
    that may be negative is a [Z], a length or a position is a [nat].
    What numpy does not fix, the rounding of its dot products and norms
    and the order in which [argsort] leaves equal values, is a parameter
    of the model: the properties hold whatever numpy does there. *)

From Stdlib Require Import ZArith Ascii String Floats DecimalString Sorted.
From stdpp Require Import base option list gmap strings sorting.

Open Scope string_scope.
Open Scope nat_scope.

(** ** Python's string primitives *)

Module Py.

Definition code (c : ascii) : nat := nat_of_ascii c.

(** [str.isspace] on one character, over the Latin-1 range. *)
Definition isspace (c : ascii) : bool :=
  let n := code c in
  ((9 <=? n) && (n <=? 13)) || ((28 <=? n) && (n <=? 32))
  || (n =? 133) || (n =? 160).

Definition LF : ascii := ascii_of_nat 10.

Definition is_lf (c : ascii) : bool := code c =? 10.

Fixpoint lstrip (s : string) : string :=
  match s with
  | EmptyString => EmptyString
  | String c r => if isspace c then lstrip r else s
  end.

Fixpoint rstrip (s : string) : string :=
  match s with
  | EmptyString => EmptyString
  | String c r =>
      match rstrip r with
      | EmptyString => if isspace c then EmptyString else String c EmptyString
      | r' => String c r'
      end
  end.

(** [s.strip()] *)
Definition strip (s : string) : string := rstrip (lstrip s).

(** The truth value of a string: it is not empty. *)
Definition truthy (s : string) : bool :=
  match s with EmptyString => false | _ => true end.

(** [s.split("\n\n")], as the chunk being read and the chunks after it:
    separators are matched left to right and do not overlap. *)
Fixpoint split_blank_go (s : string) : string * list string :=
  match s with
  | EmptyString => (EmptyString, [])
  | String c r =>
      match r with
      | String c' r' =>
          if is_lf c && is_lf c' then
            let '(h, t) := split_blank_go r' in (EmptyString, h :: t)
          else
            let '(h, t) := split_blank_go r in (String c h, t)
      | EmptyString => (String c EmptyString, [])
      end
  end.

Definition split_blank (s : string) : list string :=
  let '(h, t) := split_blank_go s in h :: t.

(** [s.split()]: the maximal runs of characters that are not spaces. *)
Fixpoint split_ws_go (s : string) : string * list string :=
  match s with
  | EmptyString => (EmptyString, [])
  | String c r =>
      let '(w, ws) := split_ws_go r in
      if isspace c then (EmptyString, if truthy w then w :: ws else ws)
      else (String c w, ws)
  end.

Definition split_ws (s : string) : list string :=
  let '(w, ws) := split_ws_go s in if truthy w then w :: ws else ws.

(** [str(n)] for a natural number. *)
Definition str_of_nat (n : nat) : string :=
  NilEmpty.string_of_uint (Nat.to_uint n).

(** [s[:n]] *)
Definition prefix (n : nat) (s : string) : string := substring 0 n s.

(** [s[1:]] *)
Definition tail (s : string) : string :=
  match s with EmptyString => EmptyString | String _ r => r end.

(** [str.lower] on one character, over the Latin-1 range. *)
Definition lower_char (c : ascii) : ascii :=
  let n := code c in
  if ((65 <=? n) && (n <=? 90))
     || ((192 <=? n) && (n <=? 222) && negb (n =? 215))
  then ascii_of_nat (n + 32) else c.

Fixpoint lower (s : string) : string :=
  match s with
  | EmptyString => EmptyString
  | String c r => String (lower_char c) (lower r)
  end.

(** [l[start:]] for a start that may be negative: a negative start
    counts from the end and is clipped at the first element. *)
Definition slice_from {A} (start : Z) (l : list A) : list A :=
  let n := Z.of_nat (length l) in
  let s := if (start <? 0)%Z then Z.max 0 (n + start) else Z.min start n in
  drop (Z.to_nat s) l.

(** [enumerate(l, k)] *)
Fixpoint enumerate_from {A} (k : nat) (l : list A) : list (nat * A) :=
  match l with
  | [] => []
  | x :: r => (k, x) :: enumerate_from (S k) r
  end.

Definition enumerate {A} (l : list A) : list (nat * A) := enumerate_from 0 l.

End Py.

(** ** Exceptions *)

Inductive exn : Type :=
| ValueError          (* unsupported format, ragged or mismatched arrays *)
| IndexError          (* a list read past its end *)
| UnicodeDecodeError  (* file content that is not UTF-8 *)
| ExtractionError     (* the PDF or DOCX reader failed *)
| APIError            (* a remote call of the OpenAI client failed *)
| MalformedResponse.  (* a response of an unexpected shape: TypeError, AttributeError *)

Inductive result (A : Type) : Type :=
| Ok (a : A)
| Raise (e : exn).
Arguments Ok {A} a.
Arguments Raise {A} e.

Definition rbind {A B} (r : result A) (k : A -> result B) : result B :=
  match r with Ok a => k a | Raise e => Raise e end.

(** ** numpy on float64 *)

Module Np.

Definition vec := list float.

(** The order numpy sorts floats by: [a < b], with every NaN after
    every number. *)
Definition npy_lt (a b : float) : bool :=
  (a <? b)%float || (is_nan b && negb (is_nan a)).

(** [np.array(rows)] for a non-empty list of rows: a matrix when the
    rows have one length, [ValueError] when they are ragged. *)
Definition rectangular (rows : list vec) : bool :=
  match rows with
  | [] => true
  | r :: rs => forallb (fun r' => length r' =? length r) rs
  end.

Definition array (rows : list vec) : result (list vec) :=
  if rectangular rows then Ok rows else Raise ValueError.

(** What numpy leaves to the kernels it runs on. The value of a dot
    product and of a norm depends on the order and the rounding of the
    sum, which are those of the BLAS and of the loops of the build in
    use; [np.argsort], whose default kind is not stable, leaves the
    indices of equal values in an order of its own. A kernel gives these
    values; the code is modelled over any of them. *)
Record kernel : Type := mkKernel {
  (* [np.dot(a, b)] on two vectors of one length *)
  vdot : vec -> vec -> float;
  (* entry [i] of [np.dot(m, q)] on a matrix whose rows have the length of [q] *)
  mdot : list vec -> vec -> nat -> float;
  (* [np.linalg.norm(a)] on a vector *)
  vnorm : vec -> float;
  (* entry [i] of [np.linalg.norm(m, axis=1)] *)
  mnorm : list vec -> nat -> float;
  (* the place [np.argsort(a)] gives index [i] among the indices of equal value *)
  ties : list float -> nat -> nat
}.

(** Insertion of [x] into a list sorted by [lt]: after every element that
    sorts strictly before it. *)
Fixpoint insert_by {A} (lt : A -> A -> bool) (x : A) (l : list A) : list A :=
  match l with
  | [] => [x]
  | y :: l' => if lt y x then y :: insert_by lt x l' else x :: y :: l'
  end.

(** The sort by insertion: elements that [lt] does not tell apart keep
    their order. *)
Definition sort_by {A} (lt : A -> A -> bool) (l : list A) : list A :=
  foldr (insert_by lt) [] l.

(** The kernel [K] with other places for the indices of equal values. *)
Definition with_ties (K : kernel) (places : list float -> nat -> nat) : kernel :=
  mkKernel (vdot K) (mdot K) (vnorm K) (mnorm K) places.

Section Kernel.

Variable K : kernel.

(** [np.dot(a, b)] on two vectors: [ValueError] on different lengths. *)
Definition dot (a b : vec) : result float :=
  if length a =? length b then Ok (vdot K a b) else Raise ValueError.

(** [np.linalg.norm(a)] *)
Definition norm (a : vec) : float := vnorm K a.

(** [np.dot(m, q)] on a matrix and a vector: one entry for each row,
    [ValueError] when the rows have another length than [q]. *)
Definition matvec (m : list vec) (q : vec) : result (list float) :=
  if forallb (fun r => length r =? length q) m
  then Ok (map (mdot K m q) (seq 0 (length m)))
  else Raise ValueError.

(** [np.linalg.norm(m, axis=1)]: one entry for each row. *)
Definition norm_rows (m : list vec) : list float :=
  map (mnorm K m) (seq 0 (length m)).

(** [np.argsort(a)]: the indices of [a] in ascending order of their
    values, every NaN last; the indices of equal values stand in the
    order of the places the kernel gives them. *)
Definition argsort (a : list float) : list nat :=
  sort_by (fun i j => npy_lt (nth i a nan) (nth j a nan))
    (sort_by (fun i j => ties K a i <? ties K a j) (seq 0 (length a))).

(** The cosine similarity of two vectors as the source writes it, with
    no special case for a zero norm. *)
Definition cosine (a b : vec) : result float :=
  rbind (dot a b) (fun d => Ok (d / (norm a * norm b))%float).

End Kernel.

(** A kernel to run examples with: the sum of products accumulated from
    the left, every product and every sum rounded, and equal values left
    in index order. The examples use it where the products and the sums
    are exact. *)
Fixpoint dot_from (acc : float) (a b : vec) : float :=
  match a, b with
  | x :: a', y :: b' => dot_from (acc + x * y)%float a' b'
  | _, _ => acc
  end.

Definition reference : kernel :=
  mkKernel
    (dot_from 0%float)
    (fun m q i => dot_from 0%float (nth i m []) q)
    (fun a => sqrt (dot_from 0%float a a))
    (fun m i => sqrt (dot_from 0%float (nth i m []) (nth i m [])))
    (fun _ _ => 0).

Definition vadd (a b : vec) : vec := zip_with (fun x y => (x + y)%float) a b.

Definition of_nat (n : nat) : float :=
  PrimFloat.of_uint63 (Uint63.of_Z (Z.of_nat n)).

(** [np.mean(rows, axis=0)] for a non-empty list of rows: the rows are
    added up in order and the sum is divided by their number. *)
Definition mean0 (rows : list vec) : result vec :=
  match rows with
  | [] => Raise ValueError
  | r :: rs =>
      rbind (array rows) (fun _ =>
      Ok (map (fun x => (x / of_nat (length rows))%float) (foldl vadd r rs)))
  end.

End Np.

(** ** [os.path] *)

Module OsPath.

Definition is_slash (c : ascii) : bool := Py.code c =? 47.
Definition is_dot (c : ascii) : bool := Py.code c =? 46.

(** What follows the last [/], when there is one. *)
Fixpoint after_slash (p : string) : option string :=
  match p with
  | EmptyString => None
  | String c r =>
      match after_slash r with
      | Some t => Some t
      | None => if is_slash c then Some r else None
      end
  end.

(** [os.path.basename(p)] *)
Definition basename (p : string) : string := default p (after_slash p).

Fixpoint skip_dots (s : string) : string :=
  match s with
  | EmptyString => EmptyString
  | String c r => if is_dot c then skip_dots r else s
  end.

(** The suffix that starts at the last dot, when there is one. *)
Fixpoint from_last_dot (s : string) : option string :=
  match s with
  | EmptyString => None
  | String c r =>
      match from_last_dot r with
      | Some e => Some e
      | None => if is_dot c then Some s else None
      end
  end.

(** [os.path.splitext(p)[1]]: the extension starts at the last dot of
    the base name, leading dots of the base name apart. *)
Definition splitext_ext (p : string) : string :=
  default EmptyString (from_last_dot (skip_dots (basename p))).

End OsPath.

(** ** The data model *)

Module Doc.
Record t : Type := mk {
  id : string;
  filename : string;
  type : string;
  size : nat;
  processed_date : string
}.
End Doc.

Module Sec.
Record t : Type := mk {
  id : string;
  document_id : string;
  index : nat;
  title : string;
  content : string;
  word_count : nat
}.
End Sec.

(** The three collections a [DocumentProcessor] holds. *)
Record Self : Type := mkSelf {
  documents : list Doc.t;
  sections : list Sec.t;
  embeddings : list Np.vec
}.

Definition empty_self : Self := mkSelf [] [] [].

(** A file of the data directory: absent, present with content that
    [json.load] or [np.load] raises on, or present with a stored value. *)
Inductive stored (A : Type) : Type :=
| Missing
| Corrupt
| Stored (a : A).
Arguments Missing {A}.
Arguments Corrupt {A}.
Arguments Stored {A} a.

Record Disk : Type := mkDisk {
  documents_json : stored (list Doc.t);
  sections_json : stored (list Sec.t);
  embeddings_npy : stored (list Np.vec)
}.

Definition empty_disk : Disk := mkDisk Missing Missing Missing.

(** ** Loading and saving *)

(** [if os.path.exists(path): x = load(path)]: the current value stays
    when the file is absent, the load raises when it is corrupt. *)
Definition load_if_exists {A} (f : stored A) (current : A) : result A :=
  match f with
  | Missing => Ok current
  | Corrupt => Raise ValueError
  | Stored a => Ok a
  end.

(** [_load_data]: the three loads run in order inside one [try]; the
    handler resets the embeddings only, so what an earlier load assigned
    stays. *)
Definition _load_data (d : Disk) (s : Self) : Self :=
  match load_if_exists (documents_json d) (documents s) with
  | Raise _ => mkSelf (documents s) (sections s) []
  | Ok docs =>
      match load_if_exists (sections_json d) (sections s) with
      | Raise _ => mkSelf docs (sections s) []
      | Ok secs =>
          match load_if_exists (embeddings_npy d) (embeddings s) with
          | Raise _ => mkSelf docs secs []
          | Ok embs => mkSelf docs secs embs
          end
      end
  end.

(** [__init__]: empty collections, then [_load_data]. *)
Definition init (d : Disk) : Self := _load_data d empty_self.

(** [_save_data]: documents and sections are always written; the
    embeddings only when there is at least one, and a ragged list makes
    [np.array] raise, which the handler swallows after the two JSON files
    were written. *)
Definition _save_data (s : Self) (d : Disk) : Disk :=
  let d1 := mkDisk (Stored (documents s)) (Stored (sections s)) (embeddings_npy d) in
  if 0 <? length (embeddings s) then
    match Np.array (embeddings s) with
    | Ok arr => mkDisk (documents_json d1) (sections_json d1) (Stored arr)
    | Raise _ => d1
    end
  else d1.

(** ** The processor over its environment *)

(** An uploaded file: [file.name] and what [file.read()] returns. *)
Record UploadedFile : Type := mkFile {
  name : string;
  data : list Byte.byte
}.

(** One entry of the list the segmentation oracle answers with: a JSON
    object read through [.get('title', ...)] and [.get('content', '')]. *)
Record Candidate : Type := mkCandidate {
  c_title : option string;
  c_content : option string
}.

(** What [json.loads(response...content)['sections']] does with the
    reply of the segmentation oracle. *)
Inductive ChatReply : Type :=
| NotJSON                            (* json.JSONDecodeError *)
| NoSectionsKey                      (* a JSON object without 'sections': KeyError *)
| SectionList (items : list Candidate)
| OtherShape.                        (* any other value: TypeError or AttributeError *)

(** One record of a search result. *)
Record SearchResult : Type := mkResult {
  r_id : string;
  r_document : string;
  r_section : string;
  r_content : string;
  r_score : float;
  r_title : string
}.

Record Node : Type := mkNode { n_id : string; n_label : string; n_size : nat }.
Record Edge : Type := mkEdge { source : string; target : string; weight : float }.
Record Network : Type := mkNetwork { nodes : list Node; edges : list Edge }.

(** The state a method runs in: the processor's collections, the data
    directory, and the state of everything outside (the random source of
    [uuid4], the clock, the remote models). *)
Record St (W : Type) : Type := mkSt {
  self : Self;
  disk : Disk;
  world : W
}.
Arguments mkSt {W} self disk world.
Arguments self {W} s.
Arguments disk {W} s.
Arguments world {W} s.

(** A method: it returns or raises, and either way leaves a state. *)
Definition M (W A : Type) : Type := St W -> result A * St W.

Definition ret {W A} (a : A) : M W A := fun st => (Ok a, st).

Definition raise {W A} (e : exn) : M W A := fun st => (Raise e, st).

Definition bind {W A B} (m : M W A) (k : A -> M W B) : M W B :=
  fun st =>
    match m st with
    | (Ok a, st') => k a st'
    | (Raise e, st') => (Raise e, st')
    end.

Notation "'let*' x ':=' m 'in' k" := (bind m (fun x => k))
  (at level 10, x name, m at level 100, k at level 200).

Definition lift {W A} (r : result A) : M W A := fun st => (r, st).

Definition get_self {W} : M W Self := fun st => (Ok (self st), st).

Definition modify_self {W} (f : Self -> Self) : M W unit :=
  fun st => (Ok tt, mkSt (f (self st)) (disk st) (world st)).

Definition modify_disk {W} (f : Self -> Disk -> Disk) : M W unit :=
  fun st => (Ok tt, mkSt (self st) (f (self st) (disk st)) (world st)).

(** A call to the outside: it may raise, and it moves the world on. *)
Definition call {W A} (f : W -> result A * W) : M W A :=
  fun st => let '(r, w) := f (world st) in (r, mkSt (self st) (disk st) w).

(** [for x in l: body x] *)
Fixpoint for_each {W A} (l : list A) (body : A -> M W unit) : M W unit :=
  match l with
  | [] => ret tt
  | x :: l' => let* _ := body x in for_each l' body
  end.

(** [for x in l: acc.append(<body x>)] onto a local list. *)
Fixpoint collect {W A B} (l : list A) (body : A -> M W B) : M W (list B) :=
  match l with
  | [] => ret []
  | x :: l' => let* y := body x in let* ys := collect l' body in ret (y :: ys)
  end.

Definition dot_pdf : string := ".pdf".
Definition dot_docx : string := ".docx".
Definition dot_txt : string := ".txt".
Definition blank_line : string := String Py.LF (String Py.LF EmptyString).
Definition newline : string := String Py.LF EmptyString.

(** The threshold of the network, the double nearest to 0.8. *)
Definition threshold : float := 0x1.999999999999ap-1%float.

(** The number of characters of a text the embedding oracle is sent. *)
Definition embedding_limit : nat := Z.to_nat 8000.

Definition ellipsis : string := "...".

Section Processor.

(** The kernel numpy runs on, the state of the outside world and the
    calls that reach it. *)
Variable np : Np.kernel.
Context {W : Type}.
Variable uuid4 : W -> string * W.
Variable timestamp_now : W -> string * W.
(** [client.chat.completions.create], from the paragraphs put in the
    prompt to the reply as [json.loads(...)['sections']] reads it. *)
Variable chat_completions_create : list string -> W -> result ChatReply * W.
(** [client.embeddings.create(...).data[0].embedding] *)
Variable embeddings_create : string -> W -> result Np.vec * W.
(** The pages of a PDF and the paragraphs of a DOCX, as their readers
    extract them, and [bytes.decode('utf-8')]. *)
Variable pdf_pages : list Byte.byte -> result (list string).
Variable docx_paragraphs : list Byte.byte -> result (list string).
Variable decode_utf8 : list Byte.byte -> result string.

Definition fresh_uuid : M W string :=
  call (fun w => let '(u, w') := uuid4 w in (Ok u, w')).

Definition fresh_timestamp : M W string :=
  call (fun w => let '(t, w') := timestamp_now w in (Ok t, w')).

(** [text += page.extract_text() + "\n\n"] over the pages. *)
Definition _extract_text_from_pdf (content : list Byte.byte) : result string :=
  rbind (pdf_pages content) (fun pages =>
  Ok (foldl (fun text page => text +:+ page +:+ blank_line) EmptyString pages)).

(** [text += para.text + "\n"] over the paragraphs. *)
Definition _extract_text_from_docx (content : list Byte.byte) : result string :=
  rbind (docx_paragraphs content) (fun paras =>
  Ok (foldl (fun text para => text +:+ para +:+ newline) EmptyString paras)).

(** The comprehension of the fallback: every paragraph that is not
    blank, titled by its position among all the paragraphs. *)
Definition fallback_sections (sections_text : list string) : list Candidate :=
  omap (fun '(i, s) =>
          if Py.truthy (Py.strip s)
          then Some (mkCandidate (Some ("Section " +:+ Py.str_of_nat (i + 1))) (Some s))
          else None)
       (Py.enumerate sections_text).

Definition format_section (doc_id : string) (ic : nat * Candidate) : M W Sec.t :=
  let '(i, section) := ic in
  let* section_id := fresh_uuid in
  ret (Sec.mk section_id doc_id i
         (default ("Section " +:+ Py.str_of_nat (i + 1)) (c_title section))
         (Py.strip (default EmptyString (c_content section)))
         (length (Py.split_ws (default EmptyString (c_content section))))).

Definition _split_into_sections (text doc_id : string) : M W (list Sec.t) :=
  let sections_text := Py.split_blank text in
  let* response := call (chat_completions_create (take 10 sections_text)) in
  let* parsed_sections :=
    match response with
    | SectionList items => ret items
    | NotJSON | NoSectionsKey => ret (fallback_sections sections_text)
    | OtherShape => raise MalformedResponse
    end in
  collect (Py.enumerate parsed_sections) (format_section doc_id).

Definition _create_embedding (text : string) : M W Np.vec :=
  call (embeddings_create (Py.prefix embedding_limit text)).

Definition append_document (d : Doc.t) (s : Self) : Self :=
  mkSelf (documents s ++ [d]) (sections s) (embeddings s).

Definition append_section (x : Sec.t) (s : Self) : Self :=
  mkSelf (documents s) (sections s ++ [x]) (embeddings s).

Definition append_embedding (e : Np.vec) (s : Self) : Self :=
  mkSelf (documents s) (sections s) (embeddings s ++ [e]).

(** The branch on the extension: the text of the file, or [ValueError]
    for an extension that is none of the three. *)
Definition extract_text (file_extension : string) (file_content : list Byte.byte)
  : result string :=
  if String.eqb file_extension dot_pdf then _extract_text_from_pdf file_content
  else if String.eqb file_extension dot_docx then _extract_text_from_docx file_content
  else if String.eqb file_extension dot_txt then decode_utf8 file_content
  else Raise ValueError.

Definition process_document (file : UploadedFile) : M W unit :=
  let file_content := data file in
  let file_name := name file in
  let file_extension := Py.lower (OsPath.splitext_ext file_name) in
  let* text := lift (extract_text file_extension file_content) in
  let* doc_id := fresh_uuid in
  let* now := fresh_timestamp in
  let document :=
    Doc.mk doc_id file_name (Py.tail file_extension) (length file_content) now in
  let* _ := modify_self (append_document document) in
  let* sections := _split_into_sections text doc_id in
  let* _ :=
    for_each sections (fun section =>
      let* embedding := _create_embedding (Sec.content section) in
      let* _ := modify_self (append_section section) in
      modify_self (append_embedding embedding)) in
  modify_disk _save_data.

(** [np.dot(E, q) / (np.linalg.norm(E, axis=1) * np.linalg.norm(q))] *)
Definition similarities (embeddings_array : list Np.vec) (q : Np.vec)
  : result (list float) :=
  rbind (Np.matvec np embeddings_array q) (fun dots =>
  Ok (zip_with (fun d n => (d / (n * Np.norm np q))%float)
        dots (Np.norm_rows np embeddings_array))).

(** [np.argsort(similarities)[-top_k:][::-1]] *)
Definition top_indices (sims : list float) (top_k : Z) : list nat :=
  reverse (Py.slice_from (- top_k)%Z (Np.argsort np sims)).

(** [next((d for d in documents if d['id'] == doc_id), {})] *)
Definition find_document (docs : list Doc.t) (doc_id : string) : option Doc.t :=
  find (fun d => String.eqb (Doc.id d) doc_id) docs.

Definition preview (content : string) : string :=
  if 300 <? String.length content then Py.prefix 300 content +:+ ellipsis
  else content.

Definition result_at (s : Self) (sims : list float) (idx : nat)
  : result SearchResult :=
  match sections s !! idx, sims !! idx with
  | Some section, Some score =>
      let document := find_document (documents s) (Sec.document_id section) in
      Ok (mkResult (Sec.id section)
            (from_option Doc.filename "Unknown" document)
            (Sec.title section)
            (preview (Sec.content section))
            score
            (Sec.title section))
  | _, _ => Raise IndexError
  end.

Fixpoint results_for (s : Self) (sims : list float) (idxs : list nat)
  : result (list SearchResult) :=
  match idxs with
  | [] => Ok []
  | idx :: idxs' =>
      rbind (result_at s sims idx) (fun r =>
      rbind (results_for s sims idxs') (fun rs => Ok (r :: rs)))
  end.

Definition search_standards (query : string) (top_k : Z) : M W (list SearchResult) :=
  let* query_embedding := _create_embedding query in
  let* s := get_self in
  if length (embeddings s) =? 0 then ret []
  else
    let* embeddings_array := lift (Np.array (embeddings s)) in
    let* sims := lift (similarities embeddings_array query_embedding) in
    lift (results_for s sims (top_indices sims top_k)).

Definition get_document_count : M W nat :=
  let* s := get_self in ret (length (documents s)).

Definition get_section_count : M W nat :=
  let* s := get_self in ret (length (sections s)).

(** *** What the properties of the processor are stated with *)

(** The embedding oracle over the texts of a list of sections, from a
    state of the world: the vectors it returned, the error that stopped it
    if one did, and the world it left. *)
Fixpoint embed_run (texts : list string) (w : W) : list Np.vec * option exn * W :=
  match texts with
  | [] => ([], None, w)
  | t :: ts =>
      match embeddings_create (Py.prefix embedding_limit t) w with
      | (Ok e, w') => let '(es, r, w'') := embed_run ts w' in (e :: es, r, w'')
      | (Raise x, w') => ([], Some x, w')
      end
  end.

(** The document record [process_document] builds for a file. *)
Definition document_of (file : UploadedFile) (doc_id now : string) : Doc.t :=
  Doc.mk doc_id (name file)
    (Py.tail (Py.lower (OsPath.splitext_ext (name file))))
    (length (data file)) now.

(** The states reached from empty collections by calls of
    [process_document] that returned. *)
Inductive reachable : St W -> Prop :=
| reachable_start (d : Disk) (w : W) : reachable (mkSt empty_self d w)
| reachable_step (st st' : St W) (file : UploadedFile) :
    reachable st ->
    process_document file st = (Ok tt, st') ->
    reachable st'.

End Processor.

(** Sections and embeddings are aligned, and every section belongs to a
    stored document. *)
Definition store_invariant (s : Self) : Prop :=
  length (sections s) = length (embeddings s) /\
  forall x, x ∈ sections s ->
    exists d, d ∈ documents s /\ Doc.id d = Sec.document_id x.


(** ** The document network *)

(** [[i for i, s in enumerate(sections) if s["document_id"] == doc_id]] *)
Definition doc_sections (secs : list Sec.t) (doc_id : string) : list nat :=
  omap (fun '(i, x) =>
          if String.eqb (Sec.document_id x) doc_id then Some i else None)
       (Py.enumerate secs).

(** [[embeddings[i] for i in idxs]] *)
Fixpoint rows_at (embs : list Np.vec) (idxs : list nat) : result (list Np.vec) :=
  match idxs with
  | [] => Ok []
  | i :: idxs' =>
      match embs !! i with
      | None => Raise IndexError
      | Some e => rbind (rows_at embs idxs') (fun es => Ok (e :: es))
      end
  end.

(** The centroid of a document, when it has a section. *)
Definition centroid (s : Self) (doc_id : string) : result (option Np.vec) :=
  match doc_sections (sections s) doc_id with
  | [] => Ok None
  | idxs =>
      rbind (rows_at (embeddings s) idxs) (fun rows =>
      rbind (Np.mean0 rows) (fun c => Ok (Some c)))
  end.

(** The loop that fills the dict [doc_embeddings]. *)
Fixpoint doc_embeddings_loop (s : Self) (doc_ids : list string)
    (doc_embeddings : gmap string Np.vec) : result (gmap string Np.vec) :=
  match doc_ids with
  | [] => Ok doc_embeddings
  | doc_id :: doc_ids' =>
      rbind (centroid s doc_id) (fun c =>
      doc_embeddings_loop s doc_ids'
        (match c with
         | Some e => <[doc_id := e]> doc_embeddings
         | None => doc_embeddings
         end))
  end.

Section Network.

Variable np : Np.kernel.

(** The inner loop over [doc_ids[i+1:]] for one [doc1_id]. *)
Fixpoint edges_from (doc_embeddings : gmap string Np.vec)
    (doc1_id : string) (e1 : Np.vec) (later : list string) (edges : list Edge)
    : result (list Edge) :=
  match later with
  | [] => Ok edges
  | doc2_id :: later' =>
      match doc_embeddings !! doc2_id with
      | None => edges_from doc_embeddings doc1_id e1 later' edges
      | Some e2 =>
          rbind (Np.cosine np e1 e2) (fun similarity =>
          edges_from doc_embeddings doc1_id e1 later'
            (if (threshold <? similarity)%float
             then edges ++ [mkEdge doc1_id doc2_id similarity]
             else edges))
      end
  end.

(** The outer loop over [doc_ids]. *)
Fixpoint edges_loop (doc_embeddings : gmap string Np.vec)
    (doc_ids : list string) (edges : list Edge) : result (list Edge) :=
  match doc_ids with
  | [] => Ok edges
  | doc1_id :: later =>
      match doc_embeddings !! doc1_id with
      | None => edges_loop doc_embeddings later edges
      | Some e1 =>
          rbind (edges_from doc_embeddings doc1_id e1 later edges) (fun edges' =>
          edges_loop doc_embeddings later edges')
      end
  end.

Definition node_of (d : Doc.t) : Node :=
  mkNode (Doc.id d) (OsPath.basename (Doc.filename d)) 10.

Definition get_standards_network (s : Self) : result Network :=
  if length (sections s) <? 2 then Ok (mkNetwork [] [])
  else
    let nodes := map node_of (documents s) in
    let doc_ids := map Doc.id (documents s) in
    rbind (doc_embeddings_loop s doc_ids ∅) (fun doc_embeddings =>
    rbind (edges_loop doc_embeddings doc_ids []) (fun edges =>
    Ok (mkNetwork nodes edges))).

End Network.

(** ** Notions the properties are stated with *)

(** A file of the data directory is unreadable. *)
Definition corrupted (d : Disk) : Prop :=
  documents_json d = Corrupt \/ sections_json d = Corrupt \/ embeddings_npy d = Corrupt.

(** What a load leaves of a file that did not make it raise. *)
Definition loaded {A} (f : stored (list A)) : list A :=
  match f with Stored a => a | _ => [] end.

(** The data directory holds no embedding rows from an earlier save. *)
Definition no_stale_rows (d : Disk) : Prop :=
  match embeddings_npy d with Stored (_ :: _) => False | _ => True end.

Definition doc0 : Doc.t := Doc.mk "d-0" "iso45001.txt" "txt" 12 "2024-01-01T00:00:00".
Definition sec0 : Sec.t := Sec.mk "s-0" "d-0" 0 "Scope" "Scope of the standard" 4.
Definition sec1 : Sec.t := Sec.mk "s-1" "d-0" 1 "Terms" "Terms and definitions" 3.

(** A documents file that reads, next to a sections file that does not. *)
Definition disk_half_read : Disk := mkDisk (Stored [doc0]) Corrupt Missing.

(** One section persisted with two embedding rows. *)
Definition disk_misaligned : Disk :=
  mkDisk (Stored [doc0]) (Stored [sec0]) (Stored [[1; 0]; [0; 1]]%float).

(** An embeddings file left behind by an earlier save. *)
Definition disk_stale : Disk := mkDisk Missing Missing (Stored [[1; 0]]%float).

(** The cosine similarity of row [i] of the stored embeddings to the
    query, from the values numpy computes: one quotient of floats, with no
    case for a zero norm. *)
Definition score (np : Np.kernel) (rows : list Np.vec) (q : Np.vec) (i : nat)
    : float :=
  (Np.mdot np rows q i / (Np.mnorm np rows i * Np.vnorm np q))%float.

(** Every row has the length of the query. *)
Definition rows_match (q : Np.vec) (rows : list Np.vec) : bool :=
  forallb (fun r => length r =? length q) rows.

(** A result stands for the stored section at an index, with its
    similarity as score. *)
Definition result_of_index (s : Self) (sims : list float) (idx : nat)
    (r : SearchResult) : Prop :=
  sims !! idx = Some (r_score r) /\
  exists section, sections s !! idx = Some section /\ r_id r = Sec.id section.

(** The place of a float that is not NaN on the number line, as a triple
    compared lexicographically: its class (infinities, negative and
    positive numbers, zeros), then exponent and mantissa, both negated
    for a negative number. *)
Definition rank (f : spec_float) : Z * Z * Z :=
  match f with
  | S754_nan => (0, 0, 0)
  | S754_zero _ => (0, 0, 0)
  | S754_infinity true => (-2, 0, 0)
  | S754_infinity false => (2, 0, 0)
  | S754_finite true m e => (-1, - e, Z.neg m)
  | S754_finite false m e => (1, e, Z.pos m)
  end%Z.

Definition lex_compare (a b : Z * Z * Z) : comparison :=
  match (a.1.1 ?= b.1.1)%Z with
  | Eq => match (a.1.2 ?= b.1.2)%Z with
          | Eq => (a.2 ?= b.2)%Z
          | c => c
          end
  | c => c
  end.

Definition frank (x : float) : Z * Z * Z := rank (Prim2SF x).

(** [x] is at most [y], as floats compare. *)
Definition at_most (x y : float) : Prop := (x <=? y)%float = true.

(** The key of an index is a number. *)
Definition good_key (key : nat -> float) (i : nat) : Prop := is_nan (key i) = false.

(** The order [argsort] leaves its indices in: ascending keys. *)
Definition asc (key : nat -> float) (i j : nat) : Prop :=
  at_most (key i) (key j).

(** The place of an index in a list of indices, and past the end of the
    list for an index that is not in it. *)
Fixpoint place_in (p : list nat) (i : nat) : nat :=
  match p with
  | [] => i
  | j :: p' => if i =? j then 0 else S (place_in p' i)
  end.

(** The similarities of the stored embeddings to a query vector. *)
Definition stored_scores (np : Np.kernel) (q : Np.vec) (s : Self) : list float :=
  map (score np (embeddings s) q) (seq 0 (length (embeddings s))).

(** No entry of a list of floats is NaN. *)
Definition no_nan (l : list float) : Prop := Forall (fun x => is_nan x = false) l.

(** The identifiers and the scores of what a search returned. *)
Definition result_ids (r : result (list SearchResult)) : result (list string) :=
  rbind r (fun rs => Ok (map r_id rs)).

Definition result_scores (r : result (list SearchResult)) : result (list float) :=
  rbind r (fun rs => Ok (map r_score rs)).

(** The cosine similarity of two centroids, from the values numpy
    computes: the dot product over the product of the norms. *)
Definition cosine_of (np : Np.kernel) (a b : Np.vec) : float :=
  (Np.vdot np a b / (Np.vnorm np a * Np.vnorm np b))%float.

(** The embeddings of the sections of a document, in the order of the
    sections. *)
Definition members (s : Self) (doc_id : string) : list Np.vec :=
  omap (fun xe => if String.eqb (Sec.document_id xe.1) doc_id
                  then Some xe.2 else None)
       (zip (sections s) (embeddings s)).

(** The mean of column [k] of a list of rows: the entries added up from
    the first row on, over the number of rows. *)
Definition column_mean (rows : list Np.vec) (k : nat) : float :=
  match rows with
  | [] => nan
  | r :: rs =>
      (foldl (fun acc r' => acc + nth k r' nan) (nth k r nan) rs
       / Np.of_nat (length rows))%float
  end.

(** The centroid of a document over embeddings of dimension [d]: the mean
    of the embeddings of its sections, when it has a section. *)
Definition centroid_of (s : Self) (d : nat) (doc_id : string) : option Np.vec :=
  match members s doc_id with
  | [] => None
  | rows => Some (map (column_mean rows) (seq 0 d))
  end.

(** The edge from one document to a later one, when both have a centroid
    and the similarity of the centroids is above the threshold. *)
Definition edge_to (np : Np.kernel) (doc_embeddings : gmap string Np.vec)
    (doc1_id : string) (e1 : Np.vec) (doc2_id : string) : option Edge :=
  match doc_embeddings !! doc2_id with
  | Some e2 =>
      if (threshold <? cosine_of np e1 e2)%float
      then Some (mkEdge doc1_id doc2_id (cosine_of np e1 e2))
      else None
  | None => None
  end.

(** The edges [edges_loop] appends, as a list. *)
Fixpoint spec_edges (np : Np.kernel) (doc_embeddings : gmap string Np.vec)
    (doc_ids : list string) : list Edge :=
  match doc_ids with
  | [] => []
  | doc1_id :: later =>
      match doc_embeddings !! doc1_id with
      | Some e1 => omap (edge_to np doc_embeddings doc1_id e1) later
      | None => []
      end ++ spec_edges np doc_embeddings later
  end.

(** A store the network can be built from: sections and embeddings are
    aligned, the embeddings have one dimension, and the documents have
    distinct identifiers. *)
Definition network_ready (s : Self) (d : nat) : Prop :=
  length (sections s) = length (embeddings s) /\
  Forall (fun r => length r = d) (embeddings s) /\
  NoDup (map Doc.id (documents s)).

(** The two documents an edge joins, in the order of the edge. *)
Definition ends (e : Edge) : string * string := (source e, target e).

(** A section counts the words of the content it stores. *)
Definition counts_its_words (x : Sec.t) : Prop :=
  Sec.word_count x = length (Py.split_ws (Sec.content x)).

(** The type of a stored document is one of the three supported ones. *)
Definition supported_type (d : Doc.t) : Prop :=
  Doc.type d = "pdf" \/ Doc.type d = "docx" \/ Doc.type d = "txt".

(** What one call of [process_document] that got past the extraction of
    the text did to the collections: a new document, and the first [k]
    sections of the split text with their embeddings. *)
Definition ingested_into (file : UploadedFile) (s s' : Self)
    (doc : Doc.t) (secs : list Sec.t) (k : nat) (embs : list Np.vec) : Prop :=
  supported_type doc /\ Doc.filename doc = name file /\
  Doc.size doc = length (data file) /\
  Forall (fun x => Sec.document_id x = Doc.id doc) secs /\
  Forall counts_its_words secs /\
  map Sec.index secs = seq 0 (length secs) /\
  k <= length secs /\ length embs = k /\
  documents s' = (documents s ++ [doc])%list /\
  sections s' = (sections s ++ take k secs)%list /\
  embeddings s' = (embeddings s ++ embs)%list.

(** * The analysers

    [components/gap_analyzer.py], [components/recommendation_engine.py],
    and the counting of [components/visualization.py] and of the
    dashboard of [main.py]. *)

(** ** Python values

    The values a reply in JSON evaluates to, and that the analysers pass
    on. A dict is the list of its items in insertion order, under string
    keys. *)

#[warnings="-register-all"] Inductive pyval : Type :=
| PNone
| PBool (b : bool)
| PInt (z : Z)
| PFloat (f : float)
| PStr (s : string)
| PList (items : list pyval)
| PDict (items : list (string * pyval)).

(** What the code around the processor raises: the two errors of reading
    a value, and the errors of the calls it makes. *)
Inductive raised : Type :=
| KeyError (key : string)
| TypeError
| Upstream (e : exn).

Inductive attempt (A : Type) : Type :=
| Done (a : A)
| Failed (e : raised).
Arguments Done {A} a.
Arguments Failed {A} e.

Module PyVal.

(** [d.get(key)], and [key in d] when it is not [None] *)
Fixpoint get (key : string) (d : list (string * pyval)) : option pyval :=
  match d with
  | [] => None
  | (k, v) :: d' => if String.eqb k key then Some v else get key d'
  end.

(** [d[key] = v]: a key that is there keeps its place, a new one goes
    last *)
Fixpoint setitem (key : string) (v : pyval) (d : list (string * pyval))
    : list (string * pyval) :=
  match d with
  | [] => [(key, v)]
  | (k, x) :: d' =>
    if String.eqb k key then (k, v) :: d' else (k, x) :: setitem key v d'
  end.

(** [v[key]] for a string [key] *)
Definition getitem (v : pyval) (key : string) : attempt pyval :=
  match v with
  | PDict d =>
    match get key d with
    | Some x => Done x
    | None => Failed (KeyError key)
    end
  | _ => Failed TypeError
  end.

(** [bool(v)] *)
Definition truthy (v : pyval) : bool :=
  match v with
  | PNone => false
  | PBool b => b
  | PInt z => negb (z =? 0)%Z
  | PFloat f => negb (f =? 0)%float
  | PStr s => Py.truthy s
  | PList [] => false
  | PList (_ :: _) => true
  | PDict [] => false
  | PDict (_ :: _) => true
  end.

(** The characters of a string, each a string of its own *)
Fixpoint chars (s : string) : list pyval :=
  match s with
  | EmptyString => []
  | String c s' => PStr (String c EmptyString) :: chars s'
  end.

(** [iter(v)]: the items of a list, the keys of a dict, the characters of
    a string; nothing else is iterable *)
Definition iter (v : pyval) : option (list pyval) :=
  match v with
  | PList l => Some l
  | PDict d => Some (map (fun kv => PStr kv.1) d)
  | PStr s => Some (chars s)
  | _ => None
  end.

(** [len(v)] *)
Definition len (v : pyval) : attempt nat :=
  match v with
  | PList l => Done (length l)
  | PDict d => Done (length d)
  | PStr s => Done (String.length s)
  | _ => Failed TypeError
  end.

Definition as_str (v : pyval) : option string :=
  match v with PStr s => Some s | _ => None end.

(** [isinstance(v, str)] *)
Definition is_str (v : pyval) : bool :=
  match v with PStr _ => true | _ => false end.

(** [v == s] for a string [s] *)
Definition eq_str (v : pyval) (s : string) : bool :=
  match v with PStr x => String.eqb x s | _ => false end.

(** [v in names] for a list of strings *)
Definition among (names : list string) (v : pyval) : bool :=
  existsb (eq_str v) names.

(** [sep.join(v)]: [None] for the [TypeError] of a value that does not
    iterate over strings *)
Definition join (sep : string) (v : pyval) : option string :=
  match iter v with
  | None => None
  | Some items =>
    match mapM as_str items with
    | None => None
    | Some strs => Some (String.concat sep strs)
    end
  end.

End PyVal.

(** What [eval(response.choices[0].message.content)] does with a reply. *)
Inductive Evaluated : Type :=
| EvalRaises
| EvalGives (v : pyval).

(** The body of the [try] of both analysers: [eval(...)[key]], then
    [normalize] on each item in turn, then the items are returned; [None]
    when anything in it raises. *)
Definition normalized (key : string) (normalize : pyval -> option pyval)
    (reply : Evaluated) : option pyval :=
  match reply with
  | EvalRaises => None
  | EvalGives v =>
    match PyVal.getitem v key with
    | Failed _ => None
    | Done items =>
      match PyVal.iter items with
      | None => None
      | Some xs =>
        match mapM normalize xs with
        | None => None
        | Some ys => Some (match items with PList _ => PList ys | _ => items end)
        end
      end
    end
  end.

(** ** The gap analyser *)

Definition risk_levels : list string := ["High"; "Medium"; "Low"].

(** The parts of the prompt that vary. *)
Record GapRequest : Type := mkGapRequest {
  g_domain : string;
  g_research_text : string;
  g_related_standards : string
}.

(** [f"{result['document']} - {result['section']}"] *)
Definition standard_info (r : SearchResult) : string :=
  r_document r ++ " - " ++ r_section r.

Definition standard_entry (r : SearchResult) : string :=
  newline ++ newline ++ "Standard: " ++ standard_info r ++
  newline ++ "Content: " ++ r_content r.

Definition related_standards_content (results : list SearchResult) : string :=
  foldl (fun acc r => acc ++ standard_entry r) "" results.

Definition gap_request (research_text domain : string)
    (results : list SearchResult) : GapRequest :=
  let content := related_standards_content results in
  mkGapRequest domain (Py.prefix 3000 research_text)
    (if Py.truthy content then Py.prefix 2000 content
     else "No directly related standards found.").

(** The body of [for gap in gaps]; [None] for the [TypeError] of an item
    that takes no item assignment. *)
Definition normalize_gap (domain : string) (gap : pyval) : option pyval :=
  match gap with
  | PDict d =>
    let d := PyVal.setitem "domain" (PStr domain) d in
    let d := PyVal.setitem "related_standards"
               (default (PList []) (PyVal.get "related_standards" d)) d in
    let d := match PyVal.get "related_standards" d with
             | Some (PStr s) =>
               PyVal.setitem "related_standards" (PList [PStr s]) d
             | _ => d
             end in
    let d := match PyVal.get "risk_level" d with
             | Some level =>
               if PyVal.among risk_levels level then d
               else PyVal.setitem "risk_level" (PStr "Medium") d
             | None => PyVal.setitem "risk_level" (PStr "Medium") d
             end in
    Some (PDict d)
  | _ => None
  end.

Definition default_gap (domain : string) (related_standards : list string)
    : pyval :=
  PDict
    [("title", PStr ("Potential " ++ domain ++ " Safety Gap"));
     ("description",
      PStr "The analysis identified a potential gap but couldn't structure the response.");
     ("risk_level", PStr "Medium");
     ("domain", PStr domain);
     ("related_standards", PList (map PStr related_standards));
     ("evidence", PStr "Based on provided research text.")].

(** ** The recommendation engine *)

Definition difficulties : list string := ["Easy"; "Moderate"; "Difficult"].

Definition required_fields : list string :=
  ["title"; "description"; "proposed_text"; "rationale"; "references"].

(** The parts of the prompt that vary, as the f-string prints them. *)
Record RecRequest : Type := mkRecRequest {
  q_title : string;
  q_description : string;
  q_domain : string;
  q_risk_level : string;
  q_related_standards : string;
  q_evidence : string
}.

(** [if field not in rec: rec[field] = f"No {field} provided"] *)
Definition fill_field (d : list (string * pyval)) (field : string)
    : list (string * pyval) :=
  match PyVal.get field d with
  | Some _ => d
  | None => PyVal.setitem field (PStr ("No " ++ field ++ " provided")) d
  end.

(** The body of [for rec in recommendations]; [None] for the [TypeError]
    of an item that is no dict. *)
Definition normalize_rec (rec : pyval) : option pyval :=
  match rec with
  | PDict d =>
    let d := match PyVal.get "implementation_difficulty" d with
             | Some level =>
               if PyVal.among difficulties level then d
               else PyVal.setitem "implementation_difficulty" (PStr "Moderate") d
             | None =>
               PyVal.setitem "implementation_difficulty" (PStr "Moderate") d
             end in
    Some (PDict (foldl fill_field d required_fields))
  | _ => None
  end.

Definition default_rec (title domain : string) : pyval :=
  PDict
    [("title", PStr ("Address " ++ title));
     ("description",
      PStr ("Create or update standards to address the identified gap in "
            ++ domain ++ " safety."));
     ("proposed_text",
      PStr "Standards organizations should develop comprehensive requirements for...");
     ("rationale",
      PStr "This recommendation directly addresses the identified gap by providing clear guidance.");
     ("references",
      PStr "Based on industry best practices and research evidence.");
     ("implementation_difficulty", PStr "Moderate")].

Section Analysers.

Variable np : Np.kernel.
Context {W : Type}.
Variable embeddings_create : string -> W -> result Np.vec * W.
(** [client.chat.completions.create] of the two analysers, from the parts
    of the prompt to what [eval] makes of the content of the reply. *)
Variable gap_chat : GapRequest -> W -> result Evaluated * W.
Variable rec_chat : RecRequest -> W -> result Evaluated * W.
(** [str(v)] of a value that is no string. *)
Variable repr : pyval -> string.

Definition identify_gaps (research_text domain : string) : M W pyval :=
  let* results :=
    search_standards np embeddings_create
      ("safety standards for " ++ domain) 5 in
  let* reply := call (gap_chat (gap_request research_text domain results)) in
  ret (match normalized "gaps" (normalize_gap domain) reply with
       | Some gaps => gaps
       | None => PList [default_gap domain (map standard_info results)]
       end).

(** [f"{v}"] *)
Definition format (v : pyval) : string :=
  match v with PStr s => s | _ => repr v end.

(** The f-string of the prompt, read from left to right. *)
Definition rec_request (gap : pyval) : attempt RecRequest :=
  match PyVal.getitem gap "title" with
  | Failed e => Failed e
  | Done title =>
  match PyVal.getitem gap "description" with
  | Failed e => Failed e
  | Done description =>
  match PyVal.getitem gap "domain" with
  | Failed e => Failed e
  | Done domain =>
  match PyVal.getitem gap "risk_level" with
  | Failed e => Failed e
  | Done risk_level =>
  match PyVal.getitem gap "related_standards" with
  | Failed e => Failed e
  | Done related =>
  match (if PyVal.truthy related then PyVal.join ", " related
         else Some "None identified") with
  | None => Failed TypeError
  | Some standards =>
  match PyVal.getitem gap "evidence" with
  | Failed e => Failed e
  | Done evidence =>
    Done (mkRecRequest (format title) (format description) (format domain)
            (format risk_level) standards (format evidence))
  end end end end end end end.

Definition generate_recommendations (gap : pyval) (w : W)
    : attempt pyval * W :=
  match rec_request gap with
  | Failed e => (Failed e, w)
  | Done request =>
    match rec_chat request w with
    | (Raise e, w') => (Failed (Upstream e), w')
    | (Ok reply, w') =>
      (Done (match normalized "recommendations" normalize_rec reply with
             | Some recommendations => recommendations
             | None => PList [default_rec (q_title request) (q_domain request)]
             end), w')
    end
  end.

End Analysers.

(** ** The dashboard and the heat map *)

(** [sum(1 for gap in gaps if gap['risk_level'] == level)] *)
Fixpoint count_risk (level : string) (gaps : list pyval) : attempt nat :=
  match gaps with
  | [] => Done 0
  | gap :: rest =>
    match PyVal.getitem gap "risk_level" with
    | Failed e => Failed e
    | Done v =>
      match count_risk level rest with
      | Failed e => Failed e
      | Done n => Done (if PyVal.eq_str v level then S n else n)
      end
    end
  end.

Definition risk_count (level : string) (gaps : pyval) : attempt nat :=
  match PyVal.iter gaps with
  | None => Failed TypeError
  | Some items => count_risk level items
  end.

(** The four metrics of the gap analysis summary. *)
Record Summary : Type := mkSummary {
  identified : nat;
  high_risk : nat;
  medium_risk : nat;
  low_risk : nat
}.

Definition gap_summary (gaps : pyval) : attempt Summary :=
  match PyVal.len gaps with
  | Failed e => Failed e
  | Done n =>
  match risk_count "High" gaps with
  | Failed e => Failed e
  | Done h =>
  match risk_count "Medium" gaps with
  | Failed e => Failed e
  | Done m =>
  match risk_count "Low" gaps with
  | Failed e => Failed e
  | Done l => Done (mkSummary n h m l)
  end end end end.

(** What the heat map reads of a gap that has a risk level and whose
    domain is a string. *)
Record Cell : Type := mkCell {
  cell_domain : string;
  cell_risk : pyval
}.

(** [l.index(x)], [None] for its [ValueError] *)
Fixpoint index_of (x : string) (l : list string) : option nat :=
  match l with
  | [] => None
  | y :: l' => if String.eqb y x then Some 0 else S <$> index_of x l'
  end.

(** [risk_levels.index(v)] *)
Definition risk_index (v : pyval) : option nat :=
  match v with PStr s => index_of s risk_levels | _ => None end.

(** [data[i, j] += 1], at a position inside the array *)
Definition bump (i j : nat) (data : list (list nat)) : list (list nat) :=
  alter (alter S j) i data.

Section HeatMap.

(** [list(set(xs))]: the values of [xs], in an order the interpreter
    chooses. *)
Variable list_of_set : list string -> list string.

Fixpoint populate (domains : list string) (gaps : list Cell)
    (data : list (list nat)) : result (list (list nat)) :=
  match gaps with
  | [] => Ok data
  | gap :: rest =>
    match index_of (cell_domain gap) domains with
    | None => Raise ValueError
    | Some domain_idx =>
      match risk_index (cell_risk gap) with
      | None => Raise ValueError
      | Some risk_idx =>
        populate domains rest (bump domain_idx risk_idx data)
      end
    end
  end.

(** The labels of the rows and the counts [create_gap_visualization]
    draws. *)
Definition gap_counts (gaps : list Cell)
    : result (list string * list (list nat)) :=
  let domains := list_of_set (map cell_domain gaps) in
  rbind (populate domains gaps
           (replicate (length domains) (replicate (length risk_levels) 0)))
        (fun data => Ok (domains, data)).

End HeatMap.

(** ** Notions the properties of the analysers are stated with *)

(** A gap as [identify_gaps] hands it on: a dict with the requested
    domain, one of the three risk levels, and related standards that are
    no bare string. *)
Definition normal_gap (domain : string) (gap : pyval) : Prop :=
  exists d,
    gap = PDict d /\
    PyVal.get "domain" d = Some (PStr domain) /\
    (exists level, level ∈ risk_levels /\
                   PyVal.get "risk_level" d = Some (PStr level)) /\
    (exists related, PyVal.get "related_standards" d = Some related /\
                     PyVal.is_str related = false).

(** The keys the normalisation of a gap writes. *)
Definition gap_keys : list string :=
  ["domain"; "related_standards"; "risk_level"].

(** What the normalisation of a gap keeps of the dict [d] in [d']. *)
Definition gap_kept (d d' : list (string * pyval)) : Prop :=
  (forall key, key ∉ gap_keys -> PyVal.get key d' = PyVal.get key d) /\
  (forall level, PyVal.get "risk_level" d = Some level ->
     PyVal.among risk_levels level = true ->
     PyVal.get "risk_level" d' = Some level) /\
  (forall related, PyVal.get "related_standards" d = Some related ->
     PyVal.is_str related = false ->
     PyVal.get "related_standards" d' = Some related) /\
  (forall s, PyVal.get "related_standards" d = Some (PStr s) ->
     PyVal.get "related_standards" d' = Some (PList [PStr s])) /\
  (PyVal.get "related_standards" d = None ->
     PyVal.get "related_standards" d' = Some (PList [])).

Definition gap_kept_in (gap gap' : pyval) : Prop :=
  exists d d', gap = PDict d /\ gap' = PDict d' /\ gap_kept d d'.

Definition is_dict (v : pyval) : Prop := exists d, v = PDict d.

(** A recommendation as [generate_recommendations] hands it on. *)
Definition complete_rec (rec : pyval) : Prop :=
  exists d,
    rec = PDict d /\
    (forall field, field ∈ required_fields -> is_Some (PyVal.get field d)) /\
    (exists level, level ∈ difficulties /\
       PyVal.get "implementation_difficulty" d = Some (PStr level)).

(** What the normalisation of a recommendation keeps of [d] in [d']. *)
Definition rec_kept (d d' : list (string * pyval)) : Prop :=
  (forall key v, key <> "implementation_difficulty" ->
     PyVal.get key d = Some v -> PyVal.get key d' = Some v) /\
  (forall key, key <> "implementation_difficulty" ->
     key ∉ required_fields -> PyVal.get key d' = PyVal.get key d) /\
  (forall level, PyVal.get "implementation_difficulty" d = Some level ->
     PyVal.among difficulties level = true ->
     PyVal.get "implementation_difficulty" d' = Some level).

Definition rec_kept_in (rec rec' : pyval) : Prop :=
  exists d d', rec = PDict d /\ rec' = PDict d' /\ rec_kept d d'.

(** The keys the prompt of the recommendation engine reads. *)
Definition prompt_keys : list string :=
  ["title"; "description"; "domain"; "risk_level"; "related_standards";
   "evidence"].

(** An order of the distinct values of a list. *)
Definition lists_sets (list_of_set : list string -> list string) : Prop :=
  forall xs, NoDup (list_of_set xs) /\
             forall x, x ∈ list_of_set xs <-> x ∈ xs.

(** The number of gaps of one domain and one risk level. *)
Fixpoint tally (domain level : string) (gaps : list Cell) : nat :=
  match gaps with
  | [] => 0
  | gap :: rest =>
    (if String.eqb (cell_domain gap) domain && PyVal.eq_str (cell_risk gap) level
     then 1 else 0) + tally domain level rest
  end.

(** [data[i, j]] *)
Definition at_cell (data : list (list nat)) (i j : nat) : option nat :=
  data !! i ≫= lookup j.

(** The cell of a gap whose domain is a string and that has a risk
    level. *)
Definition cell_of (gap : pyval) : option Cell :=
  match gap with
  | PDict d =>
    match PyVal.get "domain" d, PyVal.get "risk_level" d with
    | Some (PStr domain), Some risk => Some (mkCell domain risk)
    | _, _ => None
    end
  | _ => None
  end.


(** ** A small environment to run the processor in

    The world is a counter: [uuid4] numbers its identifiers, the clock
    stands still, the segmentation oracle answers with text that is not
    JSON, and the embedding oracle answers with the length of the text it
    is sent, up to a number of calls after which it fails. *)

Module Demo.

Definition uuid4 (w : nat) : string * nat := ("uuid-" +:+ Py.str_of_nat w, S w).

Definition timestamp_now (w : nat) : string * nat := ("2024-01-01T00:00:00", w).

Definition chat (paragraphs : list string) (w : nat) : result ChatReply * nat :=
  (Ok NotJSON, w).

Definition embed (text : string) (w : nat) : result Np.vec * nat :=
  (Ok [Np.of_nat (String.length text); 1%float], S w).

Definition embed_until (limit : nat) (text : string) (w : nat) : result Np.vec * nat :=
  if w <? limit then embed text w else (Raise APIError, w).

Definition no_pages (content : list Byte.byte) : result (list string) :=
  Raise ExtractionError.

Definition decode (content : list Byte.byte) : result string :=
  Ok (string_of_list_byte content).

(** Two paragraphs with an empty one between them. *)
Definition two_blocks : string := "A" +:+ blank_line +:+ blank_line +:+ "B".

Definition notes : UploadedFile := mkFile "notes.txt" (list_byte_of_string two_blocks).

Definition start : St nat := mkSt empty_self empty_disk 0.

Definition process (limit : nat) : UploadedFile -> M nat unit :=
  process_document uuid4 timestamp_now chat (embed_until limit) no_pages no_pages decode.

Definition now : string := "2024-01-01T00:00:00".

(** What the processor makes of [notes] from [start]. *)
Definition doc : Doc.t := Doc.mk "uuid-0" "notes.txt" "txt" 6 now.

Definition secs : list Sec.t :=
  [Sec.mk "uuid-1" "uuid-0" 0 "Section 1" "A" 1;
   Sec.mk "uuid-2" "uuid-0" 1 "Section 3" "B" 1].

Definition embs : list Np.vec := [[1; 1]; [1; 1]]%float.

Definition ingested : Self := mkSelf [doc] secs embs.

Definition search : string -> Z -> M nat (list SearchResult) :=
  search_standards Np.reference (embed_until 100).

(** The processor after [notes], in a session that only searches. *)
Definition session : St nat := mkSt ingested empty_disk 5.

(** Two documents of one section each. *)
Definition library : Self :=
  mkSelf
    [Doc.mk "doc-a" "standards/iso45001.pdf" "pdf" 100 now;
     Doc.mk "doc-b" "standards/osha1910.pdf" "pdf" 200 now]
    [Sec.mk "sec-a" "doc-a" 0 "Scope" "Scope" 1;
     Sec.mk "sec-b" "doc-b" 0 "Scope" "Scope" 1]
    [[1; 0]; [2; 1]]%float.

(** Two sections embedded on the two axes, and an oracle that embeds
    every query on the first axis. *)
Definition axes : Self :=
  mkSelf [doc]
    [Sec.mk "sec-x" "uuid-0" 0 "X" "x" 1; Sec.mk "sec-y" "uuid-0" 1 "Y" "y" 1]
    [[1; 0]; [0; 1]]%float.

Definition embed_x (text : string) (w : nat) : result Np.vec * nat :=
  (Ok [1; 0]%float, S w).

Definition image : UploadedFile := mkFile "figure.PNG" [].

(** The state [notes] leaves when every embedding call succeeds. *)
Definition after_notes : St nat :=
  mkSt ingested (_save_data ingested empty_disk) 5.

(** One section embedded in three dimensions. *)
Definition wide_session : St nat :=
  mkSt (mkSelf [doc] (take 1 secs) [[1; 0; 0]]%float) empty_disk 5.

(** One section and two embeddings. *)
Definition extra_row_session : St nat :=
  mkSt (mkSelf [doc] (take 1 secs) embs) empty_disk 5.

(** Two sections and one embedding. *)
Definition missing_row : Self := mkSelf [doc] secs (take 1 embs).

(** A session over one section whose embedding is the zero vector. *)
Definition zero_session : St nat :=
  mkSt (mkSelf [doc] (take 1 secs) [[0; 0]]%float) empty_disk 5.

(** A session over two sections, the first embedded as the zero vector,
    the second on the first axis. *)
Definition zero_first_session : St nat :=
  mkSt (mkSelf [doc] secs [[0; 0]; [1; 0]]%float) empty_disk 5.

(** A section of 360 characters, and a session over it. *)
Definition long_content : string :=
  String.concat "" (replicate 40 "standard.").

Definition long_session : St nat :=
  mkSt (mkSelf [doc] [Sec.mk "uuid-1" "uuid-0" 0 "Section 1" long_content 40]
          [[1; 1]]%float)
       empty_disk 5.

(** The kernel of the examples, but for equal values, which it leaves
    with the later index first. *)
Definition descending : Np.kernel :=
  Np.with_ties Np.reference (fun a i => length a - i).

(** A segmentation oracle that answers with two sections, the second
    without title or content. *)
Definition chat_sections (paragraphs : list string) (w : nat)
    : result ChatReply * nat :=
  (Ok (SectionList [mkCandidate (Some "Scope") (Some " Lifts and hoists ");
                    mkCandidate None None]), w).

(** A reply of two gaps: one with a risk level of its own making and a
    bare string for its related standards, one with neither. *)
Definition gaps_reply : Evaluated :=
  EvalGives
    (PDict
       [("gaps",
         PList
           [PDict [("title", PStr "Battery fires");
                   ("risk_level", PStr "Severe");
                   ("related_standards", PStr "IEC 62133")];
            PDict [("title", PStr "Firmware updates");
                   ("risk_level", PStr "High");
                   ("evidence", PStr "Three incident reports")]])]).

Definition gap_chat (request : GapRequest) (w : nat) : result Evaluated * nat :=
  (Ok gaps_reply, S w).

(** A reply whose second gap is a bare string. *)
Definition mixed_reply : list (string * pyval) :=
  [("gaps", PList [PDict [("title", PStr "Battery fires")];
                   PStr "Firmware updates"])].

Definition gap_chat_mixed (request : GapRequest) (w : nat)
    : result Evaluated * nat :=
  (Ok (EvalGives (PDict mixed_reply)), S w).

Definition gap_chat_down (request : GapRequest) (w : nat)
    : result Evaluated * nat :=
  (Raise APIError, w).

(** A reply of one recommendation with a title and a difficulty of its
    own making. *)
Definition recs_reply : list (string * pyval) :=
  [("recommendations",
    PList [PDict [("title", PStr "Require thermal cut-offs");
                  ("implementation_difficulty", PStr "Hard")]])].

Definition rec_chat (request : RecRequest) (w : nat) : result Evaluated * nat :=
  (Ok (EvalGives (PDict recs_reply)), S w).

Definition repr (v : pyval) : string := "<value>".

(** The gap [identify_gaps] falls back on. *)
Definition fallback_gap : pyval := default_gap "IoT Devices" [].

(** Three gaps over two domains, and one more with a risk level that is
    none of the three. *)
Definition cells : list Cell :=
  [mkCell "IoT Devices" (PStr "High"); mkCell "AI Systems" (PStr "Low");
   mkCell "IoT Devices" (PStr "High")].

Definition odd_cell : Cell := mkCell "AI Systems" (PStr "Severe").

(** A text file with nothing in it. *)
Definition blank : UploadedFile := mkFile "blank.txt" [].

(** A processor started on a data directory that holds one document. *)
Definition stocked_disk : Disk :=
  mkDisk (Stored [doc0]) (Stored [sec0]) (Stored [[1; 0]]%float).

Definition stocked : St nat := mkSt (init stocked_disk) stocked_disk 0.

End Demo.

(** * Properties *)

(** ** Loading and saving *)

(** C6, as stated, fails: with a readable documents file and a corrupted
    sections file the load keeps the documents and empties the rest. *)
Lemma load_corrupt_keeps_documents :
  corrupted disk_half_read /\
  init disk_half_read = mkSelf [doc0] [] [] /\
  init disk_half_read <> empty_self.
Proof.
  split; [right; left; reflexivity|].
  split; [reflexivity|discriminate].
Qed.

(** C6 (amended): when a file of the data directory is corrupted, the load
    returns (it is a total function, nothing is raised) with empty
    embeddings; a corrupted documents file leaves all three collections
    empty, and otherwise the documents are the loaded ones, with the
    sections loaded too unless their own file is the corrupted one. *)
Theorem load_corrupt_resets_embeddings (d : Disk) :
  corrupted d ->
  embeddings (init d) = [] /\
  (documents_json d = Corrupt -> init d = empty_self) /\
  (documents_json d <> Corrupt ->
     documents (init d) = loaded (documents_json d) /\
     (sections_json d = Corrupt -> sections (init d) = []) /\
     (sections_json d <> Corrupt -> sections (init d) = loaded (sections_json d))).
Proof.
  destruct d as [dj sj ej]; unfold corrupted, init, _load_data; simpl.
  intros Hc.
  destruct dj, sj, ej; simpl; repeat split; intros; try done;
    destruct Hc as [?|[?|?]]; done.
Qed.

Lemma load_corrupt_resets_embeddings_witness :
  embeddings (init disk_half_read) = [] /\
  (documents_json disk_half_read = Corrupt -> init disk_half_read = empty_self) /\
  (documents_json disk_half_read <> Corrupt ->
     documents (init disk_half_read) = loaded (documents_json disk_half_read) /\
     (sections_json disk_half_read = Corrupt -> sections (init disk_half_read) = []) /\
     (sections_json disk_half_read <> Corrupt ->
        sections (init disk_half_read) = loaded (sections_json disk_half_read))).
Proof.
  apply (load_corrupt_resets_embeddings disk_half_read).
  right; left; reflexivity.
Defined.

(** C8, as stated, fails: one persisted section with two persisted rows is
    loaded as it is, neither rejected nor repaired. *)
Lemma load_accepts_misaligned :
  init disk_misaligned = mkSelf [doc0] [sec0] [[1; 0]; [0; 1]]%float /\
  length (sections (init disk_misaligned)) <> length (embeddings (init disk_misaligned)).
Proof. split; [reflexivity|simpl; lia]. Qed.

(** C8 (amended): a load of a readable sections file and a readable
    embeddings file takes the sections and the embedding rows exactly as
    persisted, whatever their numbers, next to the documents of a file
    that is readable or absent: no count is compared, and the loaded
    store is misaligned whenever the persisted one is. *)
Theorem load_takes_files_as_persisted
    (fd : stored (list Doc.t)) (secs : list Sec.t) (embs : list Np.vec) :
  (fd <> Corrupt ->
   init (mkDisk fd (Stored secs) (Stored embs)) = mkSelf (loaded fd) secs embs) /\
  (fd <> Corrupt -> length secs <> length embs ->
   length (sections (init (mkDisk fd (Stored secs) (Stored embs))))
   <> length (embeddings (init (mkDisk fd (Stored secs) (Stored embs))))).
Proof.
  split; intros Hfd; destruct fd as [| |docs]; try done.
Qed.

Lemma load_takes_files_as_persisted_witness :
  init disk_misaligned = mkSelf [doc0] [sec0] [[1; 0]; [0; 1]]%float.
Proof.
  apply (proj1 (load_takes_files_as_persisted (Stored [doc0]) [sec0]
                  [[1; 0]; [0; 1]]%float)).
  discriminate.
Defined.

(** C7, as stated, fails: saving a store without embeddings leaves an older
    embeddings file in place, and the load reads its rows back. *)
Lemma save_load_empty_reads_stale_rows :
  init (_save_data empty_self disk_stale) = mkSelf [] [] [[1; 0]]%float /\
  init (_save_data empty_self disk_stale) <> empty_self.
Proof. split; [reflexivity|discriminate]. Qed.

(** C7 (amended): for a store whose embedding rows have one length, a save
    followed by a load (into a fresh processor or into the same one)
    reproduces the documents, the sections and the embedding rows in order,
    provided the store has an embedding or the data directory holds no
    embedding rows from an earlier save. *)
Theorem save_load_roundtrip (s : Self) (d : Disk) :
  Np.rectangular (embeddings s) = true ->
  embeddings s <> [] \/ no_stale_rows d ->
  init (_save_data s d) = s /\ _load_data (_save_data s d) s = s.
Proof.
  destruct s as [docs secs embs], d as [dj sj ej].
  unfold init, _load_data, _save_data, Np.array, no_stale_rows; simpl.
  intros Hrect Hor.
  destruct embs as [|e embs]; simpl.
  - destruct Hor as [?|Hst]; [done|].
    destruct ej as [| |[|? ?]]; simpl in *; done.
  - simpl in Hrect. rewrite Hrect. done.
Qed.

Lemma save_load_roundtrip_witness :
  init (_save_data (mkSelf [doc0] [sec0] [[1; 0]]%float) disk_half_read)
    = mkSelf [doc0] [sec0] [[1; 0]]%float /\
  _load_data (_save_data (mkSelf [doc0] [sec0] [[1; 0]]%float) disk_half_read)
      (mkSelf [doc0] [sec0] [[1; 0]]%float)
    = mkSelf [doc0] [sec0] [[1; 0]]%float.
Proof.
  apply (save_load_roundtrip (mkSelf [doc0] [sec0] [[1; 0]]%float) disk_half_read).
  - reflexivity.
  - left; discriminate.
Defined.

(** ** Ingestion *)

Section ProcessorFacts.

Context {W : Type}.
Variable uuid4 : W -> string * W.
Variable timestamp_now : W -> string * W.
Variable chat_completions_create : list string -> W -> result ChatReply * W.
Variable embeddings_create : string -> W -> result Np.vec * W.
Variable pdf_pages : list Byte.byte -> result (list string).
Variable docx_paragraphs : list Byte.byte -> result (list string).
Variable decode_utf8 : list Byte.byte -> result string.

Local Abbreviation split_sections := (_split_into_sections uuid4 chat_completions_create).
Local Abbreviation process :=
  (process_document uuid4 timestamp_now chat_completions_create
     embeddings_create pdf_pages docx_paragraphs decode_utf8).
Local Abbreviation text_of := (extract_text pdf_pages docx_paragraphs decode_utf8).
Local Abbreviation oracle_run := (embed_run embeddings_create).

(** Formatting one candidate draws its identifier and touches nothing
    else. *)
Lemma format_section_run (doc_id : string) (i : nat) (c : Candidate) (st : St W) :
  format_section uuid4 doc_id (i, c) st =
  (Ok (Sec.mk (uuid4 (world st)).1 doc_id i
         (default ("Section " +:+ Py.str_of_nat (i + 1)) (c_title c))
         (Py.strip (default EmptyString (c_content c)))
         (length (Py.split_ws (default EmptyString (c_content c))))),
   mkSt (self st) (disk st) (uuid4 (world st)).2).
Proof.
  unfold format_section, bind, fresh_uuid, call, ret.
  by destruct (uuid4 (world st)).
Qed.

(** Formatting the candidates leaves the collections and the data
    directory alone; every section it makes belongs to the document it is
    given and carries the title and the position of its candidate. *)
Lemma collect_format_frame (doc_id : string) (l : list (nat * Candidate)) (st : St W) :
  exists secs w',
    collect l (format_section uuid4 doc_id) st = (Ok secs, mkSt (self st) (disk st) w') /\
    Forall (fun x => Sec.document_id x = doc_id) secs /\
    map Sec.index secs = map fst l /\
    map Sec.title secs =
      map (fun ic => default ("Section " +:+ Py.str_of_nat (ic.1 + 1)) (c_title ic.2)) l /\
    map Sec.content secs =
      map (fun ic => Py.strip (default EmptyString (c_content ic.2))) l.
Proof.
  revert st; induction l as [|[i c] l IH]; intros st.
  - exists [], (world st). destruct st; simpl. by repeat split.
  - cbn [collect]. unfold bind at 1. rewrite format_section_run.
    destruct (IH (mkSt (self st) (disk st) (uuid4 (world st)).2))
      as (secs & w' & Hrun & Hall & Hidx & Htitle & Hcontent).
    unfold bind at 1. cbn [self disk world] in Hrun. rewrite Hrun. unfold ret.
    eexists _, w'. split; [reflexivity|].
    simpl. rewrite Hidx, Htitle, Hcontent.
    repeat split. by constructor.
Qed.

(** Splitting a text leaves the collections and the data directory as
    they are, and the sections it returns belong to the document. *)
Lemma split_sections_frame (text doc_id : string) (st : St W) r st' :
  split_sections text doc_id st = (r, st') ->
  self st' = self st /\ disk st' = disk st /\
  forall secs, r = Ok secs -> Forall (fun x => Sec.document_id x = doc_id) secs.
Proof.
  unfold _split_into_sections, bind, call.
  destruct (chat_completions_create _ (world st)) as [[reply|e] w1]; simpl.
  - destruct reply as [| |items|]; simpl;
      try match goal with
        | |- context [collect ?l _ ?s] =>
            destruct (collect_format_frame doc_id l s) as (secs & w' & Hrun & Hall & _);
            rewrite Hrun; simpl; intros [= <- <-]; simpl;
            repeat split; intros ? [= <-]; exact Hall
        end.
    intros [= <- <-]; simpl. by repeat split.
  - intros [= <- <-]; simpl. by repeat split.
Qed.

Local Abbreviation ingest_loop secs :=
  (for_each secs (fun section =>
     let* embedding := _create_embedding embeddings_create (Sec.content section) in
     let* _ := modify_self (append_section section) in
     modify_self (append_embedding embedding))).

(** The oracle stops inside the list exactly when it fails. *)
Lemma embed_run_length (texts : list string) (w : W) es r w' :
  oracle_run texts w = (es, r, w') ->
  match r with
  | None => length es = length texts
  | Some _ => length es < length texts
  end.
Proof.
  revert w es r w'; induction texts as [|t ts IH]; intros w es r w'; simpl.
  - intros [= <- <- <-]. reflexivity.
  - destruct (embeddings_create _ w) as [[e|x] w1].
    + destruct (oracle_run ts w1) as [[es1 r1] w2] eqn:Hrun.
      intros [= <- <- <-]. specialize (IH _ _ _ _ Hrun).
      destruct r1; simpl; lia.
    + intros [= <- <- <-]. simpl. lia.
Qed.

(** The loop over the sections appends one pair for each answer of the
    oracle and stops at its first failure. *)
Lemma ingest_loop_run (secs : list Sec.t) (st : St W) :
  ingest_loop secs st =
  let '(es, r, w') := oracle_run (map Sec.content secs) (world st) in
  (match r with None => Ok tt | Some x => Raise x end,
   mkSt (mkSelf (documents (self st))
           (sections (self st) ++ take (length es) secs)
           (embeddings (self st) ++ es))
        (disk st) w').
Proof.
  revert st; induction secs as [|x secs IH]; intros st.
  - simpl. unfold ret. destruct st as [[docs ss embs] d w]; simpl.
    by rewrite !app_nil_r.
  - simpl. unfold bind at 1. unfold bind at 1.
    unfold _create_embedding, call.
    destruct (embeddings_create _ (world st)) as [[e|err] w1]; simpl.
    + unfold bind at 1. simpl. rewrite IH. simpl.
      destruct (oracle_run (map Sec.content secs) w1) as [[es r] w2]; simpl.
      by rewrite <- !app_assoc.
    + rewrite !app_nil_r. by destruct st as [[? ? ?] ? ?].
Qed.

(** One call of [process_document], step by step. *)
Lemma process_document_run (file : UploadedFile) (st : St W) :
  process file st =
  match text_of (Py.lower (OsPath.splitext_ext (name file))) (data file) with
  | Raise e => (Raise e, st)
  | Ok text =>
      let '(doc_id, w1) := uuid4 (world st) in
      let '(now, w2) := timestamp_now w1 in
      let doc := document_of file doc_id now in
      match split_sections text doc_id
              (mkSt (append_document doc (self st)) (disk st) w2) with
      | (Raise e, st2) => (Raise e, st2)
      | (Ok secs, st2) =>
          let '(es, r, w3) := oracle_run (map Sec.content secs) (world st2) in
          let s3 := mkSelf (documents (self st2))
                      (sections (self st2) ++ take (length es) secs)
                      (embeddings (self st2) ++ es) in
          match r with
          | Some x => (Raise x, mkSt s3 (disk st2) w3)
          | None => (Ok tt, mkSt s3 (_save_data s3 (disk st2)) w3)
          end
      end
  end.
Proof.
  unfold process_document. unfold bind at 1. unfold lift at 1.
  destruct (text_of _ _) as [text|e]; [|reflexivity].
  unfold bind at 1. unfold fresh_uuid at 1, call at 1.
  destruct (uuid4 (world st)) as [doc_id w1]. simpl.
  unfold bind at 1. unfold fresh_timestamp at 1, call at 1. simpl.
  destruct (timestamp_now w1) as [now w2]. simpl.
  unfold bind at 1. unfold modify_self at 1. simpl.
  unfold bind at 1. unfold document_of.
  destruct (split_sections _ _ _) as [[secs|e] st2]; [|reflexivity].
  unfold bind at 1. rewrite ingest_loop_run.
  destruct (oracle_run _ _) as [[es r] w3]. simpl.
  destruct r; reflexivity.
Qed.

(** A call of [process_document] keeps the invariant of the store,
    whether it returns or raises. *)
Lemma process_document_keeps_invariant (file : UploadedFile) (st : St W) r st' :
  process file st = (r, st') ->
  store_invariant (self st) ->
  store_invariant (self st').
Proof.
  rewrite process_document_run. intros Hrun [Hlen Hdocs].
  destruct (text_of _ _) as [text|e]; [|by injection Hrun as <- <-].
  destruct (uuid4 (world st)) as [doc_id w1].
  destruct (timestamp_now w1) as [now w2].
  cbv zeta in Hrun.
  destruct (split_sections _ _ _) as [r2 st2] eqn:Hsplit.
  apply split_sections_frame in Hsplit as (Hself & _ & Hall).
  assert (Hinv2 : store_invariant (self st2)).
  { rewrite Hself. split; [exact Hlen|]. simpl. intros x Hx.
    destruct (Hdocs x Hx) as (d & Hd & Hid). exists d. split; [|done].
    apply elem_of_app. by left. }
  destruct r2 as [secs|e]; [|by injection Hrun as <- <-].
  specialize (Hall secs eq_refl).
  destruct (oracle_run _ _) as [[es ro] w3] eqn:Horacle.
  apply embed_run_length in Horacle. rewrite length_map in Horacle.
  assert (Hinv3 : store_invariant
                    (mkSelf (documents (self st2))
                       (sections (self st2) ++ take (length es) secs)
                       (embeddings (self st2) ++ es))).
  { destruct Hinv2 as [Hlen2 Hdocs2]. split; simpl.
    - rewrite !length_app, length_take, Hlen2. destruct ro; lia.
    - intros x [Hx|Hx]%elem_of_app; [by apply Hdocs2|].
      apply elem_of_take in Hx as (i & Hx & _).
      apply list_elem_of_lookup_2 in Hx.
      rewrite Forall_forall in Hall. specialize (Hall x Hx).
      exists (document_of file doc_id now).
      rewrite Hself. simpl. split; [|by rewrite Hall].
      apply elem_of_app. right. by apply list_elem_of_singleton. }
  destruct ro; injection Hrun as <- <-; exact Hinv3.
Qed.

(** A file whose extension is none of [.pdf], [.docx] and [.txt] makes
    [process_document] raise [ValueError] before anything is changed. *)
Theorem unsupported_format_changes_nothing (file : UploadedFile) (st : St W) :
  Py.lower (OsPath.splitext_ext (name file)) <> dot_pdf ->
  Py.lower (OsPath.splitext_ext (name file)) <> dot_docx ->
  Py.lower (OsPath.splitext_ext (name file)) <> dot_txt ->
  process file st = (Raise ValueError, st).
Proof.
  intros Hpdf Hdocx Htxt. rewrite process_document_run. unfold extract_text.
  destruct (String.eqb_spec (Py.lower (OsPath.splitext_ext (name file))) dot_pdf);
    [done|].
  destruct (String.eqb_spec (Py.lower (OsPath.splitext_ext (name file))) dot_docx);
    [done|].
  by destruct (String.eqb_spec (Py.lower (OsPath.splitext_ext (name file))) dot_txt).
Qed.

(** C1: after any sequence of calls of [process_document] that returned,
    from empty collections, there are as many sections as embeddings and
    the [document_id] of every stored section is the [id] of a stored
    document. *)
Theorem reachable_store_invariant (st : St W) :
  reachable uuid4 timestamp_now chat_completions_create embeddings_create
    pdf_pages docx_paragraphs decode_utf8 st ->
  store_invariant (self st).
Proof.
  induction 1 as [d w|st st' file _ IH Hrun].
  - split; [reflexivity|]. simpl. intros x Hx. by apply elem_of_nil in Hx.
  - by eapply process_document_keeps_invariant.
Qed.

(** C10: when the embedding oracle answers for the first [k] sections of
    a document and raises on the next one, [process_document] raises that
    error and leaves in memory the new document record and exactly the
    first [k] sections with their [k] embeddings, so an aligned store
    stays aligned; the data directory is the one before the call. *)
Theorem embedding_failure_keeps_prefix
    (file : UploadedFile) (st st2 : St W) (text doc_id now : string)
    (w1 w2 w3 : W) (secs : list Sec.t) (embs : list Np.vec) (e : exn) (k : nat) :
  text_of (Py.lower (OsPath.splitext_ext (name file))) (data file) = Ok text ->
  uuid4 (world st) = (doc_id, w1) ->
  timestamp_now w1 = (now, w2) ->
  split_sections text doc_id
    (mkSt (append_document (document_of file doc_id now) (self st)) (disk st) w2)
    = (Ok secs, st2) ->
  oracle_run (map Sec.content secs) (world st2) = (embs, Some e, w3) ->
  length embs = k ->
  k < length secs /\
  process file st =
    (Raise e,
     mkSt (mkSelf (documents (self st) ++ [document_of file doc_id now])
             (sections (self st) ++ take k secs)
             (embeddings (self st) ++ embs))
          (disk st) w3) /\
  length (take k secs) = length embs /\
  (length (sections (self st)) = length (embeddings (self st)) ->
   length (sections (self st) ++ take k secs) = length (embeddings (self st) ++ embs)).
Proof.
  intros Htext Huuid Hnow Hsplit Horacle Hk.
  pose proof (embed_run_length _ _ _ _ _ Horacle) as Hlt.
  rewrite length_map in Hlt. cbn in Hlt.
  pose proof (split_sections_frame _ _ _ _ _ Hsplit) as (Hself & Hdisk & _).
  split; [lia|]. split.
  - rewrite process_document_run, Htext, Huuid, Hnow. cbv zeta.
    rewrite Hsplit, Horacle, Hself, Hdisk, Hk. reflexivity.
  - split; [rewrite length_take; lia|].
    intros Hlen. rewrite !length_app, length_take. lia.
Qed.

End ProcessorFacts.

Lemma reachable_store_invariant_witness : store_invariant Demo.ingested.
Proof.
  apply (reachable_store_invariant Demo.uuid4 Demo.timestamp_now Demo.chat
           (Demo.embed_until 10) Demo.no_pages Demo.no_pages Demo.decode
           (mkSt Demo.ingested (_save_data Demo.ingested empty_disk) 5)).
  apply (reachable_step _ _ _ _ _ _ _ Demo.start _ Demo.notes).
  - apply reachable_start.
  - reflexivity.
Defined.

Lemma embedding_failure_keeps_prefix_witness :
  Demo.process 4 Demo.notes Demo.start =
  (Raise APIError,
   mkSt (mkSelf [Demo.doc] (take 1 Demo.secs) [[1; 1]]%float) empty_disk 4).
Proof.
  exact (proj1 (proj2
    (embedding_failure_keeps_prefix Demo.uuid4 Demo.timestamp_now Demo.chat
       (Demo.embed_until 4) Demo.no_pages Demo.no_pages Demo.decode
       Demo.notes Demo.start (mkSt (mkSelf [Demo.doc] [] []) empty_disk 3)
       Demo.two_blocks "uuid-0" Demo.now 1 1 4 Demo.secs [[1; 1]]%float APIError 1
       eq_refl eq_refl eq_refl eq_refl eq_refl eq_refl))).
Defined.

(** ** Search *)

Lemma zip_with_map_both {A B C D} (h : B -> C -> D) (f : A -> B) (g : A -> C)
    (l : list A) :
  zip_with h (map f l) (map g l) = map (fun x => h (f x) (g x)) l.
Proof. induction l as [|x l IH]; [reflexivity|]. simpl. by rewrite IH. Qed.

(** The similarities are one score for each row, or [ValueError] when a
    row has another length than the query. *)
Lemma similarities_char (np : Np.kernel) (rows : list Np.vec) (q : Np.vec) :
  similarities np rows q =
  if rows_match q rows
  then Ok (map (score np rows q) (seq 0 (length rows)))
  else Raise ValueError.
Proof.
  unfold similarities, Np.matvec. fold (rows_match q rows).
  destruct (rows_match q rows); [|reflexivity].
  cbn [rbind]. unfold Np.norm_rows. by rewrite zip_with_map_both.
Qed.

Lemma rows_match_rectangular (q : Np.vec) (rows : list Np.vec) :
  rows_match q rows = true -> Np.rectangular rows = true.
Proof.
  destruct rows as [|r rows]; [done|].
  cbn [rows_match forallb Np.rectangular].
  intros [Hr Hrows]%andb_prop. apply Nat.eqb_eq in Hr.
  induction rows as [|r' rows IH]; [done|].
  cbn [forallb] in *. apply andb_prop in Hrows as [Hr' Hrows].
  apply Nat.eqb_eq in Hr'. apply andb_true_intro.
  split; [apply Nat.eqb_eq; lia|by apply IH].
Qed.

Lemma insert_by_perm {A} (lt : A -> A -> bool) (x : A) (l : list A) :
  Np.insert_by lt x l ≡ₚ x :: l.
Proof.
  induction l as [|y l IH]; [done|].
  simpl. destruct (lt y x); [|done].
  rewrite IH. apply Permutation_swap.
Qed.

Lemma sort_by_perm {A} (lt : A -> A -> bool) (l : list A) :
  Np.sort_by lt l ≡ₚ l.
Proof.
  unfold Np.sort_by. induction l as [|x l IH]; [done|].
  simpl. by rewrite insert_by_perm, IH.
Qed.

(** [argsort] lists every index of its argument once, whatever the
    kernel. *)
Lemma argsort_perm (np : Np.kernel) (a : list float) :
  Np.argsort np a ≡ₚ seq 0 (length a).
Proof. unfold Np.argsort. by rewrite !sort_by_perm. Qed.

Lemma argsort_length (np : Np.kernel) (a : list float) :
  length (Np.argsort np a) = length a.
Proof. by rewrite argsort_perm, length_seq. Qed.

Lemma argsort_bound (np : Np.kernel) (a : list float) (i : nat) :
  i ∈ Np.argsort np a -> i < length a.
Proof. rewrite argsort_perm, elem_of_seq. lia. Qed.

Lemma argsort_nodup (np : Np.kernel) (a : list float) : NoDup (Np.argsort np a).
Proof. rewrite argsort_perm. apply NoDup_seq. Qed.

(** [l[-k:]] for [k >= 0]: the whole list for [k = 0], the last [k]
    elements (all of them when there are fewer) otherwise. *)
Lemma slice_from_neg_length {A} (k : Z) (l : list A) :
  (0 <= k)%Z ->
  length (Py.slice_from (- k) l) =
  if (k =? 0)%Z then length l else Z.to_nat (Z.min k (Z.of_nat (length l))).
Proof.
  intros Hk. unfold Py.slice_from. rewrite length_drop.
  destruct (Z.eqb_spec k 0) as [->|Hne].
  - simpl. rewrite Z.min_l by lia. simpl. lia.
  - destruct (Z.ltb_spec (- k) 0); lia.
Qed.

Lemma top_indices_length (np : Np.kernel) (sims : list float) (k : Z) :
  (0 <= k)%Z ->
  length (top_indices np sims k) =
  if (k =? 0)%Z then length sims else Z.to_nat (Z.min k (Z.of_nat (length sims))).
Proof.
  intros Hk. unfold top_indices.
  by rewrite length_reverse, slice_from_neg_length, argsort_length.
Qed.

Lemma top_indices_bound (np : Np.kernel) (sims : list float) (k : Z) (i : nat) :
  i ∈ top_indices np sims k -> i < length sims.
Proof.
  unfold top_indices, Py.slice_from. rewrite elem_of_reverse.
  intros Hi. apply (argsort_bound np). revert Hi. apply subseteq_drop.
Qed.

Lemma top_indices_nodup (np : Np.kernel) (sims : list float) (k : Z) :
  NoDup (top_indices np sims k).
Proof.
  unfold top_indices, Py.slice_from. rewrite reverse_Permutation.
  eapply sublist_NoDup; [apply argsort_nodup|apply sublist_drop].
Qed.

(** Collecting the results succeeds on indices that are in range, one
    result for each index, in order. *)
Lemma results_for_ok (s : Self) (sims : list float) (idxs : list nat) :
  Forall (fun i => i < length (sections s) /\ i < length sims) idxs ->
  exists rs, results_for s sims idxs = Ok rs /\
             Forall2 (result_of_index s sims) idxs rs.
Proof.
  induction 1 as [|i idxs [Hsec Hsim] _ (rs & Hrs & Hall)].
  - exists []. by split.
  - cbn [results_for]. unfold result_at.
    destruct (lookup_lt_is_Some_2 _ _ Hsec) as [section Hsection].
    destruct (lookup_lt_is_Some_2 _ _ Hsim) as [sc Hsc].
    rewrite Hsection, Hsc, Hrs. cbn [rbind].
    eexists. split; [reflexivity|].
    constructor; [|exact Hall].
    split; [exact Hsc|]. by exists section.
Qed.

(** *** The order of the floats that are not NaN *)

Lemma lex_compare_lt (a b : Z * Z * Z) :
  lex_compare a b = Lt <->
  (a.1.1 < b.1.1 \/ (a.1.1 = b.1.1 /\
     (a.1.2 < b.1.2 \/ (a.1.2 = b.1.2 /\ a.2 < b.2))))%Z.
Proof.
  destruct a as [[a1 a2] a3], b as [[b1 b2] b3]. unfold lex_compare. simpl.
  destruct (Z.compare_spec a1 b1), (Z.compare_spec a2 b2),
    (Z.compare_spec a3 b3); split; intros; try done; try lia; exfalso; lia.
Qed.

Lemma lex_compare_eq (a b : Z * Z * Z) : lex_compare a b = Eq <-> a = b.
Proof.
  destruct a as [[a1 a2] a3], b as [[b1 b2] b3]. unfold lex_compare. simpl.
  destruct (Z.compare_spec a1 b1), (Z.compare_spec a2 b2),
    (Z.compare_spec a3 b3); split; intros; try done;
    first [congruence | simplify_eq; lia].
Qed.

Lemma lex_compare_gt (a b : Z * Z * Z) :
  lex_compare a b = Gt <-> lex_compare b a = Lt.
Proof.
  rewrite lex_compare_lt.
  destruct a as [[a1 a2] a3], b as [[b1 b2] b3]. unfold lex_compare. simpl.
  destruct (Z.compare_spec a1 b1), (Z.compare_spec a2 b2),
    (Z.compare_spec a3 b3); split; intros; try done; try lia; exfalso; lia.
Qed.

Lemma SFcompare_rank (f g : spec_float) :
  f <> S754_nan -> g <> S754_nan ->
  SFcompare f g = Some (lex_compare (rank f) (rank g)).
Proof.
  intros Hf Hg.
  destruct f as [[]|[]| |[] m e], g as [[]|[]| |[] m' e']; try done;
    unfold lex_compare; simpl; try reflexivity.
  rewrite Z.compare_opp, (Z.compare_antisym e e').
  by destruct (e ?= e')%Z.
Qed.

Lemma is_nan_false_spec (x : float) :
  is_nan x = false <-> Prim2SF x <> S754_nan.
Proof.
  unfold is_nan. rewrite FloatAxioms.eqb_spec. unfold SFeqb.
  destruct (Prim2SF x) as [[]|[]| |[] m e] eqn:Hx; simpl;
    rewrite ?Z.compare_refl, ?Pos.compare_cont_refl; simpl; split; done.
Qed.

Section FloatOrder.

Variables x y z : float.
Hypothesis Hx : is_nan x = false.
Hypothesis Hy : is_nan y = false.
Hypothesis Hz : is_nan z = false.

Lemma ltb_frank : (x <? y)%float = true <-> lex_compare (frank x) (frank y) = Lt.
Proof.
  rewrite FloatAxioms.ltb_spec. unfold SFltb, frank.
  rewrite SFcompare_rank by by apply is_nan_false_spec.
  by destruct (lex_compare _ _).
Qed.

Lemma eqb_frank : (x =? y)%float = true <-> frank x = frank y.
Proof.
  rewrite FloatAxioms.eqb_spec, <- lex_compare_eq. unfold SFeqb, frank.
  rewrite SFcompare_rank by by apply is_nan_false_spec.
  by destruct (lex_compare _ _).
Qed.

Lemma leb_frank :
  (x <=? y)%float = true <-> lex_compare (frank y) (frank x) <> Lt.
Proof.
  rewrite FloatAxioms.leb_spec, <- lex_compare_gt. unfold SFleb, frank.
  rewrite SFcompare_rank by by apply is_nan_false_spec.
  by destruct (lex_compare _ _).
Qed.

Lemma npy_lt_ltb : Np.npy_lt x y = (x <? y)%float.
Proof. unfold Np.npy_lt. rewrite Hx, Hy. simpl. by rewrite orb_false_r. Qed.

End FloatOrder.

(** *** The order [argsort] leaves the indices in *)

Lemma ltb_leb (x y : float) :
  is_nan x = false -> is_nan y = false ->
  (y <? x)%float = true -> (y <=? x)%float = true.
Proof.
  intros Hx Hy. rewrite ltb_frank, leb_frank by done.
  intros Hlt Hc. apply lex_compare_gt in Hc. congruence.
Qed.

Lemma leb_trans (x y z : float) :
  is_nan x = false -> is_nan y = false -> is_nan z = false ->
  (x <=? y)%float = true -> (y <=? z)%float = true -> (x <=? z)%float = true.
Proof.
  intros Hx Hy Hz. rewrite !leb_frank by done. rewrite !lex_compare_lt.
  destruct (frank x) as [[a1 a2] a3], (frank y) as [[b1 b2] b3],
    (frank z) as [[c1 c2] c3]. simpl. lia.
Qed.

Lemma leb_total (x y : float) :
  is_nan x = false -> is_nan y = false ->
  (y <? x)%float = false -> (x <=? y)%float = true.
Proof.
  intros Hx Hy Hlt. apply leb_frank; [done..|].
  intros Hc. apply ltb_frank in Hc; [|done..]. congruence.
Qed.

Section ArgsortOrder.

Variable key : nat -> float.

Local Abbreviation good := (good_key key).
Local Abbreviation lt := (fun i j => Np.npy_lt (key i) (key j)).

Lemma insert_by_sorted (i : nat) (l : list nat) :
  good i -> Forall good l ->
  StronglySorted (asc key) l ->
  StronglySorted (asc key) (Np.insert_by lt i l).
Proof.
  intros Hi. induction l as [|j l IH]; intros Hgood Hs.
  - repeat constructor.
  - apply Forall_cons in Hgood as [Hj Hgood].
    apply StronglySorted_inv in Hs as [Hs Hjl].
    simpl. destruct (Np.npy_lt (key j) (key i)) eqn:Hc.
    + constructor; [by apply IH|].
      rewrite insert_by_perm. constructor; [|done].
      rewrite npy_lt_ltb in Hc by done. by apply ltb_leb.
    + rewrite npy_lt_ltb in Hc by done.
      pose proof (leb_total _ _ Hi Hj Hc) as Hasc.
      constructor; [by constructor|].
      constructor; [done|].
      rewrite Forall_forall in Hjl, Hgood. apply Forall_forall.
      intros k Hk. eapply (leb_trans _ (key j)); [done|done|by apply Hgood|done|].
      by apply Hjl.
Qed.

Lemma sort_by_sorted (l : list nat) :
  Forall good l -> StronglySorted (asc key) (Np.sort_by lt l).
Proof.
  unfold Np.sort_by. induction 1 as [|i l Hi Hl IH]; [constructor|].
  simpl. apply insert_by_sorted; [done| |done].
  fold (Np.sort_by lt l). by rewrite sort_by_perm.
Qed.

End ArgsortOrder.

Lemma StronglySorted_drop {A} (R : A -> A -> Prop) (n : nat) (l : list A) :
  StronglySorted R l -> StronglySorted R (drop n l).
Proof.
  revert n; induction l as [|x l IH]; intros [|n] Hs; simpl; try done.
  apply IH. by apply StronglySorted_inv in Hs as [Hs _].
Qed.

Lemma StronglySorted_lookup {A} (R : A -> A -> Prop) (l : list A)
    (p p' : nat) (x y : A) :
  StronglySorted R l -> p < p' ->
  l !! p = Some x -> l !! p' = Some y -> R x y.
Proof.
  intros Hs. revert p p'. induction Hs as [|a l Hs IH Hall]; intros p p' Hlt Hp Hp'.
  - done.
  - destruct p' as [|p']; [lia|]. simpl in Hp'.
    destruct p as [|p]; simpl in Hp.
    + injection Hp as ->. rewrite Forall_forall in Hall.
      apply Hall. by eapply list_elem_of_lookup_2.
    + eapply IH; [|done..]. lia.
Qed.

Lemma no_nan_good (sims : list float) (i : nat) :
  no_nan sims -> i < length sims -> good_key (fun i => nth i sims nan) i.
Proof.
  intros Hall Hi. destruct (lookup_lt_is_Some_2 _ _ Hi) as [x Hx].
  unfold good_key. rewrite (nth_lookup_Some _ _ _ _ Hx).
  unfold no_nan in Hall. rewrite Forall_forall in Hall.
  apply Hall. by eapply list_elem_of_lookup_2.
Qed.

(** Without NaN, [argsort] is sorted by ascending value, whatever the
    kernel does with equal values. *)
Lemma argsort_sorted (np : Np.kernel) (sims : list float) :
  no_nan sims ->
  StronglySorted (asc (fun i => nth i sims nan)) (Np.argsort np sims).
Proof.
  intros Hall. unfold Np.argsort. apply sort_by_sorted.
  apply Forall_forall. intros i Hi. apply no_nan_good; [done|].
  rewrite sort_by_perm in Hi. apply elem_of_seq in Hi. lia.
Qed.

(** *** Every ascending order of the indices is one [argsort] can leave *)

Lemma place_in_lookup (p : list nat) (k i : nat) :
  NoDup p -> p !! k = Some i -> place_in p i = k.
Proof.
  intros Hnd. revert k. induction Hnd as [|j p Hj _ IH]; intros k; [done|].
  destruct k as [|k]; simpl.
  - intros [= ->]. by rewrite Nat.eqb_refl.
  - intros Hk. destruct (Nat.eqb_spec i j) as [->|_].
    + destruct Hj. by eapply list_elem_of_lookup_2.
    + by rewrite (IH k).
Qed.

Lemma StronglySorted_of_lookup {A} (R : A -> A -> Prop) (l : list A) :
  (forall k k' x y, k < k' -> l !! k = Some x -> l !! k' = Some y -> R x y) ->
  StronglySorted R l.
Proof.
  induction l as [|x l IH]; intros Hall; constructor.
  - apply IH. intros k k' a b Hlt Ha Hb. apply (Hall (S k) (S k')); [lia|done..].
  - apply Forall_forall. intros y [k Hk]%list_elem_of_lookup.
    apply (Hall 0 (S k)); [lia|done..].
Qed.

Lemma insert_by_place_sorted (f : nat -> nat) (i : nat) (l : list nat) :
  StronglySorted (fun a b => f a <= f b) l ->
  StronglySorted (fun a b => f a <= f b)
    (Np.insert_by (fun a b => f a <? f b) i l).
Proof.
  induction l as [|j l IH]; intros Hs; [repeat constructor|].
  apply StronglySorted_inv in Hs as [Hs Hjl].
  simpl. destruct (Nat.ltb_spec (f j) (f i)) as [Hlt|Hge].
  - constructor; [by apply IH|].
    rewrite insert_by_perm. constructor; [lia|done].
  - constructor; [by constructor|]. constructor; [done|].
    eapply Forall_impl; [exact Hjl|]. simpl. lia.
Qed.

Lemma sort_by_place_sorted (f : nat -> nat) (l : list nat) :
  StronglySorted (fun a b => f a <= f b)
    (Np.sort_by (fun a b => f a <? f b) l).
Proof.
  unfold Np.sort_by. induction l as [|i l IH]; [constructor|].
  simpl. by apply insert_by_place_sorted.
Qed.

(** Sorting a list that is in order leaves it as it is. *)
Lemma sort_by_sorted_id {A} (lt : A -> A -> bool) (l : list A) :
  StronglySorted (fun x y => lt y x = false) l -> Np.sort_by lt l = l.
Proof.
  unfold Np.sort_by. induction 1 as [|x l _ IH Hall]; [done|].
  simpl. rewrite IH. destruct l as [|y l]; [done|].
  apply Forall_cons in Hall as [Hy _]. simpl. by rewrite Hy.
Qed.

(** Whatever arrangement of the indices is in ascending order of the
    values, there are places for the indices of equal values with which
    [argsort] returns it: the model leaves the order of equal values
    open. *)
Lemma argsort_any_order (np : Np.kernel) (a : list float) (p : list nat) :
  p ≡ₚ seq 0 (length a) ->
  StronglySorted
    (fun i j => Np.npy_lt (nth j a nan) (nth i a nan) = false) p ->
  Np.argsort (Np.with_ties np (fun _ => place_in p)) a = p.
Proof.
  intros Hperm Hsorted. unfold Np.argsort. cbn [Np.ties Np.with_ties].
  assert (Hnd : NoDup p) by (rewrite Hperm; apply NoDup_seq).
  assert (Hfirst : Np.sort_by (fun i j => place_in p i <? place_in p j)
                     (seq 0 (length a)) = p).
  { apply (StronglySorted_unique_strong
             (fun i j => place_in p i <= place_in p j)).
    - intros x y Hx [k Hk]%list_elem_of_lookup Hxy Hyx.
      rewrite sort_by_perm, <- Hperm in Hx.
      apply list_elem_of_lookup in Hx as [k' Hk'].
      rewrite (place_in_lookup p k' x), (place_in_lookup p k y) in * by done.
      assert (k' = k) as -> by lia. congruence.
    - apply sort_by_place_sorted.
    - apply StronglySorted_of_lookup. intros k k' x y Hlt Hx Hy.
      rewrite (place_in_lookup p k x), (place_in_lookup p k' y) by done. lia.
    - by rewrite sort_by_perm. }
  rewrite Hfirst. by apply sort_by_sorted_id.
Qed.

(** The selected indices run from the highest similarity down. *)
Lemma top_indices_ranked (np : Np.kernel) (sims : list float) (k : Z)
    (p p' i j : nat) (x y : float) :
  no_nan sims -> p < p' ->
  top_indices np sims k !! p = Some i ->
  top_indices np sims k !! p' = Some j ->
  sims !! i = Some x -> sims !! j = Some y ->
  at_most y x.
Proof.
  intros Hall Hlt Hi Hj Hx Hy.
  unfold top_indices in Hi, Hj.
  assert (Hs : StronglySorted (asc (fun i => nth i sims nan))
                 (Py.slice_from (- k) (Np.argsort np sims))).
  { apply StronglySorted_drop. by apply argsort_sorted. }
  set (l := Py.slice_from (- k) (Np.argsort np sims)) in *.
  apply reverse_lookup_Some in Hi as [Hi Hp].
  apply reverse_lookup_Some in Hj as [Hj Hp'].
  assert (Hpos : length l - S p' < length l - S p) by lia.
  assert (Hasc := StronglySorted_lookup _ _ _ _ _ _ Hs Hpos Hj Hi).
  unfold asc in Hasc.
  by rewrite (nth_lookup_Some _ _ _ _ Hx), (nth_lookup_Some _ _ _ _ Hy) in Hasc.
Qed.

(** No index that is left out has a higher similarity than a selected
    one. *)
Lemma top_indices_top (np : Np.kernel) (sims : list float) (k : Z)
    (i j : nat) (x y : float) :
  no_nan sims ->
  i ∈ top_indices np sims k -> j ∉ top_indices np sims k ->
  sims !! i = Some x -> sims !! j = Some y ->
  at_most y x.
Proof.
  intros Hall Hi Hj Hx Hy.
  unfold top_indices, Py.slice_from in Hi, Hj.
  rewrite elem_of_reverse in Hi, Hj.
  set (n := Z.to_nat _) in *.
  pose proof (argsort_sorted np sims Hall) as Hs.
  assert (Hjl : j ∈ Np.argsort np sims).
  { rewrite argsort_perm. apply elem_of_seq.
    apply lookup_lt_Some in Hy. lia. }
  apply list_elem_of_lookup in Hi as [pi Hpi].
  apply list_elem_of_lookup in Hjl as [pj Hpj].
  rewrite lookup_drop in Hpi.
  assert (Hlt : pj < n + pi).
  { destruct (Nat.lt_ge_cases pj n) as [?|Hge]; [lia|].
    destruct Hj. apply list_elem_of_lookup. exists (pj - n).
    rewrite lookup_drop. by replace (n + (pj - n)) with pj by lia. }
  pose proof (StronglySorted_lookup _ _ _ _ _ _ Hs Hlt Hpj Hpi) as Hasc.
  unfold asc in Hasc.
  by rewrite (nth_lookup_Some _ _ _ _ Hx), (nth_lookup_Some _ _ _ _ Hy) in Hasc.
Qed.

(** *** [search_standards] *)

Section SearchFacts.

Variable np : Np.kernel.
Context {W : Type}.
Variable embeddings_create : string -> W -> result Np.vec * W.

Local Abbreviation search := (search_standards np embeddings_create).

(** On a store whose sections and embeddings are aligned and whose rows
    have the length of the query vector, a search returns one result for
    each selected index, in the order of selection. *)
Lemma search_standards_run (query : string) (k : Z) (st : St W) (q : Np.vec) (w' : W) :
  embeddings_create (Py.prefix embedding_limit query) (world st) = (Ok q, w') ->
  embeddings (self st) <> [] ->
  rows_match q (embeddings (self st)) = true ->
  length (sections (self st)) = length (embeddings (self st)) ->
  exists rs,
    search query k st = (Ok rs, mkSt (self st) (disk st) w') /\
    Forall2 (result_of_index (self st) (stored_scores np q (self st)))
      (top_indices np (stored_scores np q (self st)) k) rs.
Proof.
  intros Hq Hne Hrows Hlen.
  assert (Hscores : length (stored_scores np q (self st)) =
                    length (embeddings (self st))).
  { unfold stored_scores. by rewrite length_map, length_seq. }
  destruct (results_for_ok (self st) (stored_scores np q (self st))
              (top_indices np (stored_scores np q (self st)) k))
    as (rs & Hrs & Hall).
  { apply Forall_forall. intros i Hi%top_indices_bound. lia. }
  exists rs. split; [|exact Hall].
  unfold search_standards, bind, _create_embedding, call, get_self.
  rewrite Hq. cbn [self disk world].
  destruct (embeddings (self st)) as [|e es] eqn:Hembs; [done|].
  cbn [length Nat.eqb]. unfold lift, Np.array.
  rewrite (rows_match_rectangular q) by done.
  rewrite similarities_char, Hrows.
  unfold stored_scores in Hrs. rewrite Hembs in Hrs. by rewrite Hrs.
Qed.

(** A search over no embeddings returns the empty list, whatever
    [top_k] is, once the query is embedded. *)
Theorem search_empty_corpus (query : string) (k : Z) (st : St W) (q : Np.vec) (w' : W) :
  embeddings_create (Py.prefix embedding_limit query) (world st) = (Ok q, w') ->
  embeddings (self st) = [] ->
  search query k st = (Ok [], mkSt (self st) (disk st) w').
Proof.
  intros Hq Hempty.
  unfold search_standards, bind, _create_embedding, call, get_self.
  rewrite Hq. cbn [self disk world]. by rewrite Hempty.
Qed.

(** For [top_k >= 1] a search returns [min(top_k, n)] results over [n]
    stored sections; for [top_k = 0] it returns all [n]. *)
Lemma search_standards_length (query : string) (k : Z) (st : St W) (q : Np.vec) (w' : W) :
  embeddings_create (Py.prefix embedding_limit query) (world st) = (Ok q, w') ->
  embeddings (self st) <> [] ->
  rows_match q (embeddings (self st)) = true ->
  length (sections (self st)) = length (embeddings (self st)) ->
  (0 <= k)%Z ->
  exists rs,
    search query k st = (Ok rs, mkSt (self st) (disk st) w') /\
    length rs =
      if (k =? 0)%Z then length (sections (self st))
      else Z.to_nat (Z.min k (Z.of_nat (length (sections (self st))))).
Proof.
  intros Hq Hne Hrows Hlen Hk.
  destruct (search_standards_run query k st q w') as (rs & Hrun & Hall); [done..|].
  exists rs. split; [done|].
  rewrite <- (Forall2_length _ _ _ Hall), top_indices_length by done.
  unfold stored_scores. by rewrite length_map, length_seq, Hlen.
Qed.

(** C3 (amended): on an aligned store without a NaN similarity, and
    whatever numpy does with equal values, the results of a search stand
    for distinct stored sections with their similarities as scores, the
    scores never increase along the list, and no section that is left out
    has a higher similarity than a section that is returned. *)
Theorem search_results_ranked (query : string) (k : Z) (st : St W) (q : Np.vec) (w' : W) :
  embeddings_create (Py.prefix embedding_limit query) (world st) = (Ok q, w') ->
  embeddings (self st) <> [] ->
  rows_match q (embeddings (self st)) = true ->
  length (sections (self st)) = length (embeddings (self st)) ->
  no_nan (stored_scores np q (self st)) ->
  exists rs idxs,
    search query k st = (Ok rs, mkSt (self st) (disk st) w') /\
    Forall2 (result_of_index (self st) (stored_scores np q (self st))) idxs rs /\
    NoDup idxs /\
    (forall p p' r r', p < p' -> rs !! p = Some r -> rs !! p' = Some r' ->
       at_most (r_score r') (r_score r)) /\
    (forall i j x y, i ∈ idxs -> j ∉ idxs ->
       stored_scores np q (self st) !! i = Some x ->
       stored_scores np q (self st) !! j = Some y ->
       at_most y x).
Proof.
  intros Hq Hne Hrows Hlen Hnan.
  destruct (search_standards_run query k st q w') as (rs & Hrun & Hall); [done..|].
  exists rs, (top_indices np (stored_scores np q (self st)) k).
  split; [done|]. split; [done|]. split; [apply top_indices_nodup|]. split.
  - intros p p' r r' Hlt Hr Hr'.
    destruct (Forall2_lookup_r _ _ _ _ _ Hall Hr) as (i & Hi & Hsi & _).
    destruct (Forall2_lookup_r _ _ _ _ _ Hall Hr') as (j & Hj & Hsj & _).
    by eapply (top_indices_ranked np _ k p p' i j).
  - intros i j x y. by apply top_indices_top.
Qed.

End SearchFacts.

(** The two stored sections of the demonstration store are equally
    similar to the query. *)
Example equal_similarities :
  stored_scores Np.reference [1; 1]%float Demo.ingested !! 0
    = stored_scores Np.reference [1; 1]%float Demo.ingested !! 1.
Proof. reflexivity. Qed.

(** On the values 1, 1, 0, 0 the two kernels of the examples leave the
    indices of equal values one way and the other; both are ascending. *)
Example argsort_of_equal_values :
  Np.argsort Np.reference [1; 1; 0; 0]%float = [2; 3; 0; 1] /\
  top_indices Np.reference [1; 1; 0; 0]%float 4 = [1; 0; 3; 2] /\
  Np.argsort Demo.descending [1; 1; 0; 0]%float = [3; 2; 1; 0] /\
  top_indices Demo.descending [1; 1; 0; 0]%float 4 = [0; 1; 2; 3].
Proof. repeat split; reflexivity. Qed.

(** C3, as stated, fails. The order of two sections of equal similarity
    is the order numpy's [argsort] leaves them in: where it keeps equal
    values in index order the later section is listed first and, with
    [top_k = 1], returned alone; where it leaves them the other way round
    the earlier one is. And a NaN similarity, that of a stored zero
    vector, is listed first, before a similarity of 1. *)
Lemma search_ties_list_later_first :
  Sec.id <$> sections Demo.ingested !! 0 = Some "uuid-1" /\
  Sec.id <$> sections Demo.ingested !! 1 = Some "uuid-2" /\
  result_ids (search_standards Np.reference (Demo.embed_until 100) "A" 2
                Demo.session).1 = Ok ["uuid-2"; "uuid-1"] /\
  result_ids (search_standards Np.reference (Demo.embed_until 100) "A" 1
                Demo.session).1 = Ok ["uuid-2"] /\
  result_ids (search_standards Demo.descending (Demo.embed_until 100) "A" 2
                Demo.session).1 = Ok ["uuid-1"; "uuid-2"] /\
  result_scores (search_standards Np.reference Demo.embed_x "A" 2
                   Demo.zero_first_session).1 = Ok [nan; 1]%float /\
  (1 <=? nan)%float = false.
Proof. repeat split; reflexivity. Qed.

Lemma search_results_ranked_witness :
  exists rs idxs,
    Demo.search "A" 2 Demo.session = (Ok rs, mkSt Demo.ingested empty_disk 6) /\
    Forall2 (result_of_index Demo.ingested
               (stored_scores Np.reference [1; 1]%float Demo.ingested)) idxs rs /\
    NoDup idxs /\
    (forall p p' r r', p < p' -> rs !! p = Some r -> rs !! p' = Some r' ->
       at_most (r_score r') (r_score r)) /\
    (forall i j x y, i ∈ idxs -> j ∉ idxs ->
       stored_scores Np.reference [1; 1]%float Demo.ingested !! i = Some x ->
       stored_scores Np.reference [1; 1]%float Demo.ingested !! j = Some y ->
       at_most y x).
Proof.
  apply (search_results_ranked Np.reference (Demo.embed_until 100) "A" 2
           Demo.session [1; 1]%float 6).
  - reflexivity.
  - discriminate.
  - reflexivity.
  - reflexivity.
  - repeat constructor.
Defined.

(** C2: with [top_k = 0] a search over two stored sections returns both
    of them, not [min(0, 2) = 0] results: the slice [[-0:]] is the whole
    list. *)
Theorem search_top_k_zero_returns_all :
  length (sections Demo.ingested) = 2 /\
  exists rs,
    Demo.search "A" 0 Demo.session = (Ok rs, mkSt Demo.ingested empty_disk 6) /\
    length rs = 2 /\
    Z.of_nat (length rs) <> Z.min 0 (Z.of_nat (length (sections Demo.ingested))).
Proof.
  split; [reflexivity|]. eexists. split; [reflexivity|].
  split; [reflexivity|]. simpl. lia.
Qed.

(** C4, as stated, fails: the similarity of a stored zero vector is NaN,
    not 0, in the array of similarities and in the score of the result. *)
Lemma zero_vector_similarity_is_nan :
  Np.norm_rows Np.reference [[0; 0]]%float = [0]%float /\
  similarities Np.reference [[0; 0]]%float [1; 1]%float = Ok [nan] /\
  result_scores (Demo.search "A" 1 Demo.zero_session).1 = Ok [nan] /\
  is_nan nan = true /\
  (nan =? 0)%float = false.
Proof. repeat split; reflexivity. Qed.

(** ** The document network *)

Lemma enumerate_from_lookup {A} (k : nat) (l : list A) (i : nat) (x : A) :
  (i, x) ∈ Py.enumerate_from k l <-> k <= i /\ l !! (i - k) = Some x.
Proof.
  revert k; induction l as [|y l IH]; intros k; simpl.
  - split; [by intros ?%elem_of_nil|by intros [_ ?]].
  - rewrite elem_of_cons, IH. split.
    + intros [[= -> ->]|[Hk Hx]].
      * split; [lia|]. by rewrite Nat.sub_diag.
      * split; [lia|]. by replace (i - k) with (S (i - S k)) by lia.
    + intros [Hk Hx]. destruct (decide (i = k)) as [->|Hne].
      * left. rewrite Nat.sub_diag in Hx. by injection Hx as ->.
      * right. split; [lia|].
        by replace (i - k) with (S (i - S k)) in Hx by lia.
Qed.

Lemma doc_sections_spec (secs : list Sec.t) (doc_id : string) (i : nat) :
  i ∈ doc_sections secs doc_id <->
  exists x, secs !! i = Some x /\ Sec.document_id x = doc_id.
Proof.
  unfold doc_sections, Py.enumerate. rewrite list_elem_of_omap. split.
  - intros ([j x] & Hin & Hsome). apply enumerate_from_lookup in Hin as [_ Hx].
    rewrite Nat.sub_0_r in Hx.
    destruct (String.eqb_spec (Sec.document_id x) doc_id); [|done].
    injection Hsome as ->. by exists x.
  - intros (x & Hx & Hid). exists (i, x). split.
    + apply enumerate_from_lookup. split; [lia|by rewrite Nat.sub_0_r].
    + by rewrite <- Hid, String.eqb_refl.
Qed.

Lemma rows_at_ok (embs : list Np.vec) (idxs : list nat) :
  Forall (fun i => i < length embs) idxs ->
  exists rows, rows_at embs idxs = Ok rows /\
               length rows = length idxs /\
               Forall (fun r => r ∈ embs) rows.
Proof.
  induction 1 as [|i idxs Hi _ (rows & Hrows & Hlen & Hall)].
  - exists []. by repeat split.
  - destruct (lookup_lt_is_Some_2 _ _ Hi) as [e He].
    exists (e :: rows). simpl. rewrite He, Hrows. simpl.
    split; [done|]. split; [by rewrite Hlen|].
    constructor; [by eapply list_elem_of_lookup_2|done].
Qed.

Lemma foldl_vadd_length (d : nat) (r : Np.vec) (rs : list Np.vec) :
  length r = d -> Forall (fun r' => length r' = d) rs ->
  length (foldl Np.vadd r rs) = d.
Proof.
  revert r; induction rs as [|r' rs IH]; intros r Hr Hrs; [done|].
  apply Forall_cons in Hrs as [Hr' Hrs]. simpl. apply IH; [|done].
  unfold Np.vadd. rewrite length_zip_with. lia.
Qed.

Lemma mean0_ok (d : nat) (rows : list Np.vec) :
  rows <> [] -> Forall (fun r => length r = d) rows ->
  exists c, Np.mean0 rows = Ok c /\ length c = d.
Proof.
  destruct rows as [|r rs]; [done|]. intros _ [Hr Hrs]%Forall_cons.
  unfold Np.mean0, Np.array. cbn [Np.rectangular].
  assert (Hrect : forallb (fun r' => length r' =? length r) rs = true).
  { apply forallb_forall. intros r' Hin%list_elem_of_In.
    rewrite Forall_forall in Hrs. apply Nat.eqb_eq. rewrite Hr. by apply Hrs. }
  rewrite Hrect. cbn [rbind]. eexists. split; [reflexivity|].
  rewrite length_map. by apply foldl_vadd_length.
Qed.

Section NetworkFacts.

Variables (s : Self) (d : nat).
Hypothesis Hready : network_ready s d.

(** On a ready store a centroid never fails, and it has the dimension of
    the embeddings. *)
Lemma centroid_ok (doc_id : string) :
  exists oc, centroid s doc_id = Ok oc /\
             forall c, oc = Some c -> length c = d.
Proof.
  destruct Hready as (Hlen & Hdim & _). unfold centroid.
  destruct (doc_sections (sections s) doc_id) as [|i idxs] eqn:Hds.
  - exists None. by split.
  - destruct (rows_at_ok (embeddings s) (i :: idxs)) as (rows & Hrows & Hl & Hall).
    { rewrite <- Hds. apply Forall_forall. intros j Hj.
      apply doc_sections_spec in Hj as (x & Hx & _).
      apply lookup_lt_Some in Hx. lia. }
    destruct (mean0_ok d rows) as (c & Hc & Hcd).
    { by destruct rows. }
    { rewrite Forall_forall in Hall, Hdim. apply Forall_forall.
      intros r Hr. by apply Hdim, Hall. }
    rewrite Hrows. cbn [rbind]. rewrite Hc. cbn [rbind].
    exists (Some c). split; [done|]. by intros ? [= <-].
Qed.

(** The dict of centroids after the loop over the documents. *)
Lemma doc_embeddings_loop_ok (doc_ids : list string) (acc : gmap string Np.vec) :
  exists de,
    doc_embeddings_loop s doc_ids acc = Ok de /\
    forall k, de !! k =
      match centroid s k with
      | Ok (Some c) => if decide (k ∈ doc_ids) then Some c else acc !! k
      | _ => acc !! k
      end.
Proof.
  revert acc; induction doc_ids as [|id ids IH]; intros acc.
  - exists acc. split; [done|]. intros k.
    destruct (centroid s k) as [[c|]|]; [|done..].
    destruct (decide (k ∈ [])) as [Hin|]; [by apply elem_of_nil in Hin|done].
  - cbn [doc_embeddings_loop].
    destruct (centroid_ok id) as (oc & Hoc & _). rewrite Hoc. cbn [rbind].
    destruct (IH (match oc with Some e => <[id:=e]> acc | None => acc end))
      as (de & Hde & Hlook).
    exists de. split; [done|]. intros k. rewrite Hlook.
    destruct (centroid s k) as [[c|]|] eqn:Hck.
    + destruct (decide (k ∈ ids)) as [Hin|Hnin].
      * rewrite decide_True; [done|]. by apply elem_of_cons; right.
      * destruct (decide (k = id)) as [->|Hne].
        -- rewrite decide_True by by apply elem_of_cons; left.
           rewrite Hoc in Hck. injection Hck as ->. by rewrite lookup_insert_eq.
        -- rewrite decide_False.
           ++ destruct oc; [by rewrite lookup_insert_ne|done].
           ++ intros [?|?]%elem_of_cons; done.
    + destruct (decide (k = id)) as [->|Hne].
      * rewrite Hoc in Hck. by injection Hck as ->.
      * destruct oc; [by rewrite lookup_insert_ne|done].
    + destruct (centroid_ok k) as (? & Hk & _). congruence.
Qed.

End NetworkFacts.

Lemma cosine_ok (np : Np.kernel) (a b : Np.vec) :
  length a = length b -> Np.cosine np a b = Ok (cosine_of np a b).
Proof.
  intros Hlen. unfold Np.cosine, Np.dot. rewrite Hlen, Nat.eqb_refl.
  reflexivity.
Qed.

Section EdgeFacts.

Variable np : Np.kernel.
Variables (doc_embeddings : gmap string Np.vec) (d : nat).
Hypothesis Hdim : forall k v, doc_embeddings !! k = Some v -> length v = d.

Lemma edges_from_ok (doc1_id : string) (e1 : Np.vec) (later : list string)
    (edges : list Edge) :
  length e1 = d ->
  edges_from np doc_embeddings doc1_id e1 later edges =
  Ok (edges ++ omap (edge_to np doc_embeddings doc1_id e1) later)%list.
Proof.
  intros He1. revert edges; induction later as [|doc2_id later IH]; intros edges.
  - simpl. by rewrite app_nil_r.
  - cbn [edges_from omap list_omap].
    destruct (doc_embeddings !! doc2_id) as [e2|] eqn:He2.
    + assert (Hedge : edge_to np doc_embeddings doc1_id e1 doc2_id =
                      if (threshold <? cosine_of np e1 e2)%float
                      then Some (mkEdge doc1_id doc2_id (cosine_of np e1 e2))
                      else None).
      { unfold edge_to. by rewrite He2. }
      rewrite Hedge.
      rewrite cosine_ok by (rewrite He1; symmetry; by eapply Hdim).
      cbn [rbind]. rewrite IH.
      destruct (threshold <? cosine_of np e1 e2)%float; [|done].
      by rewrite <- app_assoc.
    + assert (Hedge : edge_to np doc_embeddings doc1_id e1 doc2_id = None).
      { unfold edge_to. by rewrite He2. }
      rewrite Hedge. apply IH.
Qed.

Lemma edges_loop_ok (doc_ids : list string) (edges : list Edge) :
  edges_loop np doc_embeddings doc_ids edges =
  Ok (edges ++ spec_edges np doc_embeddings doc_ids)%list.
Proof.
  revert edges; induction doc_ids as [|doc1_id later IH]; intros edges.
  - simpl. by rewrite app_nil_r.
  - cbn [edges_loop spec_edges].
    destruct (doc_embeddings !! doc1_id) as [e1|] eqn:He1.
    + rewrite edges_from_ok by by eapply Hdim. cbn [rbind].
      by rewrite IH, app_assoc.
    + by rewrite IH.
Qed.

End EdgeFacts.

(** An edge is in the list exactly when it joins a document to a later
    one, both with a centroid, whose similarity is above the threshold. *)
Lemma spec_edges_elem (np : Np.kernel) (de : gmap string Np.vec)
    (ids : list string) (e : Edge) :
  e ∈ spec_edges np de ids <->
  exists i j id1 id2 e1 e2,
    i < j /\ ids !! i = Some id1 /\ ids !! j = Some id2 /\
    de !! id1 = Some e1 /\ de !! id2 = Some e2 /\
    (threshold <? cosine_of np e1 e2)%float = true /\
    e = mkEdge id1 id2 (cosine_of np e1 e2).
Proof.
  induction ids as [|id1 later IH].
  - simpl. split; [by intros ?%elem_of_nil|]. by intros (i & j & ? & ? & ? & ? & _ & ? & _).
  - cbn [spec_edges]. rewrite elem_of_app, IH. split.
    + intros [Hhere|(i & j & a & b & e1 & e2 & Hlt & Ha & Hb & H1 & H2 & Hth & ->)].
      * destruct (de !! id1) as [e1|] eqn:He1; [|by apply elem_of_nil in Hhere].
        apply list_elem_of_omap in Hhere as (id2 & Hin & Hedge).
        apply list_elem_of_lookup in Hin as [j Hj].
        unfold edge_to in Hedge.
        destruct (de !! id2) as [e2|] eqn:He2; [|done].
        destruct (threshold <? cosine_of np e1 e2)%float eqn:Hth; [|done].
        injection Hedge as <-.
        exists 0, (S j), id1, id2, e1, e2. repeat split; try done. lia.
      * exists (S i), (S j), a, b, e1, e2. repeat split; try done. lia.
    + intros (i & j & a & b & e1 & e2 & Hlt & Ha & Hb & H1 & H2 & Hth & ->).
      destruct j as [|j]; [lia|]. simpl in Hb.
      destruct i as [|i]; simpl in Ha.
      * injection Ha as ->. left. rewrite H1.
        apply list_elem_of_omap. exists b. split.
        -- by eapply list_elem_of_lookup_2.
        -- unfold edge_to. by rewrite H2, Hth.
      * right. exists i, j, a, b, e1, e2. repeat split; try done. lia.
Qed.

Lemma edge_to_ends (np : Np.kernel) (de : gmap string Np.vec) (id1 : string)
    (e1 : Np.vec) (later : list string) (p : string * string) :
  p ∈ map ends (omap (edge_to np de id1 e1) later) -> p.1 = id1 /\ p.2 ∈ later.
Proof.
  intros (e & -> & He)%list_elem_of_fmap.
  apply list_elem_of_omap in He as (id2 & Hin & Hedge).
  unfold edge_to in Hedge. destruct (de !! id2); [|done].
  destruct (threshold <? _)%float; [|done]. injection Hedge as <-. by split.
Qed.

Lemma edge_to_ends_nodup (np : Np.kernel) (de : gmap string Np.vec)
    (id1 : string) (e1 : Np.vec) (later : list string) :
  NoDup later -> NoDup (map ends (omap (edge_to np de id1 e1) later)).
Proof.
  induction 1 as [|id2 later Hnin _ IH]; [constructor|].
  cbn [omap list_omap]. destruct (edge_to np de id1 e1 id2) as [e|] eqn:He; [|done].
  cbn [map]. constructor; [|done].
  intros [_ Hin]%edge_to_ends. unfold edge_to in He.
  destruct (de !! id2); [|done]. destruct (threshold <? _)%float; [|done].
  injection He as <-. done.
Qed.

(** Between two documents there is at most one edge in each direction. *)
Lemma spec_edges_ends_nodup (np : Np.kernel) (de : gmap string Np.vec)
    (ids : list string) :
  NoDup ids -> NoDup (map ends (spec_edges np de ids)).
Proof.
  induction 1 as [|id1 later Hnin Hnd IH]; [constructor|].
  cbn [spec_edges]. rewrite map_app. apply NoDup_app. split; [|split; [|done]].
  - destruct (de !! id1); [by apply edge_to_ends_nodup|constructor].
  - intros p Hp (e & -> & He)%list_elem_of_fmap.
    apply spec_edges_elem in He as (i & j & a & b & ? & ? & _ & Ha & _ & _ & _ & _ & ->).
    destruct (de !! id1); [|by apply elem_of_nil in Hp].
    apply edge_to_ends in Hp as [Hsrc _]. simpl in Hsrc. subst a.
    apply Hnin. by eapply list_elem_of_lookup_2.
Qed.

(** *** The centroid the code computes is the mean of the claim *)

(** On aligned lists, the rows at the positions of the sections of a
    document are the embeddings of those sections. *)
Lemma rows_at_members (doc_id : string) (before : list Np.vec)
    (secs : list Sec.t) (embs : list Np.vec) :
  length secs = length embs ->
  rows_at (before ++ embs)%list
    (omap (fun '(i, x) =>
             if String.eqb (Sec.document_id x) doc_id then Some i else None)
          (Py.enumerate_from (length before) secs)) =
  Ok (omap (fun xe => if String.eqb (Sec.document_id xe.1) doc_id
                      then Some xe.2 else None)
           (zip secs embs)).
Proof.
  revert before embs. induction secs as [|x secs IH]; intros before [|e embs] Hlen;
    try done.
  injection Hlen as Hlen.
  specialize (IH (before ++ [e])%list embs Hlen).
  rewrite <- app_assoc, length_app, Nat.add_1_r in IH. simpl in IH.
  cbn [Py.enumerate_from zip zip_with omap list_omap fst snd].
  destruct (String.eqb (Sec.document_id x) doc_id).
  - cbn [rows_at]. rewrite lookup_app_r by lia.
    rewrite Nat.sub_diag. cbn [lookup list_lookup]. by rewrite IH.
  - exact IH.
Qed.

Lemma vadd_nth (a b : Np.vec) (k : nat) :
  k < length a -> k < length b ->
  nth k (Np.vadd a b) nan = (nth k a nan + nth k b nan)%float.
Proof.
  revert b k. induction a as [|x a IH]; intros [|y b] [|k]; simpl; try lia; try done.
  intros; apply IH; lia.
Qed.

Lemma foldl_vadd_columns (d : nat) (r : Np.vec) (rs : list Np.vec) :
  length r = d -> Forall (fun r' => length r' = d) rs ->
  foldl Np.vadd r rs =
  map (fun k => foldl (fun acc r' => acc + nth k r' nan)%float (nth k r nan) rs)
      (seq 0 d).
Proof.
  revert r. induction rs as [|r' rs IH]; intros r Hr Hrs.
  - simpl. subst d. apply list_eq. intros k. rewrite list_lookup_fmap.
    destruct (r !! k) as [x|] eqn:Hx.
    + rewrite lookup_seq_lt by by eapply lookup_lt_Some.
      simpl. by rewrite (nth_lookup_Some _ _ _ _ Hx).
    + by rewrite lookup_seq_ge by by apply lookup_ge_None.
  - apply Forall_cons in Hrs as [Hr' Hrs]. simpl.
    rewrite IH; [|unfold Np.vadd; rewrite length_zip_with; lia|done].
    apply map_ext_in. intros k Hk%in_seq.
    by rewrite vadd_nth by lia.
Qed.

(** [np.mean(rows, axis=0)] is the mean of every column. *)
Lemma mean0_columns (d : nat) (rows : list Np.vec) :
  rows <> [] -> Forall (fun r => length r = d) rows ->
  Np.mean0 rows = Ok (map (column_mean rows) (seq 0 d)).
Proof.
  destruct rows as [|r rs]; [done|]. intros _ [Hr Hrs]%Forall_cons.
  unfold Np.mean0, Np.array. cbn [Np.rectangular].
  assert (Hrect : forallb (fun r' => length r' =? length r) rs = true).
  { apply forallb_forall. intros r' Hin%list_elem_of_In.
    rewrite Forall_forall in Hrs. apply Nat.eqb_eq. rewrite Hr. by apply Hrs. }
  rewrite Hrect. cbn [rbind]. f_equal.
  rewrite (foldl_vadd_columns d) by done.
  by rewrite map_map.
Qed.

Lemma members_rows (s : Self) (doc_id : string) (row : Np.vec) :
  row ∈ members s doc_id -> row ∈ embeddings s.
Proof.
  unfold members. intros ([x e] & Hin & Hsome)%list_elem_of_omap.
  simpl in Hsome. destruct (String.eqb _ _); [|done]. injection Hsome as ->.
  apply list_elem_of_lookup in Hin as [i Hi].
  apply lookup_zip_with_Some in Hi as (? & ? & [= <- <-] & _ & He).
  by eapply list_elem_of_lookup_2.
Qed.

Lemma centroid_char (s : Self) (d : nat) (doc_id : string) :
  network_ready s d -> centroid s doc_id = Ok (centroid_of s d doc_id).
Proof.
  intros (Hlen & Hdim & _). unfold centroid, centroid_of.
  pose proof (rows_at_members doc_id [] (sections s) (embeddings s) Hlen) as Hrows.
  simpl in Hrows. fold (Py.enumerate (sections s)) in Hrows.
  fold (doc_sections (sections s) doc_id) in Hrows.
  fold (members s doc_id) in Hrows.
  destruct (doc_sections (sections s) doc_id) as [|i idxs] eqn:Hds.
  - simpl in Hrows. injection Hrows as <-. done.
  - rewrite Hrows. cbn [rbind].
    destruct (members s doc_id) as [|r rs] eqn:Hm.
    { simpl in Hrows. destruct (embeddings s !! i); [|done].
      simpl in Hrows. by destruct (rows_at _ _). }
    rewrite (mean0_columns d); [done|done|].
    apply Forall_forall. intros row Hrow.
    rewrite Forall_forall in Hdim. apply Hdim.
    apply (members_rows s doc_id). by rewrite Hm.
Qed.

(** C9: with fewer than two sections the network has no nodes and no
    edges. Otherwise, on a store whose embeddings are aligned with the
    sections and of one dimension and whose documents have distinct
    identifiers, it has one node for each document, in order, and its
    edges are exactly these: for two documents, one before the other,
    that both have a centroid (the mean of the embeddings of their
    sections) whose cosine similarity (numpy's dot product over the
    product of numpy's norms) is strictly above 0.8, the edge from the
    first to the second, weighted by that similarity. There is at most
    one edge for a pair of ends, none in the opposite direction of
    another, and none from a document to itself. *)
Theorem network_edges_above_threshold (np : Np.kernel) (s : Self) (d : nat) :
  (length (sections s) < 2 ->
   get_standards_network np s = Ok (mkNetwork [] [])) /\
  (2 <= length (sections s) -> network_ready s d ->
   exists ns es,
     get_standards_network np s = Ok (mkNetwork ns es) /\
     map n_id ns = map Doc.id (documents s) /\
     (forall e, e ∈ es <->
        exists i j d1 d2 c1 c2,
          i < j /\ documents s !! i = Some d1 /\ documents s !! j = Some d2 /\
          centroid_of s d (Doc.id d1) = Some c1 /\
          centroid_of s d (Doc.id d2) = Some c2 /\
          (threshold <? cosine_of np c1 c2)%float = true /\
          e = mkEdge (Doc.id d1) (Doc.id d2) (cosine_of np c1 c2)) /\
     NoDup (map ends es) /\
     (forall e e', e ∈ es -> e' ∈ es ->
        ~ (source e' = target e /\ target e' = source e)) /\
     (forall e, e ∈ es -> source e <> target e)).
Proof.
  split.
  - intros Hlt. unfold get_standards_network.
    by destruct (Nat.ltb_spec (length (sections s)) 2); [|lia].
  - intros Hge Hready. unfold get_standards_network.
    destruct (Nat.ltb_spec (length (sections s)) 2); [lia|].
    destruct (doc_embeddings_loop_ok s d Hready (map Doc.id (documents s)) ∅)
      as (de & Hde & Hlook).
    assert (Hcent : forall k v, de !! k = Some v <->
              k ∈ map Doc.id (documents s) /\ centroid_of s d k = Some v).
    { intros k v. rewrite Hlook, (centroid_char s d k Hready).
      destruct (centroid_of s d k) as [c|]; rewrite ?lookup_empty.
      - destruct (decide (k ∈ map Doc.id (documents s))); rewrite ?lookup_empty;
          split; [by intros [= ->]|by intros [_ [= ->]]|done|by intros [? _]].
      - split; [done|by intros [_ ?]]. }
    assert (Hdim : forall k v, de !! k = Some v -> length v = d).
    { intros k v [_ Hc]%Hcent.
      destruct (centroid_ok s d Hready k) as (oc & Hoc & Hlen).
      apply Hlen. rewrite (centroid_char s d k Hready) in Hoc. congruence. }
    rewrite Hde. cbn [rbind]. rewrite (edges_loop_ok np de d Hdim). cbn [rbind app].
    assert (Hrev : forall e e',
              e ∈ spec_edges np de (map Doc.id (documents s)) ->
              e' ∈ spec_edges np de (map Doc.id (documents s)) ->
              ~ (source e' = target e /\ target e' = source e)).
    { intros e e' He He' [Hst Hts].
      apply spec_edges_elem in He
        as (i & j & a & b & ? & ? & Hlt & Hi & Hj & _ & _ & _ & ->).
      apply spec_edges_elem in He'
        as (i' & j' & a' & b' & ? & ? & Hlt' & Hi' & Hj' & _ & _ & _ & ->).
      simpl in Hst, Hts. subst a' b'.
      destruct Hready as (_ & _ & Hnd).
      pose proof (NoDup_lookup _ _ _ _ Hnd Hi Hj').
      pose proof (NoDup_lookup _ _ _ _ Hnd Hj Hi').
      lia. }
    exists (map node_of (documents s)),
      (spec_edges np de (map Doc.id (documents s))).
    split; [done|]. split; [by rewrite map_map|].
    split; [|split; [|split; [exact Hrev|]]].
    + intros e. rewrite spec_edges_elem. split.
      * intros (i & j & id1 & id2 & e1 & e2 & Hlt & Hi & Hj & H1 & H2 & Hth & ->).
        rewrite list_lookup_fmap in Hi, Hj.
        destruct (documents s !! i) as [d1|] eqn:Hd1; [|done].
        destruct (documents s !! j) as [d2|] eqn:Hd2; [|done].
        injection Hi as <-. injection Hj as <-.
        exists i, j, d1, d2, e1, e2.
        apply Hcent in H1 as Hc1. apply Hcent in H2 as Hc2.
        repeat split; try done; tauto.
      * intros (i & j & d1 & d2 & c1 & c2 & Hlt & Hd1 & Hd2 & Hc1 & Hc2
                & Hth & ->).
        assert (Hi : map Doc.id (documents s) !! i = Some (Doc.id d1)).
        { by rewrite list_lookup_fmap, Hd1. }
        assert (Hj : map Doc.id (documents s) !! j = Some (Doc.id d2)).
        { by rewrite list_lookup_fmap, Hd2. }
        assert (H1 : de !! Doc.id d1 = Some c1).
        { apply Hcent. split; [by eapply list_elem_of_lookup_2|done]. }
        assert (H2 : de !! Doc.id d2 = Some c2).
        { apply Hcent. split; [by eapply list_elem_of_lookup_2|done]. }
        by exists i, j, (Doc.id d1), (Doc.id d2), c1, c2.
    + apply spec_edges_ends_nodup. by destruct Hready as (_ & _ & ?).
    + intros e He Heq. apply (Hrev e e He He). by split.
Qed.

Lemma network_edges_above_threshold_witness :
  exists ns es,
    get_standards_network Np.reference Demo.library = Ok (mkNetwork ns es) /\
    map n_id ns = ["doc-a"; "doc-b"] /\
    mkEdge "doc-a" "doc-b" (cosine_of Np.reference [1; 0] [2; 1])%float ∈ es /\
    NoDup (map ends es) /\
    (forall e, e ∈ es -> source e <> target e).
Proof.
  destruct (proj2 (network_edges_above_threshold Np.reference Demo.library 2))
    as (ns & es & Hrun & Hids & Hedges & Hnd & _ & Hself).
  - simpl. lia.
  - split; [reflexivity|]. split; [by repeat constructor|].
    apply (bool_decide_unpack _). by vm_compute.
  - exists ns, es. split; [done|]. split; [done|].
    split; [|by split]. apply Hedges.
    exists 0, 1,
      (Doc.mk "doc-a" "standards/iso45001.pdf" "pdf" 100 Demo.now),
      (Doc.mk "doc-b" "standards/osha1910.pdf" "pdf" 200 Demo.now),
      [1; 0]%float, [2; 1]%float.
    split; [lia|]. repeat split; reflexivity.
Defined.

Example network_of_library :
  (threshold <? cosine_of Np.reference [1; 0] [2; 1])%float = true /\
  get_standards_network Np.reference Demo.library =
    Ok (mkNetwork
          [mkNode "doc-a" "iso45001.pdf" 10; mkNode "doc-b" "osha1910.pdf" 10]
          [mkEdge "doc-a" "doc-b" (cosine_of Np.reference [1; 0] [2; 1])%float]).
Proof. split; reflexivity. Qed.

(** ** The fallback of the segmentation *)

(** C5: after a reply of the segmentation oracle that is not JSON, a text
    of two paragraphs with an empty block between them gives two sections,
    in order, titled "Section 1" and "Section 3": the fallback numbers a
    paragraph by its position among all the blocks, the empty ones
    included. *)
Theorem fallback_titles_skip_blank_paragraphs :
  Py.split_blank Demo.two_blocks = ["A"; ""; "B"] /\
  _split_into_sections Demo.uuid4 Demo.chat Demo.two_blocks "uuid-0"
      (mkSt (mkSelf [Demo.doc] [] []) empty_disk 1)
    = (Ok Demo.secs, mkSt (mkSelf [Demo.doc] [] []) empty_disk 3) /\
  map Sec.title Demo.secs = ["Section 1"; "Section 3"] /\
  map Sec.content Demo.secs = ["A"; "B"].
Proof. repeat split; reflexivity. Qed.

Lemma enumerate_from_fst {A} (k : nat) (l : list A) :
  map fst (Py.enumerate_from k l) = seq k (length l).
Proof.
  revert k; induction l as [|x l IH]; intros k; [done|].
  simpl. by rewrite IH.
Qed.

(** The fallback keeps the paragraphs that are not blank, in order. *)
Lemma fallback_sections_contents (paragraphs : list string) :
  map c_content (fallback_sections paragraphs) =
  map Some (List.filter (fun p => Py.truthy (Py.strip p)) paragraphs).
Proof.
  unfold fallback_sections, Py.enumerate.
  set (keep := fun '(i, s) =>
         if Py.truthy (Py.strip s)
         then Some (mkCandidate (Some ("Section " +:+ Py.str_of_nat (i + 1))) (Some s))
         else None).
  assert (Haux : forall k,
            map c_content (omap keep (Py.enumerate_from k paragraphs)) =
            map Some (List.filter (fun p => Py.truthy (Py.strip p)) paragraphs));
    [|apply Haux].
  induction paragraphs as [|p ps IH]; intros k; [done|].
  cbn [Py.enumerate_from omap list_omap List.filter]. unfold keep at 1.
  destruct (Py.truthy (Py.strip p)); cbn [map]; by rewrite IH.
Qed.

Section FallbackFacts.

Context {W : Type}.
Variable uuid4 : W -> string * W.
Variable chat_completions_create : list string -> W -> result ChatReply * W.

(** After a reply that is not JSON, or that is JSON without the key
    [sections], the text is split into one section for each paragraph
    that is not blank, in paragraph order: the content is the stripped
    paragraph and the indices count from 0. *)
Theorem split_into_sections_fallback (text doc_id : string) (st : St W)
    (reply : ChatReply) (w1 : W) :
  chat_completions_create (take 10 (Py.split_blank text)) (world st) = (Ok reply, w1) ->
  reply = NotJSON \/ reply = NoSectionsKey ->
  exists secs w',
    _split_into_sections uuid4 chat_completions_create text doc_id st
      = (Ok secs, mkSt (self st) (disk st) w') /\
    map Sec.content secs =
      map Py.strip (List.filter (fun p => Py.truthy (Py.strip p)) (Py.split_blank text)) /\
    map Sec.index secs = seq 0 (length secs).
Proof.
  intros Hchat Hreply. unfold _split_into_sections, bind, call.
  rewrite Hchat. cbn [self disk world].
  destruct (collect_format_frame uuid4 doc_id
              (Py.enumerate (fallback_sections (Py.split_blank text)))
              (mkSt (self st) (disk st) w1))
    as (secs & w' & Hrun & _ & Hidx & _ & Hcontent).
  exists secs, w'.
  assert (Hlen : length secs = length (fallback_sections (Py.split_blank text))).
  { rewrite <- (length_map Sec.index), Hidx. unfold Py.enumerate.
    by rewrite enumerate_from_fst, length_seq. }
  split; [|split].
  - destruct Hreply as [-> | ->]; exact Hrun.
  - rewrite Hcontent.
    rewrite <- (map_map snd (fun c => Py.strip (default EmptyString (c_content c)))).
    assert (Hsnd : forall {A} k (l : list A), map snd (Py.enumerate_from k l) = l).
    { intros A k l. revert k. induction l as [|x l IH]; intros k; [done|].
      simpl. by rewrite IH. }
    unfold Py.enumerate. rewrite Hsnd.
    rewrite <- (map_map c_content (fun o => Py.strip (default EmptyString o))).
    rewrite fallback_sections_contents, map_map. reflexivity.
  - rewrite Hidx, Hlen. unfold Py.enumerate. apply enumerate_from_fst.
Qed.

End FallbackFacts.

Lemma split_into_sections_fallback_witness :
  exists secs w',
    _split_into_sections Demo.uuid4 Demo.chat Demo.two_blocks "uuid-0"
        (mkSt (mkSelf [Demo.doc] [] []) empty_disk 1)
      = (Ok secs, mkSt (mkSelf [Demo.doc] [] []) empty_disk w') /\
    map Sec.content secs =
      map Py.strip
        (List.filter (fun p => Py.truthy (Py.strip p)) (Py.split_blank Demo.two_blocks)) /\
    map Sec.index secs = seq 0 (length secs).
Proof.
  apply (split_into_sections_fallback Demo.uuid4 Demo.chat Demo.two_blocks "uuid-0"
           (mkSt (mkSelf [Demo.doc] [] []) empty_disk 1) NotJSON 1).
  - reflexivity.
  - left. reflexivity.
Defined.

Lemma search_standards_length_witness :
  exists rs,
    Demo.search "A" 1 Demo.session = (Ok rs, mkSt Demo.ingested empty_disk 6) /\
    length rs = 1.
Proof.
  apply (search_standards_length Np.reference (Demo.embed_until 100) "A" 1 Demo.session
           [1; 1]%float 6).
  - reflexivity.
  - discriminate.
  - reflexivity.
  - reflexivity.
  - lia.
Defined.

Lemma unsupported_format_changes_nothing_witness :
  Demo.process 10 Demo.image Demo.start = (Raise ValueError, Demo.start).
Proof.
  apply (unsupported_format_changes_nothing Demo.uuid4 Demo.timestamp_now
           Demo.chat (Demo.embed_until 10) Demo.no_pages Demo.no_pages
           Demo.decode Demo.image Demo.start); discriminate.
Defined.

Lemma search_empty_corpus_witness :
  Demo.search "A" 5 Demo.start = (Ok [], mkSt empty_self empty_disk 1).
Proof.
  apply (search_empty_corpus Np.reference (Demo.embed_until 100) "A" 5 Demo.start
           [1; 1]%float 1); reflexivity.
Defined.

(** Stored vectors [[1,0]] and [[0,1]] and the query vector [[1,0]]: the
    first result is the section of [[1,0]], with score 1. *)
Example ranking_of_axes :
  result_ids (search_standards Np.reference Demo.embed_x "q" 1 (mkSt Demo.axes empty_disk 0)).1
    = Ok ["sec-x"] /\
  result_scores (search_standards Np.reference Demo.embed_x "q" 1 (mkSt Demo.axes empty_disk 0)).1
    = Ok [1%float].
Proof. split; reflexivity. Qed.

(** ** More on ingestion *)

Lemma save_then_init (s : Self) (d : Disk) :
  Np.rectangular (embeddings s) = true ->
  embeddings s <> [] \/ no_stale_rows d ->
  init (_save_data s d) = s.
Proof.
  destruct s as [docs secs embs], d as [dj sj ej].
  unfold init, _load_data, _save_data, Np.array, no_stale_rows; simpl.
  intros Hrect Hor. destruct embs as [|e embs]; simpl.
  - destruct Hor as [?|Hst]; [done|].
    by destruct ej as [| |[|? ?]].
  - simpl in Hrect. by rewrite Hrect.
Qed.

Lemma save_writes_json (s : Self) (d : Disk) :
  documents_json (_save_data s d) = Stored (documents s) /\
  sections_json (_save_data s d) = Stored (sections s).
Proof.
  unfold _save_data. destruct (0 <? length (embeddings s)); [|done].
  by destruct (Np.array (embeddings s)).
Qed.

Lemma extract_text_extension {pdf_pages docx_paragraphs decode_utf8}
    (ext : string) (content : list Byte.byte) (text : string) :
  extract_text pdf_pages docx_paragraphs decode_utf8 ext content = Ok text ->
  ext = dot_pdf \/ ext = dot_docx \/ ext = dot_txt.
Proof.
  unfold extract_text.
  destruct (String.eqb_spec ext dot_pdf); [by left|].
  destruct (String.eqb_spec ext dot_docx); [by right; left|].
  destruct (String.eqb_spec ext dot_txt); [by right; right|done].
Qed.

Lemma split_ws_lstrip (s : string) : Py.split_ws (Py.lstrip s) = Py.split_ws s.
Proof.
  induction s as [|c r IH]; [done|].
  simpl. destruct (Py.isspace c) eqn:Hc; [|done].
  rewrite IH. unfold Py.split_ws. simpl. rewrite Hc.
  by destruct (Py.split_ws_go r).
Qed.

Lemma split_ws_go_rstrip (s : string) :
  Py.split_ws_go (Py.rstrip s) = Py.split_ws_go s.
Proof.
  induction s as [|c r IH]; [done|].
  simpl. destruct (Py.rstrip r) as [|c' r'] eqn:Hr.
  - rewrite <- IH. simpl.
    destruct (Py.isspace c) eqn:Hc; simpl; by rewrite ?Hc.
  - by rewrite <- IH.
Qed.

(** The words of a string are the words of the stripped string. *)
Lemma split_ws_strip (s : string) : Py.split_ws (Py.strip s) = Py.split_ws s.
Proof.
  unfold Py.strip. rewrite <- (split_ws_lstrip s).
  unfold Py.split_ws. by rewrite split_ws_go_rstrip.
Qed.


Section IngestionFacts.

Context {W : Type}.
Variable uuid4 : W -> string * W.
Variable timestamp_now : W -> string * W.
Variable chat_completions_create : list string -> W -> result ChatReply * W.
Variable embeddings_create : string -> W -> result Np.vec * W.
Variable pdf_pages : list Byte.byte -> result (list string).
Variable docx_paragraphs : list Byte.byte -> result (list string).
Variable decode_utf8 : list Byte.byte -> result string.

Local Abbreviation split_sections := (_split_into_sections uuid4 chat_completions_create).
Local Abbreviation process :=
  (process_document uuid4 timestamp_now chat_completions_create
     embeddings_create pdf_pages docx_paragraphs decode_utf8).
Local Abbreviation text_of := (extract_text pdf_pages docx_paragraphs decode_utf8).
Local Abbreviation oracle_run := (embed_run embeddings_create).
Local Abbreviation reached :=
  (reachable uuid4 timestamp_now chat_completions_create embeddings_create
     pdf_pages docx_paragraphs decode_utf8).

Lemma collect_format_words (doc_id : string) (l : list (nat * Candidate))
    (st st' : St W) (secs : list Sec.t) :
  collect l (format_section uuid4 doc_id) st = (Ok secs, st') ->
  Forall counts_its_words secs.
Proof.
  revert st st' secs; induction l as [|[i c] l IH]; intros st st' secs.
  - intros [= <- _]. constructor.
  - cbn [collect]. unfold bind at 1. rewrite format_section_run.
    unfold bind at 1.
    destruct (collect l _ _) as [[secs'|e] st2] eqn:Hrun; [|done].
    unfold ret. intros [= <- _]. constructor; [|by eapply IH].
    unfold counts_its_words. simpl. by rewrite split_ws_strip.
Qed.

(** Whatever the oracle replies, the sections of a split text belong to
    the document, are numbered from 0 in order, and count their words. *)
Lemma split_sections_result (text doc_id : string) (st st' : St W) (secs : list Sec.t) :
  split_sections text doc_id st = (Ok secs, st') ->
  Forall (fun x => Sec.document_id x = doc_id) secs /\
  Forall counts_its_words secs /\
  map Sec.index secs = seq 0 (length secs).
Proof.
  intros Hrun.
  pose proof (split_sections_frame _ _ _ _ _ _ _ Hrun) as (_ & _ & Hall).
  split; [by apply Hall|].
  unfold _split_into_sections, bind, call in Hrun.
  destruct (chat_completions_create _ (world st)) as [[reply|e] w1]; [|done].
  cbn [self disk] in Hrun.
  assert (Hgen : forall items, collect (Py.enumerate items) (format_section uuid4 doc_id)
                   (mkSt (self st) (disk st) w1) = (Ok secs, st') ->
                 Forall counts_its_words secs /\
                 map Sec.index secs = seq 0 (length secs)).
  { intros items Hc. split; [by eapply collect_format_words|].
    destruct (collect_format_frame uuid4 doc_id (Py.enumerate items)
                (mkSt (self st) (disk st) w1)) as (secs' & w' & Hc' & _ & Hidx & _).
    rewrite Hc in Hc'. injection Hc' as <- _.
    assert (Hlen : length secs = length items).
    { rewrite <- (length_map Sec.index secs), Hidx. unfold Py.enumerate.
      by rewrite enumerate_from_fst, length_seq. }
    rewrite Hidx, Hlen. unfold Py.enumerate. apply enumerate_from_fst. }
  destruct reply as [| |items|]; simpl in Hrun; first [done|by eapply Hgen].
Qed.

(** One call of [process_document], by what it leaves: nothing when the
    text could not be extracted; otherwise a new document and a prefix of
    its sections with their embeddings, the whole of it saved when the
    call returns and the data directory untouched when it raises. *)
Lemma process_document_effect (file : UploadedFile) (st st' : St W) (r : result unit) :
  process file st = (r, st') ->
  (st' = st /\ exists e, r = Raise e) \/
  exists doc secs k embs,
    ingested_into file (self st) (self st') doc secs k embs /\
    match r with
    | Ok _ => k = length secs /\ disk st' = _save_data (self st') (disk st)
    | Raise _ => disk st' = disk st
    end.
Proof.
  rewrite process_document_run. intros Hrun.
  destruct (text_of _ _) as [text|e] eqn:Htext.
  2:{ left. injection Hrun as <- <-. eauto. }
  right. apply extract_text_extension in Htext.
  destruct (uuid4 (world st)) as [doc_id w1].
  destruct (timestamp_now w1) as [now w2]. cbv zeta in Hrun.
  assert (Hdoc : supported_type (document_of file doc_id now)).
  { unfold supported_type, document_of. simpl.
    destruct Htext as [-> | [-> | ->]]; simpl; tauto. }
  destruct (split_sections _ _ _) as [r2 st2] eqn:Hsplit.
  pose proof (split_sections_frame _ _ _ _ _ _ _ Hsplit) as (Hself & Hdisk & _).
  destruct r2 as [secs|e].
  - apply split_sections_result in Hsplit as (Hids & Hwords & Hidx).
    destruct (oracle_run _ _) as [[es ro] w3] eqn:Horacle.
    apply embed_run_length in Horacle. rewrite length_map in Horacle.
    exists (document_of file doc_id now), secs, (length es), es.
    split.
    + unfold ingested_into. rewrite Hself in Hrun.
      repeat split; try done.
      * destruct ro; lia.
      * by destruct ro; injection Hrun as <- <-.
      * by destruct ro; injection Hrun as <- <-.
      * by destruct ro; injection Hrun as <- <-.
    + rewrite Hself, Hdisk in Hrun.
      destruct ro; injection Hrun as <- <-; simpl; [done|].
      split; [done|]. by rewrite Horacle, firstn_all.
  - injection Hrun as <- <-.
    exists (document_of file doc_id now), [], 0, [].
    split; [|by rewrite Hdisk].
    unfold ingested_into. rewrite Hself. simpl.
    rewrite !app_nil_r. repeat split; try done; constructor.
Qed.

(** A call of [process_document] that returns has written the documents
    and the sections it holds to the data directory; when its embedding
    rows have one length, and it holds an embedding or the directory had
    no rows of an earlier save, a processor started on that directory
    loads exactly the collections the call left. *)
Theorem process_document_persists (file : UploadedFile) (st st' : St W) :
  process file st = (Ok tt, st') ->
  documents_json (disk st') = Stored (documents (self st')) /\
  sections_json (disk st') = Stored (sections (self st')) /\
  (Np.rectangular (embeddings (self st')) = true ->
   embeddings (self st') <> [] \/ no_stale_rows (disk st) ->
   init (disk st') = self st').
Proof.
  intros Hrun. apply process_document_effect in Hrun
    as [[_ [e ?]]|(doc & secs & k & embs & _ & _ & ->)]; [done|].
  destruct (save_writes_json (self st') (disk st)) as [Hd Hs].
  split; [done|]. split; [done|]. apply save_then_init.
Qed.

(** Whether it returns or raises, [process_document] only appends: what
    was stored stays first and in order, at most one document is added,
    and as many sections as embeddings are. *)
Theorem process_document_appends_only (file : UploadedFile) (st st' : St W)
    (r : result unit) :
  process file st = (r, st') ->
  documents (self st) `prefix_of` documents (self st') /\
  sections (self st) `prefix_of` sections (self st') /\
  embeddings (self st) `prefix_of` embeddings (self st') /\
  length (documents (self st')) <= S (length (documents (self st))) /\
  length (sections (self st')) + length (embeddings (self st)) =
    length (embeddings (self st')) + length (sections (self st)).
Proof.
  intros Hrun. apply process_document_effect in Hrun
    as [[-> _]|(doc & secs & k & embs & Hin & _)].
  - repeat split; first [reflexivity|lia].
  - destruct Hin as (_ & _ & _ & _ & _ & _ & Hk & Hlen & -> & -> & ->).
    repeat split; try by apply prefix_app_r.
    + rewrite length_app. simpl. lia.
    + rewrite !length_app, length_take. lia.
Qed.

(** A call of [process_document] that raises writes nothing to the data
    directory. *)
Theorem process_document_raise_keeps_disk (file : UploadedFile) (st st' : St W)
    (e : exn) :
  process file st = (Raise e, st') -> disk st' = disk st.
Proof.
  intros Hrun. by apply process_document_effect in Hrun
    as [[-> _]|(doc & secs & k & embs & _ & ?)].
Qed.

(** The loop of the upload page, [for file in uploaded_files:
    process_document(file)], from any state of the processor, a loaded
    directory for one: when every call returns, the documents are those
    stored before followed by one new document for each file, in order,
    named after its file and of one of the three supported types. *)
Theorem uploaded_documents_supported (files : list UploadedFile)
    (st st' : St W) :
  for_each files process st = (Ok tt, st') ->
  exists added,
    documents (self st') = (documents (self st) ++ added)%list /\
    map Doc.filename added = map name files /\
    Forall supported_type added.
Proof.
  revert st. induction files as [|file files IH]; intros st.
  - intros [= <-]. exists []. by rewrite app_nil_r.
  - cbn [for_each]. unfold bind at 1.
    destruct (process file st) as [[[]|e] st1] eqn:Hrun; [|done].
    intros (added & Hdocs & Hnames & Hall)%IH.
    apply process_document_effect in Hrun
      as [[_ [e ?]]|(doc & secs & k & embs & Hin & _)]; [done|].
    destruct Hin as (Hdoc & Hname & _ & _ & _ & _ & _ & _ & Hdocs1 & _).
    exists (doc :: added). split; [|split].
    + by rewrite Hdocs, Hdocs1, <- app_assoc.
    + cbn [map]. by rewrite Hname, Hnames.
    + by constructor.
Qed.

(** Every section stored by calls that returned carries the number of
    words of the content stored with it. *)
Theorem reachable_sections_count_words (st : St W) :
  reached st -> Forall counts_its_words (sections (self st)).
Proof.
  induction 1 as [d w|st st' file _ IH Hrun]; [constructor|].
  apply process_document_effect in Hrun
    as [[_ [e ?]]|(doc & secs & k & embs & Hin & _)]; [done|].
  destruct Hin as (_ & _ & _ & _ & Hwords & _ & _ & _ & _ & -> & _).
  apply Forall_app. split; [done|]. by apply Forall_take.
Qed.

End IngestionFacts.

(** ** More on search *)

Lemma substring_length (n : nat) (s : string) :
  String.length (substring 0 n s) = Nat.min n (String.length s).
Proof.
  revert s; induction n as [|n IH]; intros [|c s]; simpl; try done.
  by rewrite IH.
Qed.

Lemma append_length (a b : string) :
  String.length (a +:+ b) = String.length a + String.length b.
Proof. induction a as [|c a IH]; simpl; [done|]. by rewrite IH. Qed.

(** The preview of a content is the content when it has at most 300
    characters, and its first 300 characters followed by three dots
    otherwise. *)
Lemma preview_spec (content : string) :
  String.length (preview content) <= 303 /\
  (String.length content <= 300 -> preview content = content) /\
  (300 < String.length content ->
   preview content = Py.prefix 300 content +:+ ellipsis /\
   String.length (preview content) = 303).
Proof.
  unfold preview, Py.prefix.
  destruct (Nat.ltb_spec 300 (String.length content)) as [Hlt|Hle].
  - rewrite append_length, substring_length.
    change (String.length ellipsis) with 3.
    split; [lia|]. split; [lia|]. intros _. split; [done|lia].
  - split; [lia|]. split; [done|lia].
Qed.

(** What [results_for] returns: for each index, the record made of the
    section and the similarity at that index. *)
Lemma results_for_inv (s : Self) (sims : list float) (idxs : list nat)
    (rs : list SearchResult) :
  results_for s sims idxs = Ok rs ->
  Forall2 (fun i r =>
             exists section sc,
               sections s !! i = Some section /\ sims !! i = Some sc /\
               r = mkResult (Sec.id section)
                     (from_option Doc.filename "Unknown"
                        (find_document (documents s) (Sec.document_id section)))
                     (Sec.title section) (preview (Sec.content section)) sc
                     (Sec.title section)) idxs rs.
Proof.
  revert rs; induction idxs as [|i idxs IH]; intros rs.
  - intros [= <-]. constructor.
  - cbn [results_for]. unfold result_at.
    destruct (sections s !! i) as [section|] eqn:Hsec; [|done].
    destruct (sims !! i) as [sc|] eqn:Hsc; [|done]. cbn [rbind].
    destruct (results_for s sims idxs) as [rs'|]; [|done]. cbn [rbind].
    intros [= <-]. constructor; [|by apply IH]. by exists section, sc.
Qed.

(** [results_for] raises [IndexError] as soon as one index has no
    section. *)
Lemma results_for_raise (s : Self) (sims : list float) (idxs : list nat) (i : nat) :
  i ∈ idxs -> sections s !! i = None ->
  results_for s sims idxs = Raise IndexError.
Proof.
  intros Hin Hnone. induction idxs as [|j idxs IH]; [by apply elem_of_nil in Hin|].
  cbn [results_for]. unfold result_at.
  destruct (sections s !! j) as [section|] eqn:Hsec; [|done].
  destruct (sims !! j) as [sc|]; [|done]. cbn [rbind].
  apply elem_of_cons in Hin as [->|Hin]; [congruence|].
  by rewrite IH.
Qed.

Lemma find_document_stored (docs : list Doc.t) (doc_id : string) :
  (exists d, d ∈ docs /\ Doc.id d = doc_id) ->
  exists d, find_document docs doc_id = Some d /\ d ∈ docs /\ Doc.id d = doc_id.
Proof.
  intros (d & Hd & Hid). unfold find_document.
  destruct (find _ docs) as [d'|] eqn:Hfind.
  - apply find_some in Hfind as [Hin Heq]. exists d'.
    split; [done|]. split; [by apply list_elem_of_In|by apply String.eqb_eq].
  - apply list_elem_of_In in Hd.
    pose proof (find_none _ _ Hfind d Hd) as Hneq.
    by apply String.eqb_neq in Hneq.
Qed.

Lemma eqb_zero_spec (d : float) :
  (d =? 0)%float = true -> exists s, Prim2SF d = S754_zero s.
Proof.
  rewrite FloatAxioms.eqb_spec. unfold SFeqb.
  change (Prim2SF 0) with (S754_zero false).
  destruct (Prim2SF d) as [s|[]| |[] m e]; simpl; try discriminate.
  intros _. by exists s.
Qed.

Lemma is_nan_spec (x : float) : Prim2SF x = S754_nan -> is_nan x = true.
Proof.
  intros H. unfold is_nan. by rewrite FloatAxioms.eqb_spec, H.
Qed.

(** A zero over the product of a zero and any float is NaN. *)
Lemma zero_quotient_is_nan (d n m : float) :
  (d =? 0)%float = true -> (n =? 0)%float = true ->
  is_nan (d / (n * m))%float = true.
Proof.
  intros [sd Hd]%eqb_zero_spec [sn Hn]%eqb_zero_spec.
  apply is_nan_spec.
  rewrite FloatAxioms.div_spec, FloatAxioms.mul_spec, Hd, Hn.
  destruct (Prim2SF m) as [s|s| |s mm e]; reflexivity.
Qed.

Section SearchMore.

Variable np : Np.kernel.
Context {W : Type}.
Variable embeddings_create : string -> W -> result Np.vec * W.

Local Abbreviation search := (search_standards np embeddings_create).

(** A search that returns results took them from [results_for]. *)
Lemma search_standards_inv (query : string) (k : Z) (st st' : St W)
    (rs : list SearchResult) :
  search query k st = (Ok rs, st') ->
  rs = [] \/
  exists sims, results_for (self st) sims (top_indices np sims k) = Ok rs.
Proof.
  unfold search_standards, bind, _create_embedding, call, get_self.
  destruct (embeddings_create _ (world st)) as [[q|e] w']; [|done].
  cbn [self disk world].
  destruct (length (embeddings (self st)) =? 0); [intros [= <- _]; by left|].
  unfold lift. destruct (Np.array _) as [arr|]; [|done].
  destruct (similarities np arr q) as [sims|]; [|done].
  intros [= Hrs _]. right. by exists sims.
Qed.

(** A search that returns results took them at the selected indices of
    the similarities of the stored embeddings. *)
Lemma search_standards_scores (query : string) (k : Z) (st st' : St W)
    (q : Np.vec) (w' : W) (rs : list SearchResult) :
  embeddings_create (Py.prefix embedding_limit query) (world st) = (Ok q, w') ->
  search query k st = (Ok rs, st') ->
  rs = [] \/
  results_for (self st) (stored_scores np q (self st))
    (top_indices np (stored_scores np q (self st)) k) = Ok rs.
Proof.
  intros Hq.
  unfold search_standards, bind, _create_embedding, call, get_self.
  rewrite Hq. cbn [self disk world].
  destruct (length (embeddings (self st)) =? 0); [intros [= <- _]; by left|].
  unfold lift, Np.array.
  destruct (Np.rectangular (embeddings (self st))); [|done].
  rewrite similarities_char.
  destruct (rows_match q (embeddings (self st))); [|done].
  intros [= Hrs _]. by right.
Qed.

(** C4 (amended): every result of a search stands for a stored section
    and its embedding, and its score is the quotient, in float64, of
    numpy's dot product of that embedding and the query over the product
    of numpy's norms of the two, with no case for a zero norm: where the
    dot product and the norm of the stored embedding are zero, as for a
    stored zero vector, the score is NaN, not 0. *)
Theorem similarity_is_plain_quotient (query : string) (k : Z) (st st' : St W)
    (q : Np.vec) (w' : W) (rs : list SearchResult) :
  embeddings_create (Py.prefix embedding_limit query) (world st) = (Ok q, w') ->
  search query k st = (Ok rs, st') ->
  exists idxs,
    Forall2 (fun i r =>
      (exists section,
         sections (self st) !! i = Some section /\ r_id r = Sec.id section) /\
      is_Some (embeddings (self st) !! i) /\
      r_score r =
        (Np.mdot np (embeddings (self st)) q i
         / (Np.mnorm np (embeddings (self st)) i * Np.vnorm np q))%float /\
      ((Np.mdot np (embeddings (self st)) q i =? 0)%float = true ->
       (Np.mnorm np (embeddings (self st)) i =? 0)%float = true ->
       is_nan (r_score r) = true /\ (r_score r =? 0)%float = false)) idxs rs.
Proof.
  intros Hq [->|Hrs]%(search_standards_scores _ _ _ _ _ _ _ Hq).
  { exists []. constructor. }
  exists (top_indices np (stored_scores np q (self st)) k).
  apply results_for_inv in Hrs. eapply Forall2_impl; [exact Hrs|].
  intros i r (section & sc & Hsec & Hsc & ->).
  cbn [r_id r_score]. unfold stored_scores in Hsc.
  rewrite list_lookup_fmap in Hsc.
  destruct (seq 0 (length (embeddings (self st))) !! i) as [j|] eqn:Hj; [|done].
  apply lookup_seq in Hj as [-> Hlt]. simpl in Hsc. injection Hsc as <-.
  split; [by exists section|]. split; [by apply lookup_lt_is_Some_2|].
  split; [done|]. intros Hd Hn. unfold score.
  pose proof (zero_quotient_is_nan _ _ (Np.vnorm np q) Hd Hn) as Hnan.
  split; [done|]. unfold is_nan in Hnan.
  set (x := (_ / _)%float) in *.
  rewrite FloatAxioms.eqb_spec in *. unfold SFeqb in *.
  destruct (Prim2SF x) as [s|[]| |[] m e]; simpl in *; done.
Qed.

(** A search changes neither the collections nor the data directory,
    whether it returns or raises. *)
Theorem search_changes_nothing (query : string) (k : Z) (st st' : St W)
    (r : result (list SearchResult)) :
  search query k st = (r, st') ->
  self st' = self st /\ disk st' = disk st.
Proof.
  unfold search_standards, bind, _create_embedding, call, get_self.
  destruct (embeddings_create _ (world st)) as [[q|e] w'];
    [|by intros [= _ <-]].
  cbn [self disk world].
  destruct (length (embeddings (self st)) =? 0); [by intros [= _ <-]|].
  unfold lift. destruct (Np.array _) as [arr|]; [|by intros [= _ <-]].
  destruct (similarities np arr q) as [sims|]; by intros [= _ <-].
Qed.

(** Every result comes from a stored section: its section and its title
    are the title of that section, and its content is the content of the
    section when that has at most 300 characters, and otherwise its first
    300 characters followed by three dots, 303 characters in all. *)
Theorem search_results_preview (query : string) (k : Z) (st st' : St W)
    (rs : list SearchResult) :
  search query k st = (Ok rs, st') ->
  Forall (fun r =>
            String.length (r_content r) <= 303 /\
            exists section,
              section ∈ sections (self st) /\
              r_id r = Sec.id section /\
              r_section r = Sec.title section /\
              r_title r = Sec.title section /\
              (String.length (Sec.content section) <= 300 ->
               r_content r = Sec.content section) /\
              (300 < String.length (Sec.content section) ->
               r_content r = substring 0 300 (Sec.content section) +:+ "..." /\
               String.length (r_content r) = 303)) rs.
Proof.
  intros [->|[sims Hrs]]%search_standards_inv; [constructor|].
  apply results_for_inv in Hrs. apply Forall_forall. intros r Hr.
  apply list_elem_of_lookup in Hr as [p Hp].
  destruct (Forall2_lookup_r _ _ _ _ _ Hrs Hp)
    as (i & _ & section & sc & Hsec & _ & ->).
  cbn [r_content r_id r_section r_title].
  destruct (preview_spec (Sec.content section)) as (Hlen & Hshort & Hlong).
  split; [done|]. exists section.
  split; [by eapply list_elem_of_lookup_2|].
  split; [done|]. split; [done|]. split; [done|]. split; [done|].
  intros Hlt. destruct (Hlong Hlt) as [Heq Hl]. split; [|done].
  rewrite Heq. reflexivity.
Qed.

(** On a store where every section belongs to a stored document, the
    document of a result is the file name of a stored document. *)
Theorem search_results_name_documents (query : string) (k : Z) (st st' : St W)
    (rs : list SearchResult) :
  store_invariant (self st) ->
  search query k st = (Ok rs, st') ->
  Forall (fun r => exists d, d ∈ documents (self st) /\
                             r_document r = Doc.filename d) rs.
Proof.
  intros [_ Hdocs] [->|[sims Hrs]]%search_standards_inv; [constructor|].
  apply results_for_inv in Hrs. apply Forall_forall. intros r Hr.
  apply list_elem_of_lookup in Hr as [p Hp].
  destruct (Forall2_lookup_r _ _ _ _ _ Hrs Hp)
    as (i & _ & section & sc & Hsec & _ & ->).
  destruct (find_document_stored (documents (self st)) (Sec.document_id section))
    as (d & Hfind & Hd & _).
  { apply Hdocs. by eapply list_elem_of_lookup_2. }
  exists d. split; [done|]. cbn [r_document]. by rewrite Hfind.
Qed.

(** A query vector of another length than a stored row makes the search
    raise [ValueError]. *)
Theorem search_dimension_mismatch (query : string) (k : Z) (st : St W)
    (q : Np.vec) (w' : W) :
  embeddings_create (Py.prefix embedding_limit query) (world st) = (Ok q, w') ->
  embeddings (self st) <> [] ->
  rows_match q (embeddings (self st)) = false ->
  search query k st = (Raise ValueError, mkSt (self st) (disk st) w').
Proof.
  intros Hq Hne Hrows.
  unfold search_standards, bind, _create_embedding, call, get_self.
  rewrite Hq. cbn [self disk world].
  destruct (embeddings (self st)) as [|e es] eqn:Hembs; [done|].
  cbn [length Nat.eqb]. unfold lift, Np.array.
  destruct (Np.rectangular (e :: es)); [|done].
  by rewrite similarities_char, Hrows.
Qed.

(** With more embeddings than sections, a search that selects all the
    indices ([top_k = 0], or [top_k] at least the number of embeddings)
    raises [IndexError]. *)
Theorem search_missing_section (query : string) (k : Z) (st : St W)
    (q : Np.vec) (w' : W) :
  embeddings_create (Py.prefix embedding_limit query) (world st) = (Ok q, w') ->
  rows_match q (embeddings (self st)) = true ->
  length (sections (self st)) < length (embeddings (self st)) ->
  (k = 0 \/ Z.of_nat (length (embeddings (self st))) <= k)%Z ->
  search query k st = (Raise IndexError, mkSt (self st) (disk st) w').
Proof.
  intros Hq Hrows Hlen Hk.
  unfold search_standards, bind, _create_embedding, call, get_self.
  rewrite Hq. cbn [self disk world].
  destruct (embeddings (self st)) as [|e es] eqn:Hembs; [simpl in Hlen; lia|].
  cbn [length Nat.eqb]. unfold lift, Np.array.
  rewrite (rows_match_rectangular q) by done.
  rewrite similarities_char, Hrows.
  rewrite (results_for_raise _ _ _ (length (sections (self st)))); [done| |].
  - unfold top_indices, Py.slice_from. rewrite elem_of_reverse.
    rewrite argsort_length, length_map, length_seq.
    assert (Hstart : Z.to_nat
              (if (- k <? 0)%Z then Z.max 0 (Z.of_nat (length (e :: es)) + - k)
               else Z.min (- k) (Z.of_nat (length (e :: es)))) = 0).
    { destruct (Z.ltb_spec (- k) 0); lia. }
    rewrite Hstart. cbn [drop]. rewrite argsort_perm, length_map, length_seq.
    apply elem_of_seq. lia.
  - by apply lookup_ge_None_2.
Qed.

End SearchMore.

(** ** More on the document network *)

Lemma edges_from_inv (np : Np.kernel) (de : gmap string Np.vec)
    (doc1_id : string) (e1 : Np.vec) (later : list string) (acc es : list Edge) :
  edges_from np de doc1_id e1 later acc = Ok es ->
  exists new, es = (acc ++ new)%list /\
    Forall (fun e => source e = doc1_id /\ target e ∈ later /\
                     (threshold <? weight e)%float = true) new.
Proof.
  revert acc; induction later as [|doc2_id later IH]; intros acc.
  - intros [= <-]. exists []. by rewrite app_nil_r.
  - cbn [edges_from]. destruct (de !! doc2_id) as [e2|].
    + destruct (Np.cosine np e1 e2) as [sim|]; [|done]. cbn [rbind].
      destruct (threshold <? sim)%float eqn:Hth.
      * intros (new & -> & Hall)%IH.
        exists (mkEdge doc1_id doc2_id sim :: new).
        split; [by rewrite <- app_assoc|].
        constructor; [split; [done|split; [apply elem_of_cons; by left|done]]|].
        eapply Forall_impl; [exact Hall|].
        intros e (? & ? & ?). split; [done|split; [apply elem_of_cons; by right|done]].
      * intros (new & -> & Hall)%IH. exists new. split; [done|].
        eapply Forall_impl; [exact Hall|].
        intros e (? & ? & ?). split; [done|split; [apply elem_of_cons; by right|done]].
    + intros (new & -> & Hall)%IH. exists new. split; [done|].
      eapply Forall_impl; [exact Hall|].
      intros e (? & ? & ?). split; [done|split; [apply elem_of_cons; by right|done]].
Qed.

Lemma edges_loop_inv (np : Np.kernel) (de : gmap string Np.vec)
    (doc_ids : list string) (acc es : list Edge) :
  edges_loop np de doc_ids acc = Ok es ->
  exists new, es = (acc ++ new)%list /\
    Forall (fun e => source e ∈ doc_ids /\ target e ∈ doc_ids /\
                     (threshold <? weight e)%float = true) new.
Proof.
  revert acc; induction doc_ids as [|doc1_id later IH]; intros acc.
  - intros [= <-]. exists []. by rewrite app_nil_r.
  - cbn [edges_loop]. destruct (de !! doc1_id) as [e1|].
    + destruct (edges_from np de doc1_id e1 later acc) as [es1|] eqn:Hfrom; [|done].
      cbn [rbind]. apply edges_from_inv in Hfrom as (new1 & -> & Hall1).
      intros (new & -> & Hall)%IH. exists (new1 ++ new)%list.
      split; [by rewrite app_assoc|]. apply Forall_app. split.
      * eapply Forall_impl; [exact Hall1|].
        intros e (-> & ? & ?). split; [apply elem_of_cons; by left|split; [apply elem_of_cons; by right|done]].
      * eapply Forall_impl; [exact Hall|].
        intros e (? & ? & ?). split; [apply elem_of_cons; by right|split; [apply elem_of_cons; by right|done]].
    + intros (new & -> & Hall)%IH. exists new. split; [done|].
      eapply Forall_impl; [exact Hall|].
      intros e (? & ? & ?). split; [apply elem_of_cons; by right|split; [apply elem_of_cons; by right|done]].
Qed.

(** In a network that was built, the nodes are none or one for each
    document in order, every edge joins two of the nodes, and every
    weight is above the threshold, whatever the store is. *)
Theorem network_edges_join_nodes (np : Np.kernel) (s : Self) (net : Network) :
  get_standards_network np s = Ok net ->
  (nodes net = [] \/ map n_id (nodes net) = map Doc.id (documents s)) /\
  Forall (fun e => source e ∈ map n_id (nodes net) /\
                   target e ∈ map n_id (nodes net) /\
                   (threshold <? weight e)%float = true) (edges net).
Proof.
  unfold get_standards_network.
  destruct (length (sections s) <? 2).
  - intros [= <-]. split; [by left|constructor].
  - destruct (doc_embeddings_loop s _ ∅) as [de|]; [|done]. cbn [rbind].
    destruct (edges_loop np de _ []) as [es|] eqn:Hloop; [|done]. cbn [rbind].
    intros [= <-]. cbn [nodes edges].
    assert (Hids : map n_id (map node_of (documents s)) = map Doc.id (documents s)).
    { rewrite map_map. by apply map_ext. }
    split; [by right|].
    apply edges_loop_inv in Hloop as (new & -> & Hall). by rewrite Hids.
Qed.

Lemma rows_at_raise (embs : list Np.vec) (idxs : list nat) (i : nat) :
  i ∈ idxs -> embs !! i = None -> rows_at embs idxs = Raise IndexError.
Proof.
  intros Hin Hnone. induction idxs as [|j idxs IH]; [by apply elem_of_nil in Hin|].
  cbn [rows_at]. destruct (embs !! j) as [e|] eqn:He; [|done].
  apply elem_of_cons in Hin as [->|Hin]; [congruence|].
  by rewrite IH.
Qed.

Lemma rows_at_inv (embs : list Np.vec) (idxs : list nat) :
  rows_at embs idxs = Raise IndexError \/
  exists rows, rows_at embs idxs = Ok rows /\
               length rows = length idxs /\ Forall (fun r => r ∈ embs) rows.
Proof.
  induction idxs as [|i idxs IH].
  - right. exists []. by repeat split.
  - cbn [rows_at]. destruct (embs !! i) as [e|] eqn:He; [|by left].
    destruct IH as [->|(rows & -> & Hlen & Hall)]; [by left|].
    right. exists (e :: rows). cbn [rbind]. split; [done|].
    split; [simpl; by rewrite Hlen|].
    constructor; [by eapply list_elem_of_lookup_2|done].
Qed.

(** When the embeddings have one dimension, a centroid fails with
    [IndexError] only. *)
Lemma centroid_error (s : Self) (d : nat) (doc_id : string) (e : exn) :
  Forall (fun r => length r = d) (embeddings s) ->
  centroid s doc_id = Raise e -> e = IndexError.
Proof.
  intros Hdim. unfold centroid.
  destruct (doc_sections (sections s) doc_id) as [|i idxs]; [done|].
  destruct (rows_at_inv (embeddings s) (i :: idxs))
    as [->|(rows & -> & Hlen & Hall)]; [by intros [= <-]|].
  cbn [rbind]. destruct (mean0_ok d rows) as (c & -> & _).
  { by destruct rows. }
  { rewrite Forall_forall in Hall, Hdim. apply Forall_forall.
    intros r Hr. by apply Hdim, Hall. }
  done.
Qed.

Lemma doc_embeddings_loop_raise (s : Self) (d : nat) (doc_ids : list string)
    (acc : gmap string Np.vec) (doc_id : string) :
  Forall (fun r => length r = d) (embeddings s) ->
  doc_id ∈ doc_ids -> centroid s doc_id = Raise IndexError ->
  doc_embeddings_loop s doc_ids acc = Raise IndexError.
Proof.
  intros Hdim Hin Hraise. revert acc.
  induction doc_ids as [|id ids IH]; intros acc; [by apply elem_of_nil in Hin|].
  cbn [doc_embeddings_loop].
  destruct (centroid s id) as [oc|e] eqn:Hc.
  - cbn [rbind]. apply elem_of_cons in Hin as [->|Hin]; [congruence|].
    by apply IH.
  - by rewrite (centroid_error s d id e Hdim Hc).
Qed.

(** With fewer embeddings than sections, embeddings of one dimension and
    every section in a stored document, the network of two sections or
    more is not built: [IndexError] is raised. *)
Theorem network_missing_embedding (np : Np.kernel) (s : Self) (d : nat) :
  2 <= length (sections s) ->
  length (embeddings s) < length (sections s) ->
  Forall (fun r => length r = d) (embeddings s) ->
  (forall x, x ∈ sections s ->
     exists doc, doc ∈ documents s /\ Doc.id doc = Sec.document_id x) ->
  get_standards_network np s = Raise IndexError.
Proof.
  intros Hge Hlt Hdim Hdocs. unfold get_standards_network.
  destruct (Nat.ltb_spec (length (sections s)) 2); [lia|].
  destruct (lookup_lt_is_Some_2 (sections s) (length (embeddings s)) Hlt)
    as [x Hx].
  destruct (Hdocs x) as (doc & Hdoc & Hid); [by eapply list_elem_of_lookup_2|].
  rewrite (doc_embeddings_loop_raise s d _ _ (Doc.id doc)); [done|done| |].
  - apply list_elem_of_fmap. by exists doc.
  - unfold centroid.
    assert (Hin : length (embeddings s) ∈ doc_sections (sections s) (Doc.id doc)).
    { apply doc_sections_spec. by exists x. }
    destruct (doc_sections (sections s) (Doc.id doc)) as [|i idxs] eqn:Hds;
      [by apply elem_of_nil in Hin|].
    rewrite (rows_at_raise _ _ (length (embeddings s))); [done|done|].
    by apply lookup_ge_None_2.
Qed.

(** ** The properties at work in the small environment *)

Lemma demo_reachable :
  reachable Demo.uuid4 Demo.timestamp_now Demo.chat (Demo.embed_until 10)
    Demo.no_pages Demo.no_pages Demo.decode Demo.after_notes.
Proof.
  apply (reachable_step _ _ _ _ _ _ _ Demo.start _ Demo.notes).
  - apply reachable_start.
  - reflexivity.
Defined.

Lemma process_document_persists_witness :
  init (disk Demo.after_notes) = Demo.ingested.
Proof.
  apply (proj2 (proj2 (process_document_persists Demo.uuid4 Demo.timestamp_now
           Demo.chat (Demo.embed_until 10) Demo.no_pages Demo.no_pages
           Demo.decode Demo.notes Demo.start Demo.after_notes eq_refl))).
  - reflexivity.
  - left. discriminate.
Defined.

Lemma process_document_appends_only_witness :
  documents (self Demo.start) `prefix_of` documents (self Demo.after_notes) /\
  sections (self Demo.start) `prefix_of` sections (self Demo.after_notes) /\
  embeddings (self Demo.start) `prefix_of` embeddings (self Demo.after_notes) /\
  length (documents (self Demo.after_notes))
    <= S (length (documents (self Demo.start))) /\
  length (sections (self Demo.after_notes)) + length (embeddings (self Demo.start)) =
    length (embeddings (self Demo.after_notes)) + length (sections (self Demo.start)).
Proof.
  apply (process_document_appends_only Demo.uuid4 Demo.timestamp_now
           Demo.chat (Demo.embed_until 10) Demo.no_pages Demo.no_pages
           Demo.decode Demo.notes Demo.start Demo.after_notes (Ok tt)).
  reflexivity.
Defined.

Lemma process_document_raise_keeps_disk_witness :
  disk (Demo.process 4 Demo.notes Demo.start).2 = disk Demo.start.
Proof.
  apply (process_document_raise_keeps_disk Demo.uuid4 Demo.timestamp_now
           Demo.chat (Demo.embed_until 4) Demo.no_pages Demo.no_pages
           Demo.decode Demo.notes Demo.start _ APIError).
  reflexivity.
Defined.

Lemma uploaded_documents_supported_witness :
  documents (self Demo.stocked) = [doc0] /\
  exists st' added,
    for_each [Demo.notes; Demo.blank] (Demo.process 10) Demo.stocked
      = (Ok tt, st') /\
    documents (self st') = ([doc0] ++ added)%list /\
    map Doc.filename added = ["notes.txt"; "blank.txt"] /\
    Forall supported_type added.
Proof.
  split; [reflexivity|].
  assert (Hrun : for_each [Demo.notes; Demo.blank] (Demo.process 10) Demo.stocked
                 = (Ok tt, (for_each [Demo.notes; Demo.blank] (Demo.process 10)
                              Demo.stocked).2)).
  { by vm_compute. }
  destruct (uploaded_documents_supported Demo.uuid4 Demo.timestamp_now Demo.chat
              (Demo.embed_until 10) Demo.no_pages Demo.no_pages Demo.decode
              [Demo.notes; Demo.blank] Demo.stocked _ Hrun)
    as (added & Hdocs & Hnames & Hall).
  eexists _, added. split; [exact Hrun|]. by repeat split.
Defined.

Lemma reachable_sections_count_words_witness :
  Forall counts_its_words (sections Demo.ingested).
Proof.
  apply (reachable_sections_count_words Demo.uuid4 Demo.timestamp_now Demo.chat
           (Demo.embed_until 10) Demo.no_pages Demo.no_pages Demo.decode
           Demo.after_notes).
  apply demo_reachable.
Defined.

Lemma search_changes_nothing_witness :
  self (Demo.search "A" 2 Demo.session).2 = self Demo.session /\
  disk (Demo.search "A" 2 Demo.session).2 = disk Demo.session.
Proof.
  apply (search_changes_nothing Np.reference (Demo.embed_until 100) "A" 2 Demo.session _
           (Demo.search "A" 2 Demo.session).1).
  apply surjective_pairing.
Defined.

Lemma search_results_preview_witness :
  String.length Demo.long_content = 360 /\
  exists r st',
    Demo.search "A" 1 Demo.long_session = (Ok [r], st') /\
    r_content r = substring 0 300 Demo.long_content +:+ "..." /\
    String.length (r_content r) = 303.
Proof.
  split; [reflexivity|].
  pose proof (search_results_preview Np.reference (Demo.embed_until 100) "A" 1
                Demo.long_session _ _ eq_refl) as H.
  apply Forall_cons in H as [(_ & section & Hin & _ & _ & _ & _ & Hlong) _].
  apply list_elem_of_singleton in Hin as ->.
  destruct Hlong as [Hcontent Hlen]; [apply Nat.ltb_lt; reflexivity|].
  eexists _, _. split; [reflexivity|]. split; [exact Hcontent|exact Hlen].
Defined.

Lemma similarity_is_plain_quotient_witness :
  exists r st',
    Demo.search "A" 1 Demo.zero_session = (Ok [r], st') /\
    r_id r = "uuid-1" /\
    is_nan (r_score r) = true /\ (r_score r =? 0)%float = false.
Proof.
  destruct (similarity_is_plain_quotient Np.reference (Demo.embed_until 100)
              "A" 1 Demo.zero_session _ [1; 1]%float 6 _ eq_refl eq_refl)
    as (idxs & Hall).
  apply Forall2_cons_inv_r in Hall as (i & idxs' & Hi & _ & ->).
  destruct Hi as ((section & Hsec & Hid) & [row Hrow] & _ & Hnan).
  destruct i as [|i]; [|by destruct i].
  eexists _, _. split; [reflexivity|]. split; [reflexivity|].
  apply Hnan; reflexivity.
Defined.

Lemma search_results_name_documents_witness :
  exists rs st',
    Demo.search "A" 2 Demo.session = (Ok rs, st') /\
    Forall (fun r => exists d, d ∈ documents Demo.ingested /\
                               r_document r = Doc.filename d) rs.
Proof.
  eexists _, _. split; [reflexivity|].
  eapply (search_results_name_documents Np.reference (Demo.embed_until 100) "A" 2 Demo.session).
  - split; [reflexivity|]. intros x Hx. exists Demo.doc.
    split; [apply list_elem_of_here|].
    apply elem_of_cons in Hx as [->|Hx]; [reflexivity|].
    apply elem_of_cons in Hx as [->|Hx]; [reflexivity|].
    by apply elem_of_nil in Hx.
  - reflexivity.
Defined.

Lemma search_dimension_mismatch_witness :
  Demo.search "A" 2 Demo.wide_session =
  (Raise ValueError, mkSt (self Demo.wide_session) (disk Demo.wide_session) 6).
Proof.
  apply (search_dimension_mismatch Np.reference (Demo.embed_until 100) "A" 2
           Demo.wide_session [1; 1]%float 6).
  - reflexivity.
  - discriminate.
  - reflexivity.
Defined.

Lemma search_missing_section_witness :
  Demo.search "A" 0 Demo.extra_row_session =
  (Raise IndexError,
   mkSt (self Demo.extra_row_session) (disk Demo.extra_row_session) 6).
Proof.
  apply (search_missing_section Np.reference (Demo.embed_until 100) "A" 0
           Demo.extra_row_session [1; 1]%float 6).
  - reflexivity.
  - reflexivity.
  - simpl. lia.
  - left. reflexivity.
Defined.

Lemma network_edges_join_nodes_witness :
  exists net,
    get_standards_network Np.reference Demo.library = Ok net /\
    Forall (fun e => source e ∈ map n_id (nodes net) /\
                     target e ∈ map n_id (nodes net) /\
                     (threshold <? weight e)%float = true) (edges net).
Proof.
  eexists. split; [reflexivity|].
  apply (network_edges_join_nodes Np.reference Demo.library). reflexivity.
Defined.

Lemma network_missing_embedding_witness :
  get_standards_network Np.reference Demo.missing_row = Raise IndexError.
Proof.
  apply (network_missing_embedding Np.reference Demo.missing_row 2).
  - simpl. lia.
  - simpl. lia.
  - by repeat constructor.
  - intros x Hx. exists Demo.doc. split; [apply list_elem_of_here|].
    apply elem_of_cons in Hx as [->|Hx]; [reflexivity|].
    apply elem_of_cons in Hx as [->|Hx]; [reflexivity|].
    by apply elem_of_nil in Hx.
Defined.

(** ** Python values *)

Lemma get_setitem_eq (key : string) (v : pyval) (d : list (string * pyval)) :
  PyVal.get key (PyVal.setitem key v d) = Some v.
Proof.
  induction d as [|[k x] d IH]; simpl.
  - by rewrite String.eqb_refl.
  - destruct (String.eqb k key) eqn:Hk; simpl; by rewrite Hk.
Qed.

Lemma get_setitem_ne (key k : string) (v : pyval) (d : list (string * pyval)) :
  k <> key -> PyVal.get k (PyVal.setitem key v d) = PyVal.get k d.
Proof.
  intros Hne. induction d as [|[k' x] d IH]; simpl.
  - destruct (String.eqb_spec key k); [congruence|done].
  - destruct (String.eqb_spec k' key) as [->|Hk]; simpl.
    + destruct (String.eqb_spec key k); [congruence|done].
    + by rewrite IH.
Qed.

Lemma among_spec (names : list string) (v : pyval) :
  PyVal.among names v = true <-> exists s, s ∈ names /\ v = PStr s.
Proof.
  unfold PyVal.among. rewrite existsb_exists. split.
  - intros (s & Hs & Heq). destruct v; try done. simpl in Heq.
    apply String.eqb_eq in Heq as ->. exists s. split; [|done].
    by apply list_elem_of_In.
  - intros (s & Hs & ->). exists s. split; [by apply list_elem_of_In|].
    simpl. apply String.eqb_refl.
Qed.

(** ** The gap analyser *)

Lemma normalize_gap_dict (domain : string) (gap gap' : pyval) :
  normalize_gap domain gap = Some gap' ->
  normal_gap domain gap' /\ gap_kept_in gap gap'.
Proof.
  destruct gap as [| | | | | |d]; try done. cbn [normalize_gap].
  set (d1 := PyVal.setitem "domain" (PStr domain) d).
  set (d2 := PyVal.setitem "related_standards" _ d1).
  set (d3 := match PyVal.get "related_standards" d2 with
             | Some (PStr s) => _ | _ => d2 end).
  set (d4 := match PyVal.get "risk_level" d3 with
             | Some level => _ | None => _ end).
  intros [= <-].
  assert (Hdom1 : PyVal.get "domain" d1 = Some (PStr domain))
    by apply get_setitem_eq.
  assert (Hother1 : forall key, key <> "domain" ->
            PyVal.get key d1 = PyVal.get key d)
    by (intros; by apply get_setitem_ne).
  assert (Hrs2 : PyVal.get "related_standards" d2 =
                 Some (default (PList []) (PyVal.get "related_standards" d))).
  { unfold d2. rewrite get_setitem_eq. by rewrite Hother1. }
  assert (Hother2 : forall key, key <> "related_standards" ->
            PyVal.get key d2 = PyVal.get key d1)
    by (intros; by apply get_setitem_ne).
  assert (Hrs3 : PyVal.get "related_standards" d3 =
                 Some (match default (PList []) (PyVal.get "related_standards" d) with
                       | PStr s => PList [PStr s]
                       | x => x
                       end)).
  { unfold d3. rewrite Hrs2.
    destruct (default (PList []) (PyVal.get "related_standards" d));
      try by rewrite Hrs2.
    apply get_setitem_eq. }
  assert (Hother3 : forall key, key <> "related_standards" ->
            PyVal.get key d3 = PyVal.get key d2).
  { intros key Hkey. unfold d3.
    destruct (PyVal.get "related_standards" d2) as [[]|]; try done.
    by apply get_setitem_ne. }
  assert (Hother4 : forall key, key <> "risk_level" ->
            PyVal.get key d4 = PyVal.get key d3).
  { intros key Hkey. unfold d4.
    destruct (PyVal.get "risk_level" d3) as [level|];
      [destruct (PyVal.among risk_levels level)|]; try done;
      by apply get_setitem_ne. }
  assert (Hrisk3 : PyVal.get "risk_level" d3 = PyVal.get "risk_level" d).
  { rewrite Hother3, Hother2, Hother1; done. }
  assert (Hrisk4 : exists level, level ∈ risk_levels /\
            PyVal.get "risk_level" d4 = Some (PStr level)).
  { unfold d4. destruct (PyVal.get "risk_level" d3) as [level|] eqn:Hl.
    - destruct (PyVal.among risk_levels level) eqn:Ha.
      + apply among_spec in Ha as (s & Hs & ->). by exists s.
      + exists "Medium". split; [|apply get_setitem_eq].
        apply elem_of_cons; right. apply list_elem_of_here.
    - exists "Medium". split; [|apply get_setitem_eq].
      apply elem_of_cons; right. apply list_elem_of_here. }
  split.
  - exists d4. split; [done|]. split; [|split; [done|]].
    + rewrite Hother4, Hother3, Hother2; done.
    + rewrite Hother4, Hrs3 by done. eexists. split; [done|].
      by destruct (default (PList []) (PyVal.get "related_standards" d)).
  - exists d, d4. split; [done|]. split; [done|].
    split; [|split; [|split; [|split]]].
    + intros key Hkey.
      assert (key <> "domain" /\ key <> "related_standards" /\ key <> "risk_level")
        as (? & ? & ?).
      { repeat split; intros ->; apply Hkey; unfold gap_keys;
          repeat first [apply list_elem_of_here | apply list_elem_of_further]. }
      rewrite Hother4, Hother3, Hother2, Hother1; done.
    + intros level Hl Ha. unfold d4. rewrite Hrisk3, Hl, Ha.
      by rewrite Hrisk3.
    + intros related Hr Hs. rewrite Hother4, Hrs3, Hr by done. simpl.
      by destruct related.
    + intros s Hr. rewrite Hother4, Hrs3, Hr by done. done.
    + intros Hr. rewrite Hother4, Hrs3, Hr by done. done.
Qed.

Lemma normalize_gap_is_dict (domain : string) (gap : pyval) :
  is_Some (normalize_gap domain gap) <-> is_dict gap.
Proof.
  split.
  - intros [g Hg]. destruct gap; try done. by eexists.
  - intros [d ->]. by eexists.
Qed.

Lemma normalized_inv (key : string) (normalize : pyval -> option pyval)
    (reply : Evaluated) (v : pyval) :
  normalized key normalize reply = Some v ->
  exists r items xs ys,
    reply = EvalGives r /\ PyVal.getitem r key = Done items /\
    PyVal.iter items = Some xs /\
    Forall2 (fun x y => normalize x = Some y) xs ys /\
    v = match items with PList _ => PList ys | _ => items end.
Proof.
  unfold normalized. destruct reply as [|r]; [done|].
  destruct (PyVal.getitem r key) as [items|] eqn:Hget; [|done].
  destruct (PyVal.iter items) as [xs|] eqn:Hiter; [|done].
  destruct (mapM normalize xs) as [ys|] eqn:Hmap; [|done].
  intros [= <-]. exists r, items, xs, ys. repeat split; try done.
  by apply mapM_Some.
Qed.

(** When only dicts are normalised, what the [try] returns iterates over
    the normalised items. *)
Lemma normalized_items (key : string) (normalize : pyval -> option pyval)
    (reply : Evaluated) (v : pyval) :
  (forall x, is_Some (normalize x) -> is_dict x) ->
  normalized key normalize reply = Some v ->
  exists xs ys,
    Forall2 (fun x y => normalize x = Some y) xs ys /\
    PyVal.iter v = Some ys /\ PyVal.len v = Done (length ys).
Proof.
  intros Hdict (r & items & xs & ys & _ & _ & Hiter & Hall & ->)%normalized_inv.
  exists xs, ys. split; [done|].
  destruct items as [| | | |s|l|d]; try done.
  - destruct s as [|c s]; simpl in Hiter.
    + injection Hiter as <-. by inversion Hall.
    + injection Hiter as <-. inversion Hall as [|? y ? ? Hx]; subst.
      destruct (Hdict (PStr (String c "")) (mk_is_Some _ _ Hx)) as [? ?]; done.
  - destruct d as [|[k x] d]; simpl in Hiter.
    + injection Hiter as <-. by inversion Hall.
    + injection Hiter as <-. inversion Hall as [|? y ? ? Hx]; subst.
      destruct (Hdict (PStr k) (mk_is_Some _ _ Hx)) as [? ?]; done.
Qed.

Lemma normalized_list (key : string) (normalize : pyval -> option pyval)
    (r : list (string * pyval)) (xs : list pyval) :
  PyVal.get key r = Some (PList xs) ->
  normalized key normalize (EvalGives (PDict r)) =
  PList <$> mapM normalize xs.
Proof.
  intros Hget. unfold normalized, PyVal.getitem. rewrite Hget. simpl.
  by destruct (mapM normalize xs).
Qed.

Lemma default_gap_normal (domain : string) (related : list string) :
  normal_gap domain (default_gap domain related).
Proof.
  eexists. split; [done|]. split; [done|]. split.
  - exists "Medium". split; [|done].
    apply elem_of_cons; right. apply list_elem_of_here.
  - by eexists.
Qed.

Section AnalyserFacts.

Variable np : Np.kernel.
Context {W : Type}.
Variable embeddings_create : string -> W -> result Np.vec * W.
Variable gap_chat : GapRequest -> W -> result Evaluated * W.
Variable rec_chat : RecRequest -> W -> result Evaluated * W.
Variable repr : pyval -> string.

Local Abbreviation search := (search_standards np embeddings_create).
Local Abbreviation gaps_of := (identify_gaps np embeddings_create gap_chat).
Local Abbreviation recommend := (generate_recommendations rec_chat repr).

Lemma search_standards_frame (query : string) (k : Z) (st st' : St W)
    (r : result (list SearchResult)) :
  search query k st = (r, st') ->
  st' = mkSt (self st) (disk st) (world st').
Proof.
  unfold search_standards, bind, _create_embedding, call, get_self.
  destruct (embeddings_create _ (world st)) as [[q|e] w'];
    [|by intros [= _ <-]].
  cbn [self disk world].
  destruct (length (embeddings (self st)) =? 0); [by intros [= _ <-]|].
  unfold lift. destruct (Np.array _) as [arr|]; [|by intros [= _ <-]].
  destruct (similarities np arr q) as [sims|]; by intros [= _ <-].
Qed.

(** The three ways a call of [identify_gaps] goes. *)
Lemma identify_gaps_run (research_text domain : string) (st st' : St W)
    (r : result pyval) :
  gaps_of research_text domain st = (r, st') ->
  (exists e, r = Raise e /\
     search ("safety standards for " ++ domain) 5 st = (Raise e, st')) \/
  (exists rs st1,
     search ("safety standards for " ++ domain) 5 st = (Ok rs, st1) /\
     st' = mkSt (self st) (disk st) (world st') /\
     ((exists e, r = Raise e /\
         gap_chat (gap_request research_text domain rs) (world st1) =
         (Raise e, world st')) \/
      (exists reply,
         gap_chat (gap_request research_text domain rs) (world st1) =
         (Ok reply, world st') /\
         r = Ok (match normalized "gaps" (normalize_gap domain) reply with
                 | Some gaps => gaps
                 | None => PList [default_gap domain (map standard_info rs)]
                 end)))).
Proof.
  unfold identify_gaps, bind.
  destruct (search _ 5 st) as [[rs|e] st1] eqn:Hsearch.
  - pose proof (search_standards_frame _ _ _ _ _ Hsearch) as Hst1.
    unfold call, ret.
    destruct (gap_chat _ (world st1)) as [[reply|e] w'] eqn:Hchat;
      intros [= <- <-]; right; exists rs, st1;
      (split; [done|]); rewrite Hst1; cbn [self disk world];
      (split; [done|]).
    + right. by exists reply.
    + left. by exists e.
  - intros [= <- <-]. left. by exists e.
Qed.

Lemma identify_gaps_items (research_text domain : string) (st st' : St W)
    (v : pyval) :
  gaps_of research_text domain st = (Ok v, st') ->
  exists gaps,
    PyVal.iter v = Some gaps /\ PyVal.len v = Done (length gaps) /\
    Forall (normal_gap domain) gaps.
Proof.
  intros [(e & ? & _)|(rs & st1 & _ & _ & [(e & ? & _)|(reply & _ & Hr)])]%identify_gaps_run;
    try done.
  injection Hr as ->.
  destruct (normalized "gaps" (normalize_gap domain) reply) as [gaps|] eqn:Hn.
  - apply normalized_items in Hn as (xs & ys & Hall & Hiter & Hlen).
    + exists ys. split; [done|]. split; [done|].
      apply Forall_forall. intros y Hy.
      apply list_elem_of_lookup in Hy as [i Hy].
      destruct (Forall2_lookup_r _ _ _ _ _ Hall Hy) as (x & _ & Hx).
      by apply normalize_gap_dict in Hx as [? _].
    + intros x. apply normalize_gap_is_dict.
  - eexists. split; [done|]. split; [done|].
    constructor; [apply default_gap_normal|constructor].
Qed.

(** Whatever the model replies, what [identify_gaps] returns iterates
    over dicts that carry the requested domain, one of the three risk
    levels, and related standards that are no bare string; the
    collections and the data directory are as before. *)
Theorem identify_gaps_normalises (research_text domain : string)
    (st st' : St W) (v : pyval) :
  gaps_of research_text domain st = (Ok v, st') ->
  self st' = self st /\ disk st' = disk st /\
  exists gaps, PyVal.iter v = Some gaps /\ Forall (normal_gap domain) gaps.
Proof.
  intros Hrun.
  destruct (identify_gaps_items _ _ _ _ _ Hrun) as (gaps & Hiter & _ & Hall).
  apply identify_gaps_run in Hrun
    as [(e & ? & _)|(rs & st1 & _ & -> & _)]; [done|].
  split; [done|]. split; [done|]. by exists gaps.
Qed.

(** [identify_gaps] raises only what the search or the call of the model
    raised: no reply of the model makes it raise. *)
Theorem identify_gaps_raises_upstream (research_text domain : string)
    (st st' : St W) (e : exn) :
  gaps_of research_text domain st = (Raise e, st') ->
  search ("safety standards for " ++ domain) 5 st = (Raise e, st') \/
  exists rs st1,
    search ("safety standards for " ++ domain) 5 st = (Ok rs, st1) /\
    gap_chat (gap_request research_text domain rs) (world st1) =
    (Raise e, world st').
Proof.
  intros [(e' & [= <-] & ?)|(rs & st1 & Hs & _ & [(e' & [= <-] & ?)|(reply & _ & ?)])]%identify_gaps_run;
    try done.
  - by left.
  - right. by exists rs, st1.
Qed.

(** When the reply evaluates to a dict whose ["gaps"] is a list of dicts,
    [identify_gaps] returns as many gaps, in order, and each keeps every
    other key of the reply, a risk level that is one of the three, and
    related standards that are no bare string; a bare string is wrapped
    in a list, and missing related standards become the empty list. *)
Theorem identify_gaps_keeps_reply (research_text domain : string)
    (st st1 : St W) (rs : list SearchResult) (w' : W)
    (r : list (string * pyval)) (gs : list pyval) :
  search ("safety standards for " ++ domain) 5 st = (Ok rs, st1) ->
  gap_chat (gap_request research_text domain rs) (world st1) =
    (Ok (EvalGives (PDict r)), w') ->
  PyVal.get "gaps" r = Some (PList gs) ->
  Forall is_dict gs ->
  exists gs',
    gaps_of research_text domain st =
      (Ok (PList gs'), mkSt (self st) (disk st) w') /\
    Forall2 gap_kept_in gs gs'.
Proof.
  intros Hsearch Hchat Hget Hdicts.
  assert (exists gs', mapM (normalize_gap domain) gs = Some gs')
    as [gs' Hmap].
  { apply is_Some_alt. destruct (mapM _ gs) eqn:Hm; [done|].
    apply mapM_None in Hm. apply Exists_exists in Hm as (x & Hx & Hnone).
    rewrite Forall_forall in Hdicts.
    apply Hdicts in Hx.
    apply (proj2 (normalize_gap_is_dict domain x)) in Hx as [? Hx].
    congruence. }
  exists gs'. split.
  - unfold identify_gaps, bind. rewrite Hsearch.
    rewrite (search_standards_frame _ _ _ _ _ Hsearch).
    unfold call, ret. cbn [self disk world]. rewrite Hchat.
    by rewrite (normalized_list _ _ _ _ Hget), Hmap.
  - apply mapM_Some in Hmap. eapply Forall2_impl; [exact Hmap|].
    intros x y Hxy. by apply normalize_gap_dict in Hxy as [_ ?].
Qed.

(** One item that is no dict discards the whole reply: the single default
    gap is returned, with the search results as its related standards. *)
Theorem identify_gaps_discards_reply (research_text domain : string)
    (st st1 : St W) (rs : list SearchResult) (w' : W)
    (r : list (string * pyval)) (gs : list pyval) (x : pyval) :
  search ("safety standards for " ++ domain) 5 st = (Ok rs, st1) ->
  gap_chat (gap_request research_text domain rs) (world st1) =
    (Ok (EvalGives (PDict r)), w') ->
  PyVal.get "gaps" r = Some (PList gs) ->
  x ∈ gs -> ~ is_dict x ->
  gaps_of research_text domain st =
    (Ok (PList [default_gap domain (map standard_info rs)]),
     mkSt (self st) (disk st) w').
Proof.
  intros Hsearch Hchat Hget Hx Hnot.
  assert (mapM (normalize_gap domain) gs = None) as Hmap.
  { apply mapM_None. apply Exists_exists. exists x. split; [done|].
    destruct (normalize_gap domain x) eqn:Hn; [|done].
    destruct Hnot. apply (normalize_gap_is_dict domain). by eexists. }
  unfold identify_gaps, bind. rewrite Hsearch.
  rewrite (search_standards_frame _ _ _ _ _ Hsearch).
  unfold call, ret. cbn [self disk world]. rewrite Hchat.
  by rewrite (normalized_list _ _ _ _ Hget), Hmap.
Qed.

End AnalyserFacts.

(** ** The recommendation engine *)

Lemma fill_field_keeps (d : list (string * pyval)) (field key : string)
    (v : pyval) :
  PyVal.get key d = Some v -> PyVal.get key (fill_field d field) = Some v.
Proof.
  intros Hget. unfold fill_field.
  destruct (PyVal.get field d) eqn:Hf; [done|].
  rewrite get_setitem_ne; [done|]. intros ->. congruence.
Qed.

Lemma fill_field_present (d : list (string * pyval)) (field : string) :
  is_Some (PyVal.get field (fill_field d field)).
Proof.
  unfold fill_field. destruct (PyVal.get field d) eqn:Hf.
  - by rewrite Hf.
  - by rewrite get_setitem_eq.
Qed.

Lemma fill_field_other (d : list (string * pyval)) (field key : string) :
  key <> field -> PyVal.get key (fill_field d field) = PyVal.get key d.
Proof.
  intros Hne. unfold fill_field. destruct (PyVal.get field d); [done|].
  by apply get_setitem_ne.
Qed.

Lemma fill_fields_keeps (fields : list string) (d : list (string * pyval))
    (key : string) (v : pyval) :
  PyVal.get key d = Some v ->
  PyVal.get key (foldl fill_field d fields) = Some v.
Proof.
  revert d. induction fields as [|f fields IH]; intros d Hget; [done|].
  simpl. by apply IH, fill_field_keeps.
Qed.

Lemma fill_fields_present (fields : list string) (d : list (string * pyval))
    (field : string) :
  field ∈ fields -> is_Some (PyVal.get field (foldl fill_field d fields)).
Proof.
  revert d. induction fields as [|f fields IH]; intros d Hin.
  - by apply elem_of_nil in Hin.
  - simpl. apply elem_of_cons in Hin as [->|Hin]; [|by apply IH].
    destruct (fill_field_present d f) as [v Hv].
    exists v. by apply fill_fields_keeps.
Qed.

Lemma fill_fields_other (fields : list string) (d : list (string * pyval))
    (key : string) :
  key ∉ fields ->
  PyVal.get key (foldl fill_field d fields) = PyVal.get key d.
Proof.
  revert d. induction fields as [|f fields IH]; intros d Hnot; [done|].
  simpl. apply not_elem_of_cons in Hnot as [Hne Hnot].
  rewrite IH by done. by apply fill_field_other.
Qed.

Lemma normalize_rec_dict (rec rec' : pyval) :
  normalize_rec rec = Some rec' ->
  complete_rec rec' /\ rec_kept_in rec rec'.
Proof.
  destruct rec as [| | | | | |d]; try done. cbn [normalize_rec].
  set (d1 := match PyVal.get "implementation_difficulty" d with
             | Some level => _ | None => _ end).
  intros [= <-].
  assert (Hother : forall key, key <> "implementation_difficulty" ->
            PyVal.get key d1 = PyVal.get key d).
  { intros key Hkey. unfold d1.
    destruct (PyVal.get "implementation_difficulty" d) as [level|];
      [destruct (PyVal.among difficulties level)|]; try done;
      by apply get_setitem_ne. }
  assert (Hlevel : exists level, level ∈ difficulties /\
            PyVal.get "implementation_difficulty" d1 = Some (PStr level)).
  { unfold d1.
    destruct (PyVal.get "implementation_difficulty" d) as [level|] eqn:Hl.
    - destruct (PyVal.among difficulties level) eqn:Ha.
      + apply among_spec in Ha as (s & Hs & ->). by exists s.
      + exists "Moderate". split; [|apply get_setitem_eq].
        apply elem_of_cons; right. apply list_elem_of_here.
    - exists "Moderate". split; [|apply get_setitem_eq].
      apply elem_of_cons; right. apply list_elem_of_here. }
  split.
  - eexists. split; [done|]. split.
    + intros field Hfield.
      exact (fill_fields_present required_fields d1 field Hfield).
    + destruct Hlevel as (level & Hin & Hget). exists level.
      split; [done|]. exact (fill_fields_keeps required_fields d1 _ _ Hget).
  - exists d. eexists. split; [done|]. split; [done|].
    split; [|split].
    + intros key v Hkey Hget.
      apply (fill_fields_keeps required_fields d1). by rewrite Hother.
    + intros key Hkey Hnot.
      rewrite <- (Hother key Hkey).
      exact (fill_fields_other required_fields d1 key Hnot).
    + intros level Hl Ha. apply (fill_fields_keeps required_fields d1).
      unfold d1. by rewrite Hl, Ha.
Qed.

Lemma normalize_rec_is_dict (rec : pyval) :
  is_Some (normalize_rec rec) <-> is_dict rec.
Proof.
  split.
  - intros [g Hg]. destruct rec; try done. by eexists.
  - intros [d ->]. by eexists.
Qed.

Lemma default_rec_complete (title domain : string) :
  complete_rec (default_rec title domain).
Proof.
  eexists. split; [done|]. split.
  - intros field Hfield. unfold required_fields in Hfield.
    repeat (apply elem_of_cons in Hfield as [->|Hfield]; [by eexists|]).
    by apply elem_of_nil in Hfield.
  - exists "Moderate". split; [|done].
    apply elem_of_cons; right. apply list_elem_of_here.
Qed.

Section RecommendationFacts.

Context {W : Type}.
Variable rec_chat : RecRequest -> W -> result Evaluated * W.
Variable repr : pyval -> string.

Local Abbreviation recommend := (generate_recommendations rec_chat repr).
Local Abbreviation request_of := (rec_request repr).

(** Whatever the model replies, what [generate_recommendations] returns
    iterates over dicts that have the five text fields and one of the
    three implementation difficulties. *)
Theorem generate_recommendations_complete (gap : pyval) (w w' : W)
    (v : pyval) :
  recommend gap w = (Done v, w') ->
  exists recs, PyVal.iter v = Some recs /\ Forall complete_rec recs.
Proof.
  unfold generate_recommendations.
  destruct (request_of gap) as [request|]; [|done].
  destruct (rec_chat request w) as [[reply|e] w1]; [|done].
  intros [= <- <-].
  destruct (normalized "recommendations" normalize_rec reply) as [recs|] eqn:Hn.
  - apply normalized_items in Hn as (xs & ys & Hall & Hiter & _).
    + exists ys. split; [done|].
      apply Forall_forall. intros y Hy.
      apply list_elem_of_lookup in Hy as [i Hy].
      destruct (Forall2_lookup_r _ _ _ _ _ Hall Hy) as (x & _ & Hx).
      by apply normalize_rec_dict in Hx as [? _].
    + intros x. apply normalize_rec_is_dict.
  - eexists. split; [done|].
    constructor; [apply default_rec_complete|constructor].
Qed.

(** A gap that lacks one of the six keys of the prompt makes
    [generate_recommendations] raise before the model is called: a
    [KeyError] for a missing key, or the [TypeError] of related standards
    that cannot be joined. *)
Theorem generate_recommendations_missing_key (d : list (string * pyval))
    (key : string) (w : W) :
  key ∈ prompt_keys -> PyVal.get key d = None ->
  exists e,
    recommend (PDict d) w = (Failed e, w) /\
    (e = TypeError \/
     exists k, k ∈ prompt_keys /\ PyVal.get k d = None /\ e = KeyError k).
Proof.
  intros Hkey Hnone.
  assert (Hin : forall k, k ∈ prompt_keys -> PyVal.get k d = None ->
            exists e, Failed (A := RecRequest) (KeyError k) = Failed e /\
              (e = TypeError \/
               exists k, k ∈ prompt_keys /\ PyVal.get k d = None /\ e = KeyError k)).
  { intros k Hk Hget. eexists. split; [done|]. right. by exists k. }
  assert (Hfail : exists e, request_of (PDict d) = Failed e /\
            (e = TypeError \/
             exists k, k ∈ prompt_keys /\ PyVal.get k d = None /\ e = KeyError k)).
  { unfold rec_request, PyVal.getitem, prompt_keys in *.
    destruct (PyVal.get "title" d) eqn:H1;
      [|apply Hin; [|done]; repeat first [apply list_elem_of_here | apply list_elem_of_further]].
    destruct (PyVal.get "description" d) eqn:H2;
      [|apply Hin; [|done]; repeat first [apply list_elem_of_here | apply list_elem_of_further]].
    destruct (PyVal.get "domain" d) eqn:H3;
      [|apply Hin; [|done]; repeat first [apply list_elem_of_here | apply list_elem_of_further]].
    destruct (PyVal.get "risk_level" d) eqn:H4;
      [|apply Hin; [|done]; repeat first [apply list_elem_of_here | apply list_elem_of_further]].
    destruct (PyVal.get "related_standards" d) as [related|] eqn:H5;
      [|apply Hin; [|done]; repeat first [apply list_elem_of_here | apply list_elem_of_further]].
    destruct (if PyVal.truthy related then _ else _);
      [|eexists; split; [done|by left]].
    destruct (PyVal.get "evidence" d) eqn:H6;
      [|apply Hin; [|done]; repeat first [apply list_elem_of_here | apply list_elem_of_further]].
    repeat (apply elem_of_cons in Hkey as [->|Hkey]; [congruence|]).
    by apply elem_of_nil in Hkey. }
  destruct Hfail as (e & Hreq & He). exists e. split; [|done].
  unfold generate_recommendations. by rewrite Hreq.
Qed.

(** A gap normalised by [identify_gaps] has what the prompt reads of it:
    a [KeyError] can only be for the title, the description or the
    evidence, and a prompt that is built names the domain and one of the
    three risk levels. *)
Theorem normal_gap_feeds_prompt (domain : string) (gap : pyval) :
  normal_gap domain gap ->
  (forall k w w',
     recommend gap w = (Failed (KeyError k), w') ->
     k ∈ ["title"; "description"; "evidence"]) /\
  (forall request,
     request_of gap = Done request ->
     q_domain request = domain /\ q_risk_level request ∈ risk_levels).
Proof.
  intros (d & -> & Hdom & (level & Hlevel & Hrisk) & (related & Hrel & _)).
  split.
  - intros k w w'. unfold generate_recommendations.
    destruct (request_of (PDict d)) as [request|e] eqn:Hreq.
    { by destruct (rec_chat request w) as [[]]. }
    intros [= -> <-]. revert Hreq.
    unfold rec_request, PyVal.getitem. rewrite Hdom, Hrisk, Hrel.
    destruct (PyVal.get "title" d);
      [|intros [= <-]; repeat first [apply list_elem_of_here | apply list_elem_of_further]].
    destruct (PyVal.get "description" d);
      [|intros [= <-]; repeat first [apply list_elem_of_here | apply list_elem_of_further]].
    destruct (if PyVal.truthy related then _ else _); [|done].
    destruct (PyVal.get "evidence" d);
      [|intros [= <-]; repeat first [apply list_elem_of_here | apply list_elem_of_further]].
    done.
  - intros request. unfold rec_request, PyVal.getitem.
    rewrite Hdom, Hrisk, Hrel.
    destruct (PyVal.get "title" d); [|done].
    destruct (PyVal.get "description" d); [|done].
    destruct (if PyVal.truthy related then _ else _); [|done].
    destruct (PyVal.get "evidence" d); [|done].
    by intros [= <-].
Qed.

(** When the reply evaluates to a dict whose ["recommendations"] is a
    list of dicts, as many recommendations are returned, in order, and
    each keeps every field the reply gave it, but for an implementation
    difficulty that is none of the three. *)
Theorem generate_recommendations_keeps_reply (gap : pyval) (w w' : W)
    (request : RecRequest) (r : list (string * pyval)) (rs : list pyval) :
  request_of gap = Done request ->
  rec_chat request w = (Ok (EvalGives (PDict r)), w') ->
  PyVal.get "recommendations" r = Some (PList rs) ->
  Forall is_dict rs ->
  exists rs',
    recommend gap w = (Done (PList rs'), w') /\
    Forall2 rec_kept_in rs rs'.
Proof.
  intros Hreq Hchat Hget Hdicts.
  assert (exists rs', mapM normalize_rec rs = Some rs') as [rs' Hmap].
  { apply is_Some_alt. destruct (mapM _ rs) eqn:Hm; [done|].
    apply mapM_None in Hm. apply Exists_exists in Hm as (x & Hx & Hnone).
    rewrite Forall_forall in Hdicts. apply Hdicts in Hx.
    apply (proj2 (normalize_rec_is_dict x)) in Hx as [? Hx]. congruence. }
  exists rs'. split.
  - unfold generate_recommendations. rewrite Hreq, Hchat.
    by rewrite (normalized_list _ _ _ _ Hget), Hmap.
  - apply mapM_Some in Hmap. eapply Forall2_impl; [exact Hmap|].
    intros x y Hxy. by apply normalize_rec_dict in Hxy as [_ ?].
Qed.

End RecommendationFacts.

(** ** The dashboard and the heat map *)

Lemma risk_levels_nodup : NoDup risk_levels.
Proof. unfold risk_levels. by apply (bool_decide_unpack _). Qed.

Lemma chars_length (s : string) : length (PyVal.chars s) = String.length s.
Proof. induction s as [|c s IH]; simpl; by rewrite ?IH. Qed.

Lemma count_risk_normal (domain : string) (gaps : list pyval) :
  Forall (normal_gap domain) gaps ->
  exists h m l,
    count_risk "High" gaps = Done h /\ count_risk "Medium" gaps = Done m /\
    count_risk "Low" gaps = Done l /\ h + m + l = length gaps.
Proof.
  induction 1 as [|gap gaps Hgap _ (h & m & l & Hh & Hm & Hl & Hsum)].
  - by exists 0, 0, 0.
  - destruct Hgap as (d & -> & _ & (level & Hlevel & Hrisk) & _).
    cbn [count_risk PyVal.getitem]. rewrite Hrisk, Hh, Hm, Hl.
    unfold risk_levels in Hlevel.
    apply elem_of_cons in Hlevel as [->|Hlevel];
      [|apply elem_of_cons in Hlevel as [->|Hlevel];
        [|apply elem_of_cons in Hlevel as [->|Hlevel];
          [|by apply elem_of_nil in Hlevel]]];
      simpl; eexists _, _, _; repeat split; lia.
Qed.

Lemma index_of_Some (x : string) (l : list string) (i : nat) :
  index_of x l = Some i -> l !! i = Some x.
Proof.
  revert i. induction l as [|y l IH]; intros i; simpl; [done|].
  destruct (String.eqb_spec y x) as [->|Hne].
  - by intros [= <-].
  - destruct (index_of x l) as [k|]; [|done]. intros [= <-]. by apply IH.
Qed.

Lemma index_of_elem (x : string) (l : list string) :
  x ∈ l -> is_Some (index_of x l).
Proof.
  induction l as [|y l IH]; intros Hin; simpl.
  - by apply elem_of_nil in Hin.
  - destruct (String.eqb_spec y x) as [->|Hne]; [done|].
    apply elem_of_cons in Hin as [->|Hin]; [done|].
    destruct (IH Hin) as [k ->]. done.
Qed.

Lemma bump_shape (i j : nat) (data : list (list nat)) :
  map length (bump i j data) = map length data.
Proof.
  unfold bump. apply list_eq. intros k. rewrite !list_lookup_fmap.
  destruct (decide (k = i)) as [->|Hk].
  - rewrite list_lookup_alter_eq. destruct (data !! i) as [row|]; [|done].
    simpl. by rewrite length_alter.
  - by rewrite list_lookup_alter_ne.
Qed.

Lemma bump_at (di rj i j : nat) (data : list (list nat)) :
  at_cell (bump di rj data) i j =
  if bool_decide (i = di /\ j = rj) then S <$> at_cell data i j
  else at_cell data i j.
Proof.
  unfold at_cell, bump. destruct (decide (i = di)) as [->|Hi].
  - rewrite list_lookup_alter_eq. destruct (data !! di) as [row|]; simpl.
    + destruct (decide (j = rj)) as [->|Hj].
      * rewrite bool_decide_eq_true_2 by done. apply list_lookup_alter_eq.
      * rewrite bool_decide_eq_false_2 by tauto.
        by apply list_lookup_alter_ne.
    + by destruct (bool_decide _).
  - rewrite bool_decide_eq_false_2 by tauto.
    by rewrite list_lookup_alter_ne.
Qed.

Lemma populate_ok (domains : list string) (gaps : list Cell)
    (data : list (list nat)) :
  NoDup domains ->
  Forall (fun c => cell_domain c ∈ domains /\
                   PyVal.among risk_levels (cell_risk c) = true) gaps ->
  exists data',
    populate domains gaps data = Ok data' /\
    map length data' = map length data /\
    forall i j d level n,
      domains !! i = Some d -> risk_levels !! j = Some level ->
      at_cell data i j = Some n ->
      at_cell data' i j = Some (n + tally d level gaps).
Proof.
  intros Hnodup Hall. revert data.
  induction Hall as [|c gaps [Hdom Hrisk] _ IH]; intros data.
  - exists data. split; [done|]. split; [done|].
    intros i j d level n _ _ ->. simpl. f_equal. lia.
  - cbn [populate].
    destruct (index_of_elem _ _ Hdom) as [di Hdi]. rewrite Hdi.
    apply among_spec in Hrisk as (s & Hs & Hc). rewrite Hc.
    cbn [risk_index].
    destruct (index_of_elem _ _ Hs) as [rj Hrj]. rewrite Hrj.
    destruct (IH (bump di rj data)) as (data' & Hrun & Hshape & Hcells).
    exists data'. split; [done|]. split; [by rewrite Hshape, bump_shape|].
    intros i j d level n Hd Hlevel Hn.
    apply index_of_Some in Hdi, Hrj.
    cbn [tally]. rewrite Hc. cbn [PyVal.eq_str].
    destruct (String.eqb_spec (cell_domain c) d) as [Hcd|Hcd];
      [destruct (String.eqb_spec s level) as [Hsl|Hsl]|]; simpl.
    + assert (i = di) as -> by (eapply NoDup_lookup; [done|done|by rewrite Hdi, Hcd]).
      assert (j = rj) as ->
        by (eapply NoDup_lookup; [apply risk_levels_nodup|done|by rewrite Hrj, Hsl]).
      rewrite (Hcells di rj d level (S n)); try done; [f_equal; lia|].
      rewrite bump_at, bool_decide_eq_true_2 by done. by rewrite Hn.
    + rewrite (Hcells i j d level n); try done.
      rewrite bump_at, bool_decide_eq_false_2; [done|].
      intros [_ ->]. congruence.
    + rewrite (Hcells i j d level n); try done.
      rewrite bump_at, bool_decide_eq_false_2; [done|].
      intros [-> _]. congruence.
Qed.

Lemma zeros_at (rows columns i j : nat) :
  i < rows -> j < columns ->
  at_cell (replicate rows (replicate columns 0)) i j = Some 0.
Proof.
  intros Hi Hj. unfold at_cell.
  rewrite lookup_replicate_2 by done. simpl.
  by rewrite lookup_replicate_2.
Qed.

Section HeatMapFacts.

Variable list_of_set : list string -> list string.
Hypothesis list_of_set_lists : lists_sets list_of_set.

(** When every risk level is one of the three, the counts are built, one
    row of three for each distinct domain, and the cell of a domain and
    a risk level is the number of gaps with that domain and that level. *)
Theorem gap_counts_tally (gaps : list Cell) :
  Forall (fun c => PyVal.among risk_levels (cell_risk c) = true) gaps ->
  exists data,
    gap_counts list_of_set gaps =
      Ok (list_of_set (map cell_domain gaps), data) /\
    map length data =
      replicate (length (list_of_set (map cell_domain gaps))) 3 /\
    forall i j d level,
      list_of_set (map cell_domain gaps) !! i = Some d ->
      risk_levels !! j = Some level ->
      at_cell data i j = Some (tally d level gaps).
Proof.
  intros Hrisk. unfold gap_counts.
  set (domains := list_of_set (map cell_domain gaps)).
  destruct (list_of_set_lists (map cell_domain gaps)) as [Hnodup Helem].
  destruct (populate_ok domains gaps
              (replicate (length domains) (replicate (length risk_levels) 0))
              Hnodup)
    as (data & Hrun & Hshape & Hcells).
  { apply Forall_forall. intros c Hc. split.
    - apply Helem, list_elem_of_fmap. by exists c.
    - rewrite Forall_forall in Hrisk. by apply Hrisk. }
  exists data. rewrite Hrun. split; [done|]. split.
  - rewrite Hshape. clear. induction (length domains); simpl; by f_equal.
  - intros i j d level Hd Hlevel.
    apply (Hcells i j d level 0 Hd Hlevel).
    apply zeros_at; by eapply lookup_lt_Some.
Qed.

(** One gap whose risk level is none of the three makes the counting
    raise [ValueError]: no figure is drawn. *)
Theorem gap_counts_invalid_risk (gaps : list Cell) (c : Cell) :
  c ∈ gaps -> PyVal.among risk_levels (cell_risk c) = false ->
  gap_counts list_of_set gaps = Raise ValueError.
Proof.
  intros Hc Hbad. unfold gap_counts.
  set (domains := list_of_set (map cell_domain gaps)).
  assert (Hpop : forall data, populate domains gaps data = Raise ValueError).
  { clearbody domains. induction gaps as [|g gaps IH]; intros data.
    - by apply elem_of_nil in Hc.
    - cbn [populate].
      destruct (index_of (cell_domain g) domains) as [di|]; [|done].
      destruct (risk_index (cell_risk g)) as [rj|] eqn:Hrj.
      + apply IH. apply elem_of_cons in Hc as [->|Hc]; [|done].
        destruct (cell_risk g) as [| | | |s| |]; try done.
        cbn [risk_index] in Hrj. apply index_of_Some in Hrj.
        assert (PyVal.among risk_levels (PStr s) = true); [|congruence].
        apply among_spec. exists s. split; [|done].
        by eapply list_elem_of_lookup_2.
      + done. }
  by rewrite Hpop.
Qed.

End HeatMapFacts.

(** ** From the gap analysis to the dashboard and the heat map *)

Lemma normal_gaps_cells (domain : string) (gaps : list pyval) :
  Forall (normal_gap domain) gaps ->
  exists cells,
    mapM cell_of gaps = Some cells /\
    Forall (fun c => cell_domain c = domain /\
                     PyVal.among risk_levels (cell_risk c) = true) cells /\
    length cells = length gaps /\
    forall level, count_risk level gaps = Done (tally domain level cells).
Proof.
  induction 1 as [|gap gaps Hgap _ (cells & Hmap & Hall & Hlen & Hcount)].
  - exists []. by repeat split.
  - destruct Hgap as (d & -> & Hdom & (level & Hlevel & Hrisk) & _).
    exists (mkCell domain (PStr level) :: cells). split; [|split; [|split]].
    + cbn. by rewrite Hdom, Hrisk, Hmap.
    + constructor; [|done]. split; [done|]. apply among_spec. by exists level.
    + simpl. by rewrite Hlen.
    + intros l. cbn [count_risk PyVal.getitem tally cell_domain cell_risk].
      rewrite Hrisk, Hcount, String.eqb_refl. simpl.
      by destruct (String.eqb level l).
Qed.

Lemma nodup_singleton (l : list string) (a : string) :
  NoDup l -> (forall x, x ∈ l <-> x = a) -> l = [a].
Proof.
  intros Hnodup Helem. destruct l as [|x l].
  - pose proof (proj2 (Helem a) eq_refl) as Hin. by apply elem_of_nil in Hin.
  - assert (x = a) as -> by (apply Helem, list_elem_of_here).
    destruct l as [|y l]; [done|].
    assert (y = a) as -> by (apply Helem; apply list_elem_of_further, list_elem_of_here).
    apply NoDup_cons in Hnodup as [Hnot _]. destruct Hnot.
    apply list_elem_of_here.
Qed.

Section PipelineFacts.

Variable np : Np.kernel.
Context {W : Type}.
Variable embeddings_create : string -> W -> result Np.vec * W.
Variable gap_chat : GapRequest -> W -> result Evaluated * W.

Local Abbreviation gaps_of := (identify_gaps np embeddings_create gap_chat).

(** On what [identify_gaps] returns, the dashboard's counting never
    raises, and its three counters add up to the number of identified
    gaps: every gap is of high, medium or low risk. *)
Theorem dashboard_counts_every_gap (research_text domain : string)
    (st st' : St W) (v : pyval) :
  gaps_of research_text domain st = (Ok v, st') ->
  exists s,
    gap_summary v = Done s /\
    high_risk s + medium_risk s + low_risk s = identified s.
Proof.
  intros (gaps & Hiter & Hlen & Hall)%identify_gaps_items.
  destruct (count_risk_normal domain gaps Hall)
    as (h & m & l & Hh & Hm & Hl & Hsum).
  exists (mkSummary (length gaps) h m l). split; [|done].
  unfold gap_summary, risk_count. by rewrite Hlen, Hiter, Hh, Hm, Hl.
Qed.

(** On a non-empty list that [identify_gaps] returns, the heat map has
    one row, labelled with the requested domain, and its three cells are
    the dashboard's counters of high, medium and low risk. *)
Theorem heat_map_of_identified_gaps (list_of_set : list string -> list string)
    (research_text domain : string) (st st' : St W) (gaps : list pyval) :
  lists_sets list_of_set ->
  gaps_of research_text domain st = (Ok (PList gaps), st') ->
  gaps <> [] ->
  exists cells s,
    mapM cell_of gaps = Some cells /\
    gap_summary (PList gaps) = Done s /\
    gap_counts list_of_set cells =
      Ok ([domain], [[high_risk s; medium_risk s; low_risk s]]).
Proof.
  intros Hsets (gaps' & [= <-] & _ & Hall)%identify_gaps_items Hne.
  destruct (normal_gaps_cells domain gaps Hall)
    as (cells & Hmap & Hcells & Hlen & Hcount).
  exists cells,
    (mkSummary (length gaps) (tally domain "High" cells)
       (tally domain "Medium" cells) (tally domain "Low" cells)).
  split; [done|]. split.
  { unfold gap_summary, risk_count. cbn [PyVal.len PyVal.iter].
    by rewrite !Hcount. }
  cbn [high_risk medium_risk low_risk]. unfold gap_counts.
  destruct (Hsets (map cell_domain cells)) as [Hnodup Helem].
  assert (Hdomains : list_of_set (map cell_domain cells) = [domain]).
  { apply nodup_singleton; [done|]. intros x. rewrite Helem.
    rewrite list_elem_of_fmap. split.
    - intros (c & -> & Hc). rewrite Forall_forall in Hcells.
      by destruct (Hcells c Hc).
    - intros ->. destruct cells as [|c cells].
      + destruct gaps; [done|discriminate].
      + exists c. split; [|apply list_elem_of_here].
        by apply Forall_cons in Hcells as [[-> _] _]. }
  rewrite Hdomains.
  destruct (populate_ok [domain] cells
              (replicate (length [domain]) (replicate (length risk_levels) 0)))
    as (data & Hrun & Hshape & Hat).
  { apply NoDup_singleton. }
  { eapply Forall_impl; [exact Hcells|]. intros c [-> ?].
    split; [apply list_elem_of_here|done]. }
  rewrite Hrun. cbn [rbind]. simpl in Hshape.
  destruct data as [|[|a [|b [|c [|? ?]]]] [|? ?]]; try done.
  pose proof (Hat 0 0 domain "High" 0 eq_refl eq_refl eq_refl) as H0.
  pose proof (Hat 0 1 domain "Medium" 0 eq_refl eq_refl eq_refl) as H1.
  pose proof (Hat 0 2 domain "Low" 0 eq_refl eq_refl eq_refl) as H2.
  cbn in H0, H1, H2. by simplify_eq.
Qed.

End PipelineFacts.

(** ** The sections of the segmentation oracle *)

Section OracleSectionFacts.

Context {W : Type}.
Variable uuid4 : W -> string * W.
Variable chat_completions_create : list string -> W -> result ChatReply * W.

(** When the reply carries a list of sections, one section is stored for
    each item, in order and numbered from 0: its title is the item's, or
    ["Section i+1"] when it has none, and its content is the item's
    content stripped, or empty when it has none. The text of the document
    reaches the sections only through the reply. *)
Theorem split_into_sections_oracle_list (text doc_id : string) (st : St W)
    (items : list Candidate) (w1 : W) :
  chat_completions_create (take 10 (Py.split_blank text)) (world st) =
    (Ok (SectionList items), w1) ->
  exists secs w',
    _split_into_sections uuid4 chat_completions_create text doc_id st
      = (Ok secs, mkSt (self st) (disk st) w') /\
    length secs = length items /\
    map Sec.index secs = seq 0 (length items) /\
    map Sec.title secs =
      map (fun ic => default ("Section " +:+ Py.str_of_nat (ic.1 + 1)) (c_title ic.2))
          (Py.enumerate items) /\
    map Sec.content secs =
      map (fun c => Py.strip (default EmptyString (c_content c))) items.
Proof.
  intros Hchat. unfold _split_into_sections, bind, call.
  rewrite Hchat. cbn [self disk world].
  destruct (collect_format_frame uuid4 doc_id (Py.enumerate items)
              (mkSt (self st) (disk st) w1))
    as (secs & w' & Hrun & _ & Hidx & Htitle & Hcontent).
  exists secs, w'.
  assert (Hfst : map fst (Py.enumerate items) = seq 0 (length items))
    by apply enumerate_from_fst.
  assert (Hsnd : forall k (l : list Candidate), map snd (Py.enumerate_from k l) = l).
  { intros k l. revert k. induction l as [|x l IH]; intros k; [done|].
    simpl. by rewrite IH. }
  split; [exact Hrun|]. split; [|split; [|split]].
  - by rewrite <- (length_map Sec.index), Hidx, Hfst, length_seq.
  - by rewrite Hidx.
  - done.
  - rewrite Hcontent.
    rewrite <- (map_map snd (fun c => Py.strip (default EmptyString (c_content c)))).
    unfold Py.enumerate. by rewrite Hsnd.
Qed.

End OracleSectionFacts.

(** ** The analysers at work in the small environment *)

Lemma split_into_sections_oracle_list_witness :
  exists secs w',
    _split_into_sections Demo.uuid4 Demo.chat_sections Demo.two_blocks "uuid-0"
        (mkSt (mkSelf [Demo.doc] [] []) empty_disk 1)
      = (Ok secs, mkSt (mkSelf [Demo.doc] [] []) empty_disk w') /\
    length secs = 2 /\
    map Sec.index secs = [0; 1] /\
    map Sec.title secs = ["Scope"; "Section 2"] /\
    map Sec.content secs = ["Lifts and hoists"; ""].
Proof.
  apply (split_into_sections_oracle_list Demo.uuid4 Demo.chat_sections
           Demo.two_blocks "uuid-0"
           (mkSt (mkSelf [Demo.doc] [] []) empty_disk 1)
           [mkCandidate (Some "Scope") (Some " Lifts and hoists ");
            mkCandidate None None] 1).
  reflexivity.
Defined.

Lemma identify_gaps_normalises_witness :
  exists v st',
    identify_gaps Np.reference (Demo.embed_until 100) Demo.gap_chat "Two fires in 2023."
      "IoT Devices" Demo.session = (Ok v, st') /\
    exists gaps, PyVal.iter v = Some gaps /\
                 Forall (normal_gap "IoT Devices") gaps.
Proof.
  pose proof (identify_gaps_normalises Np.reference (Demo.embed_until 100) Demo.gap_chat
                "Two fires in 2023." "IoT Devices" Demo.session _ _ eq_refl)
    as (_ & _ & H).
  eexists _, _. split; [reflexivity|]. exact H.
Defined.

Lemma identify_gaps_raises_upstream_witness :
  Demo.search "safety standards for IoT Devices" 5 Demo.session =
    (Raise APIError, mkSt Demo.ingested empty_disk 6) \/
  exists rs st1,
    Demo.search "safety standards for IoT Devices" 5 Demo.session = (Ok rs, st1) /\
    Demo.gap_chat_down (gap_request "Two fires in 2023." "IoT Devices" rs)
      (world st1) = (Raise APIError, 6).
Proof.
  apply (identify_gaps_raises_upstream Np.reference (Demo.embed_until 100) Demo.gap_chat_down
           "Two fires in 2023." "IoT Devices" Demo.session
           (mkSt Demo.ingested empty_disk 6) APIError).
  reflexivity.
Defined.

Lemma identify_gaps_keeps_reply_witness :
  exists gs',
    identify_gaps Np.reference (Demo.embed_until 100) Demo.gap_chat "Two fires in 2023."
      "IoT Devices" Demo.session =
      (Ok (PList gs'), mkSt Demo.ingested empty_disk 7) /\
    Forall2 gap_kept_in
      [PDict [("title", PStr "Battery fires");
              ("risk_level", PStr "Severe");
              ("related_standards", PStr "IEC 62133")];
       PDict [("title", PStr "Firmware updates");
              ("risk_level", PStr "High");
              ("evidence", PStr "Three incident reports")]] gs'.
Proof.
  eapply (identify_gaps_keeps_reply Np.reference (Demo.embed_until 100) Demo.gap_chat
            "Two fires in 2023." "IoT Devices" Demo.session).
  - reflexivity.
  - reflexivity.
  - reflexivity.
  - repeat constructor; by eexists.
Defined.

Lemma identify_gaps_discards_reply_witness :
  exists rs,
    identify_gaps Np.reference (Demo.embed_until 100) Demo.gap_chat_mixed "Two fires in 2023."
      "IoT Devices" Demo.session =
    (Ok (PList [default_gap "IoT Devices" (map standard_info rs)]),
     mkSt Demo.ingested empty_disk 7) /\
    length rs = 2.
Proof.
  eexists. split.
  - eapply (identify_gaps_discards_reply Np.reference (Demo.embed_until 100)
              Demo.gap_chat_mixed "Two fires in 2023." "IoT Devices"
              Demo.session _ _ 7 Demo.mixed_reply _ (PStr "Firmware updates")).
    + reflexivity.
    + reflexivity.
    + reflexivity.
    + apply list_elem_of_further, list_elem_of_here.
    + by intros [d ?].
  - reflexivity.
Defined.

Lemma generate_recommendations_complete_witness :
  exists v w',
    generate_recommendations Demo.rec_chat Demo.repr Demo.fallback_gap 0 =
      (Done v, w') /\
    exists recs, PyVal.iter v = Some recs /\ Forall complete_rec recs.
Proof.
  pose proof (generate_recommendations_complete Demo.rec_chat Demo.repr
                Demo.fallback_gap 0 _ _ eq_refl) as H.
  eexists _, _. split; [reflexivity|]. exact H.
Defined.

Lemma generate_recommendations_missing_key_witness :
  exists e,
    generate_recommendations Demo.rec_chat Demo.repr
      (PDict [("title", PStr "Battery fires")]) 0 = (Failed e, 0) /\
    (e = TypeError \/
     exists k, k ∈ prompt_keys /\
       PyVal.get k [("title", PStr "Battery fires")] = None /\ e = KeyError k).
Proof.
  apply (generate_recommendations_missing_key Demo.rec_chat Demo.repr
           [("title", PStr "Battery fires")] "description" 0).
  - apply list_elem_of_further, list_elem_of_here.
  - reflexivity.
Defined.

Lemma normal_gap_feeds_prompt_witness :
  (forall k w w',
     generate_recommendations Demo.rec_chat Demo.repr Demo.fallback_gap w =
       (Failed (KeyError k), w') ->
     k ∈ ["title"; "description"; "evidence"]) /\
  (forall request,
     rec_request Demo.repr Demo.fallback_gap = Done request ->
     q_domain request = "IoT Devices" /\ q_risk_level request ∈ risk_levels).
Proof.
  apply (normal_gap_feeds_prompt Demo.rec_chat Demo.repr "IoT Devices"
           Demo.fallback_gap).
  eexists. split; [reflexivity|]. split; [reflexivity|]. split.
  - exists "Medium". split; [|reflexivity].
    apply list_elem_of_further, list_elem_of_here.
  - eexists. split; reflexivity.
Defined.

Lemma generate_recommendations_keeps_reply_witness :
  exists rs',
    generate_recommendations Demo.rec_chat Demo.repr Demo.fallback_gap 0 =
      (Done (PList rs'), 1) /\
    Forall2 rec_kept_in
      [PDict [("title", PStr "Require thermal cut-offs");
              ("implementation_difficulty", PStr "Hard")]] rs'.
Proof.
  eapply (generate_recommendations_keeps_reply Demo.rec_chat Demo.repr
            Demo.fallback_gap 0 1 _ Demo.recs_reply).
  - reflexivity.
  - reflexivity.
  - reflexivity.
  - repeat constructor; by eexists.
Defined.

Lemma remove_dups_lists : lists_sets remove_dups.
Proof.
  intros xs. split; [apply NoDup_remove_dups|].
  intros x. apply elem_of_remove_dups.
Defined.

Lemma gap_counts_tally_witness :
  exists data,
    gap_counts remove_dups Demo.cells =
      Ok (remove_dups (map cell_domain Demo.cells), data) /\
    map length data =
      replicate (length (remove_dups (map cell_domain Demo.cells))) 3 /\
    forall i j d level,
      remove_dups (map cell_domain Demo.cells) !! i = Some d ->
      risk_levels !! j = Some level ->
      at_cell data i j = Some (tally d level Demo.cells).
Proof.
  apply (gap_counts_tally remove_dups remove_dups_lists Demo.cells).
  repeat constructor.
Defined.

Lemma gap_counts_invalid_risk_witness :
  gap_counts remove_dups (Demo.cells ++ [Demo.odd_cell])%list = Raise ValueError.
Proof.
  apply (gap_counts_invalid_risk remove_dups
           (Demo.cells ++ [Demo.odd_cell])%list Demo.odd_cell).
  - apply elem_of_app. right. apply list_elem_of_here.
  - reflexivity.
Defined.

Lemma dashboard_counts_every_gap_witness :
  exists v st' s,
    identify_gaps Np.reference (Demo.embed_until 100) Demo.gap_chat "Two fires in 2023."
      "IoT Devices" Demo.session = (Ok v, st') /\
    gap_summary v = Done s /\
    high_risk s + medium_risk s + low_risk s = identified s.
Proof.
  pose proof (dashboard_counts_every_gap Np.reference (Demo.embed_until 100) Demo.gap_chat
                "Two fires in 2023." "IoT Devices" Demo.session _ _ eq_refl)
    as (s & Hs & Hsum).
  eexists _, _, s. split; [reflexivity|]. by split.
Defined.

Lemma heat_map_of_identified_gaps_witness :
  exists gaps st' cells s,
    identify_gaps Np.reference (Demo.embed_until 100) Demo.gap_chat "Two fires in 2023."
      "IoT Devices" Demo.session = (Ok (PList gaps), st') /\
    mapM cell_of gaps = Some cells /\
    gap_summary (PList gaps) = Done s /\
    gap_counts remove_dups cells =
      Ok (["IoT Devices"], [[high_risk s; medium_risk s; low_risk s]]).
Proof.
  pose proof (heat_map_of_identified_gaps Np.reference (Demo.embed_until 100) Demo.gap_chat
                remove_dups "Two fires in 2023." "IoT Devices" Demo.session
                _ _ remove_dups_lists eq_refl ltac:(discriminate))
    as (cells & s & Hcells & Hs & Hcounts).
  eexists _, _, cells, s. split; [reflexivity|]. by repeat split.
Defined.

(** ** A failed ingestion and the next save *)

Section FailureFacts.

Context {W : Type}.
Variable uuid4 : W -> string * W.
Variable timestamp_now : W -> string * W.
Variable chat_completions_create : list string -> W -> result ChatReply * W.
Variable embeddings_create : string -> W -> result Np.vec * W.
Variable pdf_pages : list Byte.byte -> result (list string).
Variable docx_paragraphs : list Byte.byte -> result (list string).
Variable decode_utf8 : list Byte.byte -> result string.

Local Abbreviation process :=
  (process_document uuid4 timestamp_now chat_completions_create
     embeddings_create pdf_pages docx_paragraphs decode_utf8).
Local Abbreviation text_of := (extract_text pdf_pages docx_paragraphs decode_utf8).

Lemma process_document_adds_document (file : UploadedFile) (st st' : St W)
    (text : string) (r : result unit) :
  text_of (Py.lower (OsPath.splitext_ext (name file))) (data file) = Ok text ->
  process file st = (r, st') ->
  exists doc,
    Doc.filename doc = name file /\
    documents (self st') = (documents (self st) ++ [doc])%list.
Proof.
  intros Htext. rewrite process_document_run, Htext.
  destruct (uuid4 (world st)) as [doc_id w1].
  destruct (timestamp_now w1) as [now w2]. cbv zeta.
  destruct (_split_into_sections _ _ _ _ _) as [r2 st2] eqn:Hsplit.
  apply split_sections_frame in Hsplit as (Hself & _ & _).
  intros Hrun. exists (document_of file doc_id now). split; [done|].
  destruct r2 as [secs|e].
  - destruct (embed_run _ _ _) as [[es ro] w3].
    destruct ro; injection Hrun as _ <-; simpl; by rewrite Hself.
  - injection Hrun as _ <-. by rewrite Hself.
Qed.

(** A failed ingestion is not undone: when a call raises after the text
    of its file was extracted, nothing is written, but the document stays
    in memory, and the next call that returns writes it to
    [documents.json] with the documents before it. *)
Theorem failed_document_is_saved_later (file1 file2 : UploadedFile)
    (st st1 st2 : St W) (text : string) (e : exn) :
  text_of (Py.lower (OsPath.splitext_ext (name file1))) (data file1) = Ok text ->
  process file1 st = (Raise e, st1) ->
  process file2 st1 = (Ok tt, st2) ->
  disk st1 = disk st /\
  exists doc later,
    Doc.filename doc = name file1 /\
    documents_json (disk st2) =
      Stored (documents (self st) ++ doc :: later)%list.
Proof.
  intros Htext Hrun1 Hrun2.
  destruct (process_document_adds_document _ _ _ _ _ Htext Hrun1)
    as (doc & Hname & Hdocs1).
  split.
  { by apply process_document_effect in Hrun1
      as [[-> _]|(? & ? & ? & ? & _ & ?)]. }
  apply process_document_effect in Hrun2
    as [[_ [? ?]]|(doc2 & secs & k & embs & Hin & _ & Hdisk)]; [done|].
  destruct Hin as (_ & _ & _ & _ & _ & _ & _ & _ & Hdocs2 & _).
  exists doc, [doc2]. split; [done|].
  rewrite Hdisk. destruct (save_writes_json (self st2) (disk st1)) as [-> _].
  by rewrite Hdocs2, Hdocs1, <- app_assoc.
Qed.

End FailureFacts.

Lemma failed_document_is_saved_later_witness :
  disk (Demo.process 4 Demo.notes Demo.start).2 = disk Demo.start /\
  exists doc later,
    Doc.filename doc = "notes.txt" /\
    documents_json
      (disk (Demo.process 4 Demo.blank
               (Demo.process 4 Demo.notes Demo.start).2).2) =
      Stored ([] ++ doc :: later)%list.
Proof.
  apply (failed_document_is_saved_later Demo.uuid4 Demo.timestamp_now Demo.chat
           (Demo.embed_until 4) Demo.no_pages Demo.no_pages Demo.decode
           Demo.notes Demo.blank Demo.start _ _ Demo.two_blocks APIError).
  - reflexivity.
  - reflexivity.
  - reflexivity.
Defined.
